(** * User-database synchronisation: the merge endpoint and the credential store

    A shallow embedding of the two HTTP handlers behind [/api/users/sync]
    ([get_users_for_sync], [receive_users_for_sync] and [verify_sync_token]
    in [dashboard_server_cloud.py]) and of the methods of [AuthDB]
    ([auth_db.py]), then of the session decorators with the account
    routes and of the live signal queues with their chart, followed by
    the properties of each.

    Conventions of the embedding:
    - the [users] table is a finite map from the primary key [id] to the
      remaining columns; SQL NULL and JSON null are [None];
    - an incoming user (a Python dict decoded from JSON) is a record of
      optional entries, so that [user['k']] can raise [KeyError] and
      [user.get('k')] can default to [None]; the entries are typed as the
      table's columns are (an integer [id], text or null elsewhere);
    - Python code that can raise runs in a state-and-exception monad in
      which the state survives a raise, as Python's variables and the open
      sqlite transaction do;
    - a [datetime] is its wall-clock reading in microseconds together with
      an optional UTC offset; [timedelta.total_seconds()] of a difference
      is compared with [1] exactly when the microsecond count is compared
      with [1000000] (the division by [10**6] is correctly rounded, hence
      monotone, and [999999/10**6] rounds below [1.0]). *)

From Stdlib Require Import ZArith Ascii String List Bool Lia.
From stdpp Require Import base option list strings gmap fin_maps sorting.

Local Open Scope string_scope.
Local Open Scope Z_scope.
Local Open Scope list_scope.

(** ** Python exceptions and the handler monad *)

Inductive exn :=
| KeyError (key : string)
| ValueError
| TypeError
| AttributeError
| IntegrityError
| OverflowError.

Inductive result (A : Type) :=
| Ok (a : A)
| Raise (e : exn).
Arguments Ok {A} a.
Arguments Raise {A} e.

(** ** Text columns and rows of the [users] table *)

(** A nullable text value: a stored TEXT/TIMESTAMP column or a JSON string. *)
Abbreviation text := (option string).

(** Python truthiness of [None] and [str]: the code's [not x]. *)
Definition truthy (v : text) : bool :=
  match v with
  | None => false
  | Some s => negb (String.eqb s "")
  end.

(** The columns of [users] other than the key (the [CREATE TABLE] of
    [AuthDB.init_database], plus the [updated_at] column the sync code
    reads and writes, whose declaration is not part of these sources).
    Every column holds the text it was given.  For [created_at] and
    [last_login], declared TIMESTAMP, this is what SQLite stores when
    the text is [kept_as_text] below; its conversion of number-like text
    to a number is outside the model. *)
Record row := Row {
  r_username : text;
  r_password_hash : text;
  r_nome : text;
  r_cognome : text;
  r_ruolo : text;
  r_created_at : text;
  r_last_login : text;
  r_updated_at : text
}.

(** *** Text in a TIMESTAMP column

    A column declared TIMESTAMP has NUMERIC affinity: a text that is a
    well-formed integer or real literal, white space around it allowed,
    is stored as that number; any other text is stored as it is. *)

Definition is_space (c : ascii) : bool :=
  let n := nat_of_ascii c in
  ((9 <=? n) && (n <=? 13) || (n =? 32))%nat.

Definition is_digit (c : ascii) : bool :=
  let n := nat_of_ascii c in
  ((48 <=? n) && (n <=? 57))%nat.

Fixpoint skip_spaces (s : string) : string :=
  match s with
  | String c s' => if is_space c then skip_spaces s' else s
  | EmptyString => s
  end.

Definition skip_sign (s : string) : string :=
  match s with
  | String c s' =>
      if Ascii.eqb c "+"%char || Ascii.eqb c "-"%char then s' else s
  | EmptyString => s
  end.

(** The number of leading digits, and what follows them. *)
Fixpoint skip_digits (s : string) : nat * string :=
  match s with
  | String c s' =>
      if is_digit c then
        let '(n, rest) := skip_digits s' in (S n, rest)
      else (0%nat, s)
  | EmptyString => (0%nat, s)
  end.

(** Is [s] a well-formed integer or real literal: an optional sign,
    digits with an optional decimal point among them (at least one
    digit), an optional exponent with at least one digit? *)
Definition numeric_literal (s : string) : bool :=
  let '(n1, s1) := skip_digits (skip_sign (skip_spaces s)) in
  let '(n2, s2) :=
    match s1 with
    | String "." s' => skip_digits s'
    | _ => (0%nat, s1)
    end in
  if (n1 + n2 =? 0)%nat then false
  else
    match s2 with
    | String c s' =>
        if Ascii.eqb c "e"%char || Ascii.eqb c "E"%char then
          let '(n3, s3) := skip_digits (skip_sign s') in
          negb (n3 =? 0)%nat && String.eqb (skip_spaces s3) ""
        else String.eqb (skip_spaces s2) ""
    | EmptyString => true
    end.

(** Does a TIMESTAMP column hold the value as it was bound? *)
Definition kept_as_text (v : text) : bool :=
  match v with
  | None => true
  | Some s => negb (numeric_literal s)
  end.

(** One entry of the JSON array [users]: every key may be absent. *)
Record user := User {
  u_id : option Z;
  u_username : option text;
  u_password_hash : option text;
  u_nome : option text;
  u_cognome : option text;
  u_ruolo : option text;
  u_created_at : option text;
  u_last_login : option text;
  u_updated_at : option text
}.

(** An entry of the response's [conflicts] list; [local_ts] and
    [incoming_ts] are only present for ["local_newer"]. *)
Record conflict := Conflict {
  c_id : Z;
  c_username : text;
  c_reason : string;
  c_local_ts : option text;
  c_incoming_ts : option text
}.

(** What the handler does to the database connection, in order. *)
Inductive db_event :=
| EvConnect
| EvSelectUser (uid : Z)
| EvSelectAll
| EvUpdate (uid : Z)
| EvInsert (uid : Z)
| EvCommit
| EvClose.

(** The local variables of [receive_users_for_sync] and the contents of
    [users] as seen through its cursor (uncommitted writes included). *)
Record st := St {
  cur : gmap Z row;
  updated : nat;
  inserted : nat;
  conflicts : list conflict;
  db_log : list db_event
}.

Definition M (A : Type) : Type := st -> st * result A.

Definition ret {A} (a : A) : M A := fun s => (s, Ok a).
Definition raise {A} (e : exn) : M A := fun s => (s, Raise e).
Definition bind {A B} (m : M A) (k : A -> M B) : M B :=
  fun s => match m s with
           | (s', Ok a) => k a s'
           | (s', Raise e) => (s', Raise e)
           end.

(** [try: m except Exception as e: h e] *)
Definition try_except {A} (m : M A) (h : exn -> M A) : M A :=
  fun s => match m s with
           | (s', Ok a) => (s', Ok a)
           | (s', Raise e) => h e s'
           end.

Notation "'let*' x := c1 'in' c2" := (bind c1 (fun x => c2))
  (at level 10, x name, c1 at level 100, c2 at level 200).
Notation "c1 ;;; c2" := (bind c1 (fun _ => c2))
  (at level 100, right associativity).

(** [for x in l: body x] where the body ends either normally or by
    [continue]. *)
Fixpoint for_each {A} (body : A -> M unit) (l : list A) : M unit :=
  match l with
  | [] => ret tt
  | x :: l' => body x ;;; for_each body l'
  end.

(** [d['k']] and [d.get('k')] on an entry of the incoming dict. *)
Definition getitem {A} (key : string) (entry : option A) : M A :=
  match entry with
  | Some v => ret v
  | None => raise (KeyError key)
  end.

Definition dict_get (entry : option text) : text :=
  match entry with
  | Some v => v
  | None => None
  end.

Definition log_event (e : db_event) : M unit :=
  fun s => (St (cur s) (updated s) (inserted s) (conflicts s) (db_log s ++ [e]), Ok tt).

Definition conflicts_append (c : conflict) : M unit :=
  fun s => (St (cur s) (updated s) (inserted s) (conflicts s ++ [c]) (db_log s), Ok tt).

Definition incr_updated : M unit :=
  fun s => (St (cur s) (S (updated s)) (inserted s) (conflicts s) (db_log s), Ok tt).

Definition incr_inserted : M unit :=
  fun s => (St (cur s) (updated s) (S (inserted s)) (conflicts s) (db_log s), Ok tt).

Definition set_cur (t : gmap Z row) : M unit :=
  fun s => (St t (updated s) (inserted s) (conflicts s) (db_log s), Ok tt).

(** ** Timestamps *)

(** A Python [datetime]: wall-clock microseconds since 0001-01-01T00:00:00
    and [utcoffset()] in microseconds ([None] for a naive value). *)
Record datetime := DateTime {
  dt_wall : Z;
  dt_utcoffset : option Z
}.

(** [a - b] as a [timedelta] in microseconds; mixing naive and aware
    operands raises [TypeError]. *)
Definition dt_sub (a b : datetime) : result Z :=
  match dt_utcoffset a, dt_utcoffset b with
  | None, None => Ok (dt_wall a - dt_wall b)
  | Some oa, Some ob => Ok ((dt_wall a - oa) - (dt_wall b - ob))
  | _, _ => Raise TypeError
  end.

(** [a > b] *)
Definition dt_gt (a b : datetime) : result bool :=
  match dt_utcoffset a, dt_utcoffset b with
  | None, None => Ok (dt_wall b <? dt_wall a)
  | Some oa, Some ob => Ok (dt_wall b - ob <? dt_wall a - oa)
  | _, _ => Raise TypeError
  end.

Definition lift {A} (r : result A) : M A := fun s => (s, r).

(** [s.replace('Z', '+00:00')] *)
Fixpoint replace_Z (s : string) : string :=
  match s with
  | EmptyString => EmptyString
  | String c s' =>
      if Ascii.eqb c "Z"%char then "+00:00" +:+ replace_Z s'
      else String c (replace_Z s')
  end.

(** ** SQLite's integer range and the constraints of [users] *)

(** The sqlite3 module raises [OverflowError] when it binds a Python int
    that does not fit SQLite's 64-bit INTEGER. *)
Definition sqlite_int (n : Z) : bool :=
  (- 2 ^ 63 <=? n) && (n <? 2 ^ 63).

Definition bind_int (n : Z) : M unit :=
  if sqlite_int n then ret tt else raise OverflowError.

(** [ruolo TEXT NOT NULL CHECK(ruolo IN ('paziente', 'medico', 'admin'))] *)
Definition ruolo_valid (s : string) : bool :=
  String.eqb s "paziente" || String.eqb s "medico" || String.eqb s "admin".

(** The NOT NULL and CHECK constraints on one row. *)
Definition row_ok (r : row) : bool :=
  match r_username r, r_password_hash r, r_nome r, r_cognome r, r_ruolo r with
  | Some _, Some _, Some _, Some _, Some ro => ruolo_valid ro
  | _, _, _, _, _ => false
  end.

(** [username TEXT UNIQUE]: no row other than [uid] carries [name]. *)
Definition username_free (t : gmap Z row) (uid : Z) (name : text) : bool :=
  bool_decide (map_Forall (fun k r => k = uid \/ r_username r <> name) t).

(** Would SQLite accept [r] as the row of key [uid] in table [t]? *)
Definition constraints_ok (t : gmap Z row) (uid : Z) (r : row) : bool :=
  row_ok r && username_free t uid (r_username r).

(** ** The SQL statements of the merge, on the cursor's view of [users] *)

(** [SELECT id, updated_at FROM users WHERE id = ?] followed by
    [fetchone()]. *)
Definition select_id_updated_at (uid : Z) : M (option (Z * text)) :=
  bind_int uid ;;;
  log_event (EvSelectUser uid) ;;;
  fun s => (s, Ok (match cur s !! uid with
                   | Some r => Some (uid, r_updated_at r)
                   | None => None
                   end)).

(** [UPDATE users SET username=?, ..., updated_at=? WHERE id=?]: the whole
    row is replaced by the values bound (see [row] for what the two
    TIMESTAMP columns keep); a violated constraint raises
    [IntegrityError] and leaves the table as it was. *)
Definition update_users (uid : Z) (r : row) : M unit :=
  bind_int uid ;;;
  log_event (EvUpdate uid) ;;;
  fun s => match cur s !! uid with
           | None => (s, Ok tt)
           | Some _ =>
               if constraints_ok (cur s) uid r
               then set_cur (<[uid := r]> (cur s)) s
               else (s, Raise IntegrityError)
           end.

(** [INSERT INTO users (id, username, ..., updated_at) VALUES (...)]: the
    primary key must be new and the row must satisfy the constraints. *)
Definition insert_users (uid : Z) (r : row) : M unit :=
  bind_int uid ;;;
  log_event (EvInsert uid) ;;;
  fun s => match cur s !! uid with
           | Some _ => (s, Raise IntegrityError)
           | None =>
               if constraints_ok (cur s) uid r
               then set_cur (<[uid := r]> (cur s)) s
               else (s, Raise IntegrityError)
           end.

(** ** HTTP requests and responses of [/api/users/sync] *)

Record request := Request {
  x_sync_token : option string;   (* request.headers.get('X-Sync-Token') *)
  body_users : list user          (* request.get_json().get('users', []) *)
}.

Inductive response :=
| Unauthorized
| BadRequest
| UsersOk (users : list (Z * row))
| SyncOk (n_updated n_inserted : nat) (cs : list conflict)
| ServerError (e : exn).

Definition status_code (r : response) : Z :=
  match r with
  | Unauthorized => 401
  | BadRequest => 400
  | UsersOk _ => 200
  | SyncOk _ _ _ => 200
  | ServerError _ => 500
  end.

(** A handled request: the response, the committed contents of [users]
    afterwards, and the database operations performed. *)
Record outcome := Outcome {
  resp : response;
  db_after : gmap Z row;
  db_trace : list db_event
}.

Section SyncAPI.

(** [SYNC_TOKEN = SYNC_CONFIG.SYNC_TOKEN], the configured shared secret
    (a string; [SyncConfig] lives in [db_sync_module]). *)
Variable SYNC_TOKEN : string.

(** [datetime.fromisoformat]: [None] stands for [ValueError]. *)
Variable fromisoformat : string -> option datetime.

Definition verify_sync_token (req : request) : bool :=
  bool_decide (x_sync_token req = Some SYNC_TOKEN).

(** [GET /api/users/sync] *)
Definition get_users_for_sync (req : request) (db : gmap Z row) : outcome :=
  if negb (verify_sync_token req) then Outcome Unauthorized db []
  else Outcome (UsersOk (map_to_list db)) db [EvConnect; EvSelectAll; EvClose].

(** [datetime.fromisoformat(v.replace('Z', '+00:00'))] *)
Definition parse_ts (v : text) : M datetime :=
  match v with
  | None => raise AttributeError
  | Some s =>
      match fromisoformat (replace_Z s) with
      | Some d => ret d
      | None => raise ValueError
      end
  end.

(** The row written by the UPDATE branch: [user['updated_at']] is
    subscripted, the two other timestamps are read with [.get]. *)
Definition update_params (user : user) : M row :=
  let* username := getitem "username" (u_username user) in
  let* password_hash := getitem "password_hash" (u_password_hash user) in
  let* nome := getitem "nome" (u_nome user) in
  let* cognome := getitem "cognome" (u_cognome user) in
  let* ruolo := getitem "ruolo" (u_ruolo user) in
  let* updated_at := getitem "updated_at" (u_updated_at user) in
  ret (Row username password_hash nome cognome ruolo
           (dict_get (u_created_at user)) (dict_get (u_last_login user))
           updated_at).

(** The row written by the INSERT branch: all three timestamps are read
    with [.get]. *)
Definition insert_params (user : user) : M row :=
  let* username := getitem "username" (u_username user) in
  let* password_hash := getitem "password_hash" (u_password_hash user) in
  let* nome := getitem "nome" (u_nome user) in
  let* cognome := getitem "cognome" (u_cognome user) in
  let* ruolo := getitem "ruolo" (u_ruolo user) in
  ret (Row username password_hash nome cognome ruolo
           (dict_get (u_created_at user)) (dict_get (u_last_login user))
           (dict_get (u_updated_at user))).

(** [conflicts.append({'id': user['id'], 'username': user['username'],
    'reason': reason, ...})] *)
Definition report_conflict (user : user) (reason : string)
    (local_ts incoming_ts : option text) : M unit :=
  let* uid := getitem "id" (u_id user) in
  let* username := getitem "username" (u_username user) in
  conflicts_append (Conflict uid username reason local_ts incoming_ts).

(** The [try] block that compares the two timestamps of an existing user. *)
Definition compare_timestamps (user : user) (existing_updated_at : text)
    : M unit :=
  let incoming_updated := dict_get (u_updated_at user) in
  if negb (truthy incoming_updated) || negb (truthy existing_updated_at) then
    report_conflict user "missing_timestamp" None None
  else
    let* incoming_ts := parse_ts incoming_updated in
    let* existing_ts := parse_ts existing_updated_at in
    let* delta := lift (dt_sub incoming_ts existing_ts) in
    let diff := Z.abs delta in
    if diff <? 1000000 then
      ret tt
    else
      let* newer := lift (dt_gt incoming_ts existing_ts) in
      if (newer : bool) then
        let* r := update_params user in
        let* uid := getitem "id" (u_id user) in
        update_users uid r ;;;
        incr_updated
      else
        report_conflict user "local_newer"
          (Some existing_updated_at) (Some incoming_updated).

(** The body of [for user in users]. *)
Definition process_user (user : user) : M unit :=
  let* uid := getitem "id" (u_id user) in
  let* existing := select_id_updated_at uid in
  match existing with
  | Some (existing_id, existing_updated_at) =>
      try_except
        (compare_timestamps user existing_updated_at)
        (fun ts_error => report_conflict user "timestamp_parse_error" None None)
  | None =>
      let* uid := getitem "id" (u_id user) in
      let* r := insert_params user in
      insert_users uid r ;;;
      incr_inserted
  end.

(** [POST /api/users/sync]: everything after the token check runs under
    one [try]; [conn.commit()] is reached only when the loop finishes. *)
Definition receive_users_for_sync (req : request) (db : gmap Z row) : outcome :=
  if negb (verify_sync_token req) then Outcome Unauthorized db []
  else
    match body_users req with
    | [] => Outcome BadRequest db []
    | users =>
        match for_each process_user users (St db 0 0 [] [EvConnect]) with
        | (s, Ok _) =>
            Outcome (SyncOk (updated s) (inserted s) (conflicts s))
                    (cur s) (db_log s ++ [EvCommit; EvClose])
        | (s, Raise e) =>
            Outcome (ServerError e) db (db_log s)
        end
    end.

End SyncAPI.

(** ** A reference [fromisoformat]

    The parser below accepts the ISO 8601 strings the two peers store and
    exchange: SQLite's [datetime('now')] ([YYYY-MM-DD HH:MM:SS]),
    [datetime.isoformat()] ([YYYY-MM-DDTHH:MM:SS], optionally followed by
    [.ffffff]) and either of them with a [+HH:MM] or [-HH:MM] offset.
    Anything else is rejected, including the rarer spellings Python
    accepts (a time without seconds, a three-digit fraction, an offset
    with seconds).  It is used to run the handlers on concrete batches;
    the general results hold for any [fromisoformat]. *)
Module Iso.

Definition digit (c : ascii) : option Z :=
  let n := Z.of_N (N_of_ascii c) in
  if (48 <=? n) && (n <=? 57) then Some (n - 48) else None.

(** Reads exactly [k] decimal digits. *)
Fixpoint number (k : nat) (acc : Z) (s : string) : option (Z * string) :=
  match k with
  | O => Some (acc, s)
  | S k' =>
      match s with
      | EmptyString => None
      | String c s' => d ← digit c; number k' (10 * acc + d) s'
      end
  end.

Definition expect (c : ascii) (s : string) : option string :=
  match s with
  | String c' s' => if Ascii.eqb c c' then Some s' else None
  | EmptyString => None
  end.

Definition is_leap (y : Z) : bool :=
  (y mod 4 =? 0) && (negb (y mod 100 =? 0) || (y mod 400 =? 0)).

Definition days_in_month (y m : Z) : Z :=
  if m =? 2 then (if is_leap y then 29 else 28)
  else if (m =? 4) || (m =? 6) || (m =? 9) || (m =? 11) then 30
  else 31.

(** Days from 0001-01-01 to [y]-[m]-[d] in the proleptic Gregorian
    calendar. *)
Definition ordinal (y m d : Z) : Z :=
  let y' := if m <=? 2 then y - 1 else y in
  let era := y' / 400 in
  let yoe := y' - era * 400 in
  let mp := (m + 9) mod 12 in
  let doy := (153 * mp + 2) / 5 + d - 1 in
  let doe := yoe * 365 + yoe / 4 - yoe / 100 + doy in
  era * 146097 + doe - 306.

Definition date (s : string) : option (Z * string) :=
  '(y, s) ← number 4 0 s;
  s ← expect "-" s;
  '(m, s) ← number 2 0 s;
  s ← expect "-" s;
  '(d, s) ← number 2 0 s;
  if (1 <=? y) && (1 <=? m) && (m <=? 12) && (1 <=? d) && (d <=? days_in_month y m)
  then Some (ordinal y m d, s)
  else None.

(** [HH:MM:SS], as seconds since midnight. *)
Definition clock (s : string) : option (Z * string) :=
  '(h, s) ← number 2 0 s;
  s ← expect ":" s;
  '(m, s) ← number 2 0 s;
  s ← expect ":" s;
  '(sec, s) ← number 2 0 s;
  if (h <=? 23) && (m <=? 59) && (sec <=? 59)
  then Some ((h * 60 + m) * 60 + sec, s)
  else None.

(** An optional [.ffffff]. *)
Definition fraction (s : string) : option (Z * string) :=
  match s with
  | String "." s' => number 6 0 s'
  | _ => Some (0, s)
  end.

(** An optional [+HH:MM] or [-HH:MM], in microseconds; nothing may follow. *)
Definition offset (s : string) : option (option Z) :=
  match s with
  | EmptyString => Some None
  | String c s' =>
      sign ← (if Ascii.eqb c "+" then Some 1
              else if Ascii.eqb c "-" then Some (-1) else None);
      '(h, s) ← number 2 0 s';
      s ← expect ":" s;
      '(m, s) ← number 2 0 s;
      match s with
      | EmptyString =>
          if (h <=? 23) && (m <=? 59)
          then Some (Some (sign * ((h * 60 + m) * 60 * 1000000)))
          else None
      | _ => None
      end
  end.

Definition fromisoformat (s : string) : option datetime :=
  '(days, s) ← date s;
  match s with
  | EmptyString => Some (DateTime (days * 86400 * 1000000) None)
  | String _ s =>
      '(secs, s) ← clock s;
      '(us, s) ← fraction s;
      tz ← offset s;
      Some (DateTime ((days * 86400 + secs) * 1000000 + us) tz)
  end.

End Iso.

(** ** The credential store ([auth_db.py])

    Each method opens its own connection and commits at most once, so a
    method maps the committed database to a result and the database
    afterwards; a method that raises leaves the database as it was. *)
Module AuthDB.

Record session := Session {
  s_user_id : Z;
  s_session_token : string;
  s_expires_at : string
}.

Record db := Db {
  users : gmap Z row;
  sessions : list session
}.

Inductive reply :=
| Failure (error : string)
| Registered (user_id : Z)
| LoggedIn (session_token : string) (user_id : Z) (user : row)
| Updated.

Section Methods.

(** [bcrypt.hashpw(password, bcrypt.gensalt())] and [bcrypt.checkpw]. *)
Variable hash_password : string -> string.
Variable verify_password : string -> string -> result bool.

(** The rowid SQLite's AUTOINCREMENT assigns to the next inserted user. *)
Variable next_rowid : gmap Z row -> Z.

(** [SELECT * FROM users WHERE username = ?] followed by [fetchone()]. *)
Definition select_by_username (t : gmap Z row) (username : string)
    : option (Z * row) :=
  head (filter (fun kr => r_username kr.2 = Some username) (map_to_list t)).

(** [register_user]; [now] is SQLite's [datetime('now')], which is also
    the column default of [created_at].  An [IntegrityError] of the
    INSERT is caught and reported as a database error. *)
Definition register_user (username password nome cognome ruolo : string)
    (now : string) (d : db) : reply * db :=
  if negb (ruolo_valid ruolo) then (Failure "Ruolo non valido", d)
  else
    match select_by_username (users d) username with
    | Some _ => (Failure "Username già esistente", d)
    | None =>
        let password_hash := hash_password password in
        let uid := next_rowid (users d) in
        let r := Row (Some username) (Some password_hash) (Some nome)
                     (Some cognome) (Some ruolo) (Some now) None (Some now) in
        match users d !! uid with
        | Some _ => (Failure "Errore database", d)
        | None =>
            if constraints_ok (users d) uid r
            then (Registered uid, Db (<[uid := r]> (users d)) (sessions d))
            else (Failure "Errore database", d)
        end
    end.

Definition set_last_login (now : string) (r : row) : row :=
  Row (r_username r) (r_password_hash r) (r_nome r) (r_cognome r)
      (r_ruolo r) (r_created_at r) (Some now) (r_updated_at r).

(** [login]; [session_token] is [secrets.token_urlsafe(32)] and
    [expires_at] is forty minutes from the call. *)
Definition login (username password : string)
    (session_token expires_at now : string) (d : db) : result reply * db :=
  match select_by_username (users d) username with
  | None => (Ok (Failure "Username o password errati"), d)
  | Some (uid, user) =>
      match r_password_hash user with
      | None => (Raise AttributeError, d)
      | Some password_hash =>
          match verify_password password password_hash with
          | Raise e => (Raise e, d)
          | Ok false => (Ok (Failure "Username o password errati"), d)
          | Ok true =>
              if bool_decide (session_token ∈ map s_session_token (sessions d))
              then (Raise IntegrityError, d)
              else
                (Ok (LoggedIn session_token uid user),
                 Db (<[uid := set_last_login now user]> (users d))
                    (sessions d ++ [Session uid session_token expires_at]))
          end
      end
  end.

(** [SET col = ?] only when the argument is given and non-empty. *)
Definition assign (new : text) (old : text) : text :=
  if truthy new then new else old.

(** [update_user]; the UPDATE binds [user_id], which must fit SQLite's
    INTEGER. *)
Definition update_user (user_id : Z) (nome cognome ruolo new_password : text)
    (now : string) (d : db) : result reply * db :=
  if truthy ruolo && negb (ruolo_valid (default "" ruolo))
  then (Ok (Failure "Ruolo non valido"), d)
  else if negb (truthy nome || truthy cognome || truthy ruolo || truthy new_password)
  then (Ok (Failure "Nessun campo da aggiornare"), d)
  else if negb (sqlite_int user_id)
  then (Raise OverflowError, d)
  else
    match users d !! user_id with
    | None => (Ok (Failure "Utente non trovato"), d)
    | Some r =>
        let password_hash :=
          if truthy new_password
          then hash_password <$> new_password
          else r_password_hash r in
        let r' := Row (r_username r)
                      password_hash
                      (assign nome (r_nome r))
                      (assign cognome (r_cognome r))
                      (assign ruolo (r_ruolo r))
                      (r_created_at r) (r_last_login r) (Some now) in
        (Ok Updated, Db (<[user_id := r']> (users d)) (sessions d))
    end.

End Methods.

End AuthDB.

(** ** Vocabulary of the properties *)

(** The state a handler starts from, up to the log, and the sum of two
    states: the table of the second, the accumulators of both. *)
Definition blank (t : gmap Z row) : st := St t 0 0 [] [].

Definition extend (s d : st) : st :=
  St (cur d) (updated s + updated d) (inserted s + inserted d)
     (conflicts s ++ conflicts d) (db_log s ++ db_log d).

Definition framed {A} (m : M A) : Prop :=
  forall s, m s = (extend s (m (blank (cur s))).1, (m (blank (cur s))).2).

(** The row a record denotes when it carries the five required keys. *)
Definition record_row (u : user) : option row :=
  username ← u_username u;
  password_hash ← u_password_hash u;
  nome ← u_nome u;
  cognome ← u_cognome u;
  ruolo ← u_ruolo u;
  Some (Row username password_hash nome cognome ruolo
            (dict_get (u_created_at u)) (dict_get (u_last_login u))
            (dict_get (u_updated_at u))).

(** State [s] after the listed database operations. *)
Definition logged (evs : list db_event) (s : st) : st :=
  St (cur s) (updated s) (inserted s) (conflicts s) (db_log s ++ evs).

(** [s'] has the table and the two counters of [s]. *)
Definition unwritten (s s' : st) : Prop :=
  cur s' = cur s /\ updated s' = updated s /\ inserted s' = inserted s.

(** Nothing was written, and the record either raised or was reported. *)
Definition skipped (s s' : st) (res : result unit) : Prop :=
  unwritten s s' /\
  ((exists e, res = Raise e) \/ (exists c, conflicts s' = conflicts s ++ [c])).

(** The record's id exists and the two timestamps are less than a second
    apart. *)
Definition within_tolerance (fromisoformat : string -> option datetime)
    (u : user) (t : gmap Z row) (n : Z) : Prop :=
  exists r0 tin tloc din dloc delta,
    u_id u = Some n /\ sqlite_int n = true /\ t !! n = Some r0 /\
    u_updated_at u = Some (Some tin) /\ tin <> "" /\
    r_updated_at r0 = Some tloc /\ tloc <> "" /\
    fromisoformat (replace_Z tin) = Some din /\
    fromisoformat (replace_Z tloc) = Some dloc /\
    dt_sub din dloc = Ok delta /\ Z.abs delta < 1000000.

Inductive step_outcome (fromisoformat : string -> option datetime)
    (u : user) (s s' : st) (res : result unit) : Prop :=
| Tolerated n :
    within_tolerance fromisoformat u (cur s) n ->
    s' = logged [EvSelectUser n] s -> res = Ok tt ->
    step_outcome fromisoformat u s s' res
| Skipped :
    skipped s s' res -> step_outcome fromisoformat u s s' res
| Inserted n r :
    u_id u = Some n -> sqlite_int n = true ->
    cur s !! n = None -> record_row u = Some r ->
    cur s' = <[n := r]> (cur s) -> updated s' = updated s ->
    inserted s' = S (inserted s) -> conflicts s' = conflicts s ->
    res = Ok tt ->
    step_outcome fromisoformat u s s' res
| Replaced n r r0 :
    u_id u = Some n -> sqlite_int n = true ->
    cur s !! n = Some r0 -> record_row u = Some r ->
    truthy (r_updated_at r) = true ->
    cur s' = <[n := r]> (cur s) -> updated s' = S (updated s) ->
    inserted s' = inserted s -> conflicts s' = conflicts s ->
    res = Ok tt ->
    step_outcome fromisoformat u s s' res.

(** The incoming timestamp is absent, null, empty or not ISO 8601. *)
Definition malformed_timestamp (fromisoformat : string -> option datetime)
    (u : user) : Prop :=
  truthy (dict_get (u_updated_at u)) = false \/
  exists tin, u_updated_at u = Some (Some tin) /\ tin <> "" /\
              fromisoformat (replace_Z tin) = None.

(** The record is at least a second newer than the local row [r0] but
    lacks one of the keys the UPDATE subscripts. *)
Definition missing_field_on_update (fromisoformat : string -> option datetime)
    (u : user) (r0 : row) : Prop :=
  record_row u = None /\
  exists tin tloc din dloc delta,
    u_updated_at u = Some (Some tin) /\ tin <> "" /\
    r_updated_at r0 = Some tloc /\ tloc <> "" /\
    fromisoformat (replace_Z tin) = Some din /\
    fromisoformat (replace_Z tloc) = Some dloc /\
    dt_sub din dloc = Ok delta /\ 1000000 <= delta.

(** The incoming [updated_at] is a non-empty string that parses. *)
Definition parseable (fromisoformat : string -> option datetime) (u : user)
    : Prop :=
  exists tin d, u_updated_at u = Some (Some tin) /\ tin <> "" /\
                fromisoformat (replace_Z tin) = Some d.

(** Record [u] is already synchronised with table [t]. *)
Definition settled (fromisoformat : string -> option datetime) (u : user)
    (t : gmap Z row) : Prop :=
  exists n, within_tolerance fromisoformat u t n.

(** ** Sample data *)

Definition alice (updated_at : string) : row :=
  Row (Some "alice") (Some "$2b$12$alice") (Some "Alice") (Some "Rossi")
      (Some "medico") (Some "2024-12-01 09:00:00") None (Some updated_at).

(** An incoming copy of user 1 as the peer would send it. *)
Definition alice_incoming (updated_at : text) : user :=
  User (Some 1) (Some (Some "alice")) (Some (Some "$2b$12$peer"))
       (Some (Some "Alice")) (Some (Some "Bianchi")) (Some (Some "medico"))
       (Some (Some "2024-12-24 18:30:00")) (Some (Some "2025-01-01 09:59:00"))
       (Some updated_at).

Definition alice_merged (updated_at : text) : row :=
  Row (Some "alice") (Some "$2b$12$peer") (Some "Alice") (Some "Bianchi")
      (Some "medico") (Some "2024-12-24 18:30:00")
      (Some "2025-01-01 09:59:00") updated_at.

Definition bob_incoming (uid : Z) (username : string) (updated_at : option text)
    : user :=
  User (Some uid) (Some (Some username)) (Some (Some "$2b$12$bob"))
       (Some (Some "Bob")) (Some (Some "Verdi")) (Some (Some "paziente"))
       (Some (Some "2025-01-01 08:00:00")) None updated_at.

Definition bob_row (username : string) (updated_at : text) : row :=
  Row (Some username) (Some "$2b$12$bob") (Some "Bob") (Some "Verdi")
      (Some "paziente") (Some "2025-01-01 08:00:00") None updated_at.

(** A table holding user 1 only. *)
Definition only_alice (updated_at : string) : gmap Z row :=
  {[ 1 := alice updated_at ]}.

Definition post (users : list user) : request :=
  Request (Some "test123") users.

(** An incoming copy of user 1 without the [password_hash] key. *)
Definition alice_without_hash (updated_at : text) : user :=
  User (Some 1) (Some (Some "alice")) None
       (Some (Some "Alice")) (Some (Some "Bianchi")) (Some (Some "medico"))
       (Some (Some "2024-12-24 18:30:00")) None (Some updated_at).

(** A record that lacks the [username] key. *)
Definition nameless (uid : Z) (updated_at : option text) : user :=
  User (Some uid) None (Some (Some "$2b$12$anon")) (Some (Some "Carla"))
       (Some (Some "Neri")) (Some (Some "paziente"))
       (Some (Some "2025-01-01 08:00:00")) None updated_at.

(** A store migrated to the [updated_at] column, whose only row, an
    administrator, was created before the migration. *)
Definition migrated_columns : list string :=
  ["id"; "username"; "password_hash"; "nome"; "cognome"; "ruolo";
   "created_at"; "last_login"; "updated_at"].

Definition legacy_admin : row :=
  Row (Some "admin") (Some "$2b$12$admin") (Some "Admin") (Some "System")
      (Some "admin") (Some "2024-11-01 08:00:00") None None.

(** A password check that accepts exactly the stored string. *)
Definition plain_check (password password_hash : string) : result bool :=
  Ok (String.eqb password password_hash).


(** ** The snapshot served by GET and the integrity of the table *)

(** [dict(row)] for a row of [SELECT * FROM users]: every column is a
    key of the dict. *)
Definition row_to_dict (kr : Z * row) : user :=
  User (Some kr.1) (Some (r_username kr.2)) (Some (r_password_hash kr.2))
       (Some (r_nome kr.2)) (Some (r_cognome kr.2)) (Some (r_ruolo kr.2))
       (Some (r_created_at kr.2)) (Some (r_last_login kr.2))
       (Some (r_updated_at kr.2)).

(** The rows of a scan of [users], in the order of the rowid. *)
Definition rowid_le (a b : Z * row) : Prop := a.1 <= b.1.

#[global] Instance rowid_le_dec : RelDecision rowid_le.
Proof. intros a b. unfold rowid_le. apply _. Defined.

Definition rowid_order (db : gmap Z row) : list (Z * row) :=
  merge_sort rowid_le (map_to_list db).

(** The [users] array of the body GET /api/users/sync answers with. *)
Definition snapshot (db : gmap Z row) : list user :=
  row_to_dict <$> rowid_order db.

(** Every stored row has a 64-bit key and satisfies the constraints of
    [CREATE TABLE users]. *)
Definition table_ok (t : gmap Z row) : Prop :=
  map_Forall (fun k r => sqlite_int k = true /\ constraints_ok t k r = true) t.

(** A computation that keeps a property of the table. *)
Definition preserves (P : gmap Z row -> Prop) {A} (m : M A) : Prop :=
  forall s s' res, P (cur s) -> m s = (s', res) -> P (cur s').


(** ** The other methods of [AuthDB] ([auth_db.py])

    As in [AuthDB], a method maps the committed database to its result
    and the database afterwards.  The text comparisons of SQLite
    ([expires_at > datetime('now')]) are byte-wise, which is
    [String.ltb].  Foreign keys are not enforced (no [PRAGMA
    foreign_keys]), so deleting a user leaves the sessions alone. *)
Module AuthStore.

Import AuthDB.

Inductive answer :=
| Fail (error : string)
| SessionUser (user_id : Z) (username nome cognome ruolo : text)
| LoggedOut
| Cleaned (deleted : nat)
| Deleted.

(** [SELECT COUNT ... FROM users WHERE ruolo = 'admin'] *)
Definition admin_count (t : gmap Z row) : nat :=
  size (filter (fun kr => r_ruolo kr.2 = Some "admin") t).

(** The WHERE and JOIN conditions of [verify_session] on one session row. *)
Definition live (t : gmap Z row) (token now : string) (s : session) : bool :=
  String.eqb (s_session_token s) token
  && String.ltb now (s_expires_at s)
  && bool_decide (is_Some (t !! s_user_id s)).

(** [verify_session] *)
Definition verify_session (session_token : text) (now : string) (d : db)
    : answer :=
  if negb (truthy session_token) then Fail "Sessione non presente"
  else
    match head (filter (fun s => live (users d) (default "" session_token) now s)
                       (sessions d)) with
    | None => Fail "Sessione scaduta o non valida"
    | Some s =>
        match users d !! s_user_id s with
        | Some u =>
            SessionUser (s_user_id s) (r_username u) (r_nome u) (r_cognome u)
                        (r_ruolo u)
        | None => Fail "Sessione scaduta o non valida"
        end
    end.

(** [logout]: [DELETE FROM sessions WHERE session_token = ?] *)
Definition logout (session_token : string) (d : db) : answer * db :=
  (LoggedOut,
   Db (users d)
      (filter (fun s => s_session_token s <> session_token) (sessions d))).

(** [cleanup_expired_sessions]: [DELETE FROM sessions WHERE expires_at <
    datetime('now')]; the answer carries [cursor.rowcount]. *)
Definition cleanup_expired_sessions (now : string) (d : db) : answer * db :=
  let kept := filter (fun s => String.ltb (s_expires_at s) now = false)
                     (sessions d) in
  (Cleaned (length (sessions d) - length kept), Db (users d) kept).

(** [delete_user] *)
Definition delete_user (user_id : Z) (d : db) : result answer * db :=
  let admin_count := admin_count (users d) in
  if negb (sqlite_int user_id) then (Raise OverflowError, d)
  else
    match users d !! user_id with
    | None => (Ok (Fail "Utente non trovato"), d)
    | Some user =>
        if bool_decide (r_ruolo user = Some "admin") && (admin_count <=? 1)%nat
        then (Ok (Fail "Impossibile eliminare ultimo admin"), d)
        else (Ok Deleted, Db (delete user_id (users d)) (sessions d))
    end.

(** [UPDATE users SET updated_at = COALESCE(created_at, datetime('now'))
    WHERE updated_at IS NULL], on one row. *)
Definition backfill (now : string) (r : row) : row :=
  match r_updated_at r with
  | Some _ => r
  | None =>
      Row (r_username r) (r_password_hash r) (r_nome r) (r_cognome r)
          (r_ruolo r) (r_created_at r) (r_last_login r)
          (match r_created_at r with
           | Some created_at => Some created_at
           | None => Some now
           end)
  end.

(** [fix_null_updated_at]; [columns] are the column names that
    [PRAGMA table_info(users)] lists.  Without an [updated_at] column
    (the table [init_database] itself creates has none) the method
    returns before the UPDATE; with it the UPDATE runs, and nothing in
    it raises the [OperationalError] the method catches. *)
Definition fix_null_updated_at (columns : list string) (now : string)
    (d : db) : db :=
  if bool_decide ("updated_at" ∈ columns)
  then Db (backfill now <$> users d) (sessions d)
  else d.

Section Startup.

Variable hash_password : string -> string.
Variable next_rowid : gmap Z row -> Z.

(** [init_database]: [CREATE TABLE IF NOT EXISTS] touches no row; the
    default admin is created when no row has the role [admin].  The
    INSERT names neither [created_at] (default: now) nor [updated_at]
    (NULL, where the column exists), and its [IntegrityError] is not
    caught. *)
Definition init_database (now : string) (d : db) : result unit * db :=
  if (admin_count (users d) =? 0)%nat then
    let admin_password := hash_password "admin123" in
    let uid := next_rowid (users d) in
    let r := Row (Some "admin") (Some admin_password) (Some "Admin")
                 (Some "System") (Some "admin") (Some now) None None in
    match users d !! uid with
    | Some _ => (Raise IntegrityError, d)
    | None =>
        if constraints_ok (users d) uid r
        then (Ok tt, Db (<[uid := r]> (users d)) (sessions d))
        else (Raise IntegrityError, d)
    end
  else (Ok tt, d).

(** [AuthDB.__init__]: [init_database] then [fix_null_updated_at];
    [now] and [now'] are the clock readings of the two. *)
Definition __init__ (columns : list string) (now now' : string) (d : db)
    : result unit * db :=
  match init_database now d with
  | (Ok _, d') => (Ok tt, fix_null_updated_at columns now' d')
  | (Raise e, d') => (Raise e, d')
  end.

End Startup.

End AuthStore.


(** ** The session decorators and the account routes

    [require_auth], [require_role] and the routes under [/api/auth] and
    [/api/users/<int:user_id>] of the dashboard server.  A view is run
    against the credential store; it answers with a status code and a
    payload, or raises (Flask then answers 500). *)

Module Endpoints.

Import AuthDB.

(** [s.replace(old, '')] for a non-empty [old]: the occurrences are taken
    from the left and do not overlap; [skip] counts the characters of the
    occurrence under way that are still to be dropped. *)
Fixpoint remove_from (old : string) (skip : nat) (s : string) : string :=
  match s with
  | EmptyString => EmptyString
  | String c s' =>
      match skip with
      | S n => remove_from old n s'
      | O =>
          if String.prefix old (String c s')
          then remove_from old (String.length old - 1) s'
          else String c (remove_from old 0 s')
      end
  end.

(** [request.headers.get('Authorization', '').replace('Bearer ', '')] *)
Definition bearer_token (authorization : option string) : string :=
  remove_from "Bearer " 0 (default "" authorization).

(** [request.user], the dictionary [verify_session] returns. *)
Record req_user := ReqUser {
  ru_id : Z;
  ru_username : text;
  ru_nome : text;
  ru_cognome : text;
  ru_ruolo : text
}.

(** The row [get_user_by_id] selects, without [password_hash]. *)
Record profile := Profile {
  p_id : Z;
  p_username : text;
  p_nome : text;
  p_cognome : text;
  p_ruolo : text;
  p_created_at : text;
  p_last_login : text;
  p_updated_at : text
}.

Inductive payload :=
| Refused (error : string)
| Reply (r : reply)
| Answer (a : AuthStore.answer)
| Verified (user : req_user)
| Found (user : profile).

Definition response : Type := Z * payload.

(** A view function: it reads [request.user] when a decorator has set it. *)
Definition view : Type := option req_user -> db -> result response * db.

(** [require_auth(f)]; [now] is SQLite's [datetime('now')] when the
    session is verified. *)
Definition require_auth (authorization : option string) (now : string)
    (f : view) : view :=
  fun _ d =>
    let token := bearer_token authorization in
    if negb (truthy (Some token))
    then (Ok (401, Refused "Non autenticato"), d)
    else
      match AuthStore.verify_session (Some token) now d with
      | AuthStore.SessionUser user_id username nome cognome ruolo =>
          f (Some (ReqUser user_id username nome cognome ruolo)) d
      | _ => (Ok (401, Refused "Sessione scaduta"), d)
      end.

(** [require_role(required_role)(f)] *)
Definition require_role (required_role : string) (f : view) : view :=
  fun request_user d =>
    match request_user with
    | None => (Ok (401, Refused "Non autenticato"), d)
    | Some user =>
        let user_role := ru_ruolo user in
        if bool_decide (user_role = Some "admin") then f request_user d
        else if bool_decide (user_role <> Some required_role)
        then (Ok (403, Refused "Permessi insufficienti"), d)
        else f request_user d
    end.

(** [result['success']] *)
Definition reply_success (r : reply) : bool :=
  match r with
  | Failure _ => false
  | _ => true
  end.

Definition answer_success (a : AuthStore.answer) : bool :=
  match a with
  | AuthStore.Fail _ => false
  | _ => true
  end.

(** [AuthDB.get_user_by_id] *)
Definition get_user_by_id (user_id : Z) (d : db) : result (option profile) :=
  if negb (sqlite_int user_id) then Raise OverflowError
  else
    Ok (r ← users d !! user_id;
        Some (Profile user_id (r_username r) (r_nome r) (r_cognome r)
                (r_ruolo r) (r_created_at r) (r_last_login r)
                (r_updated_at r))).

Section Routes.

Variable hash_password : string -> string.
Variable verify_password : string -> string -> result bool.
Variable next_rowid : gmap Z row -> Z.

(** The body of the request, [request.get_json()]: a JSON object whose
    values are strings; [data.get(key)] is the lookup, and a key bound to
    [null] reads as a missing one. *)
Definition json : Type := gmap string string.

(** POST /api/auth/login *)
Definition api_login (data : json) (session_token expires_at now : string)
    (d : db) : result response * db :=
  let username := data !! "username" in
  let password := data !! "password" in
  if negb (truthy username) || negb (truthy password)
  then (Ok (400, Refused "Username e password richiesti"), d)
  else
    match login verify_password (default "" username) (default "" password)
            session_token expires_at now d with
    | (Ok r, d') => (Ok (if reply_success r then 200 else 401, Reply r), d')
    | (Raise e, d') => (Raise e, d')
    end.

(** POST /api/auth/register *)
Definition api_register (data : json) (now : string) (d : db)
    : result response * db :=
  let username := data !! "username" in
  let password := data !! "password" in
  let nome := data !! "nome" in
  let cognome := data !! "cognome" in
  let ruolo := data !! "ruolo" in
  if negb (forallb truthy [username; password; nome; cognome; ruolo])
  then (Ok (400, Refused "Tutti i campi sono richiesti"), d)
  else
    let '(r, d') :=
      register_user hash_password next_rowid
        (default "" username) (default "" password) (default "" nome)
        (default "" cognome) (default "" ruolo) now d in
    (Ok (if reply_success r then 200 else 400, Reply r), d').

(** POST /api/auth/logout *)
Definition api_logout (authorization : option string) (now : string)
    : db -> result response * db :=
  require_auth authorization now
    (fun _ d =>
       let token := bearer_token authorization in
       let '(a, d') := AuthStore.logout token d in
       (Ok (200, Answer a), d'))
    None.

(** GET /api/auth/verify *)
Definition api_verify (authorization : option string) (now : string)
    : db -> result response * db :=
  require_auth authorization now
    (fun request_user d =>
       match request_user with
       | Some user => (Ok (200, Verified user), d)
       | None => (Raise AttributeError, d)
       end)
    None.

(** The three views under [/api/users/<int:user_id>] are given as
    functions of [user_id], as in the source.  The URL converter [int]
    matches digits only, so a request reaches them with a non-negative
    [user_id]; a path with a negative number is answered 404 by the
    router and runs no view. *)

(** GET /api/users/<int:user_id> *)
Definition api_get_user (authorization : option string) (user_id : Z)
    (now : string) : db -> result response * db :=
  require_auth authorization now
    (require_role "admin"
       (fun _ d =>
          match get_user_by_id user_id d with
          | Ok (Some user) => (Ok (200, Found user), d)
          | Ok None => (Ok (404, Reply (Failure "Utente non trovato")), d)
          | Raise e => (Raise e, d)
          end))
    None.

(** PUT /api/users/<int:user_id>; [now'] is [datetime('now')] at the
    UPDATE. *)
Definition api_update_user (authorization : option string) (user_id : Z)
    (data : json) (now now' : string) : db -> result response * db :=
  require_auth authorization now
    (require_role "admin"
       (fun _ d =>
          let nome := data !! "nome" in
          let cognome := data !! "cognome" in
          let ruolo := data !! "ruolo" in
          let new_password := data !! "new_password" in
          match update_user hash_password user_id nome cognome ruolo
                  new_password now' d with
          | (Ok r, d') => (Ok (if reply_success r then 200 else 400, Reply r), d')
          | (Raise e, d') => (Raise e, d')
          end))
    None.

(** DELETE /api/users/<int:user_id> *)
Definition api_delete_user (authorization : option string) (user_id : Z)
    (now : string) : db -> result response * db :=
  require_auth authorization now
    (require_role "admin"
       (fun _ d =>
          match AuthStore.delete_user user_id d with
          | (Ok a, d') => (Ok (if answer_success a then 200 else 400, Answer a), d')
          | (Raise e, d') => (Raise e, d')
          end))
    None.

End Routes.

(** The condition under which the two decorators let an admin-only view
    run: a session with the presented token that has not expired and
    belongs to a user whose role is [admin]. *)
Definition admin_session (authorization : option string) (now : string)
    (d : db) : Prop :=
  exists s r,
    s ∈ sessions d /\
    s_session_token s = bearer_token authorization /\
    String.ltb now (s_expires_at s) = true /\
    users d !! s_user_id s = Some r /\
    r_ruolo r = Some "admin".

(** The answers of the decorators themselves. *)
Definition refused (res : result response) : Prop :=
  exists code error, res = Ok (code, Refused error) /\ (code = 401 \/ code = 403).

(** No space in a string, as in the tokens of [secrets.token_urlsafe]. *)
Fixpoint spaceless (s : string) : bool :=
  match s with
  | EmptyString => true
  | String c s' => negb (Ascii.eqb c " "%char) && spaceless s'
  end.

End Endpoints.

(** ** The live signal queues and the chart data

    [DashboardState], [validate_signal_name], [push_data] and
    [prepare_chart_data] of the dashboard server.  The sample values
    (JSON numbers) and the timestamps are kept abstract: the code copies
    them and never computes with them. *)

Module Chart.

Inductive error :=
| IndexError
| ZeroDivisionError
| ValueError.

Inductive res (A : Type) :=
| Ret (a : A)
| Err (e : error).
Arguments Ret {A} a.
Arguments Err {A} e.

(** The three keys of [state.data_queues] and [state.stats]. *)
Inductive signal := ECG | ADC | TEMP.

#[global] Instance signal_eq_dec : EqDecision signal.
Proof. solve_decision. Defined.

(** [validate_signal_name] *)
Definition allowed_signals : list string := ["ECG"; "ADC"; "TEMP"].

Definition validate_signal_name (signal : string) : bool :=
  bool_decide (signal ∈ allowed_signals).

(** The entry of the two dictionaries a valid name selects. *)
Definition key (signal_name : string) : option signal :=
  if String.eqb signal_name "ECG" then Some ECG
  else if String.eqb signal_name "ADC" then Some ADC
  else if String.eqb signal_name "TEMP" then Some TEMP
  else None.

(** [d[sig] = b] on a dictionary with the three keys. *)
Definition assign {B} (d : signal -> B) (sig : signal) (b : B) : signal -> B :=
  fun k => if decide (k = sig) then b else d k.

(** [data[::step]] for a positive [step]: the elements at the indices 0,
    [step], [2*step], ...; [skip] counts the elements still to be passed
    over before the next one is taken. *)
Fixpoint stride {A} (step skip : nat) (l : list A) : list A :=
  match l with
  | [] => []
  | a :: l' =>
      match skip with
      | O => a :: stride step (step - 1) l'
      | S k => stride step k l'
      end
  end.

(** [data[::step]]: a negative step walks from the last element down, a
    zero step is a [ValueError]. *)
Definition slice_step {A} (step : Z) (data : list A) : res (list A) :=
  if step =? 0 then Err ValueError
  else if 0 <? step then Ret (stride (Z.to_nat step) 0 data)
  else Ret (stride (Z.to_nat (- step)) 0 (rev data)).

Section Data.

Variables V T : Type.

(** An element of a queue: [{'values': frame, 'timestamp': ...}]. *)
Record entry := Entry {
  values : list V;
  timestamp : T
}.

(** [collections.deque(maxlen=...)] *)
Record deque := Deque {
  maxlen : nat;
  items : list entry
}.

(** [deque.append]: when the queue is full the oldest element goes. *)
Definition deque_append (q : deque) (e : entry) : deque :=
  let l := items q ++ [e] in
  Deque (maxlen q) (drop (length l - maxlen q) l).

Record stat := Stat {
  samples : nat;
  last_update : option string;
  current_temp : option V
}.

Record state := State {
  data_queues : signal -> deque;
  stats : signal -> stat;
  packet_count : nat
}.

(** The queues and counters of [DashboardState.__init__]. *)
Definition DashboardState : state :=
  State (fun s => Deque (match s with TEMP => 120 | _ => 2500 end)%nat [])
        (fun _ => Stat 0 None None)
        0.

Record chart := ChartData {
  chart_x : list nat;
  chart_y : list (list V)
}.

(** The inner loop of [prepare_chart_data]:
    [for ch in range(num_channels): y_data[ch].append(point['values'][ch])] *)
Fixpoint append_channels (channels : list nat) (point_values : list V)
    (y_data : list (list V)) : res (list (list V)) :=
  match channels with
  | [] => Ret y_data
  | ch :: channels' =>
      match point_values !! ch with
      | None => Err IndexError
      | Some v =>
          append_channels channels' point_values
            (alter (fun l => l ++ [v]) ch y_data)
      end
  end.

(** The outer loop: [for point in data: ...] *)
Fixpoint fill_channels (num_channels : nat) (data : list entry)
    (y_data : list (list V)) : res (list (list V)) :=
  match data with
  | [] => Ret y_data
  | point :: data' =>
      match append_channels (seq 0 num_channels) (values point) y_data with
      | Err e => Err e
      | Ret y_data' => fill_channels num_channels data' y_data'
      end
  end.

(** [[[d['values'][0]] for d in data]] *)
Fixpoint first_values (data : list entry) : res (list (list V)) :=
  match data with
  | [] => Ret []
  | d :: data' =>
      match values d with
      | [] => Err IndexError
      | v :: _ =>
          match first_values data' with
          | Err e => Err e
          | Ret y => Ret ([v] :: y)
          end
      end
  end.

(** [prepare_chart_data(signal_name, max_points)] *)
Definition prepare_chart_data (signal_name : string) (max_points : Z)
    (st : state) : res chart :=
  if negb (validate_signal_name signal_name) then Ret (ChartData [] [])
  else
    match key signal_name with
    | None => Ret (ChartData [] [])
    | Some sig =>
        let data := items (data_queues st sig) in
        if (length data =? 0)%nat then Ret (ChartData [] [])
        else
          let sampled :=
            if max_points <? Z.of_nat (length data) then
              if max_points =? 0 then Err ZeroDivisionError
              else slice_step (Z.of_nat (length data) / max_points) data
            else Ret data in
          match sampled with
          | Err e => Err e
          | Ret data =>
              match sig with
              | TEMP =>
                  match first_values data with
                  | Err e => Err e
                  | Ret y => Ret (ChartData (seq 0 (length data)) y)
                  end
              | _ =>
                  let num_channels :=
                    match data with
                    | [] => 0%nat
                    | d :: _ => length (values d)
                    end in
                  let y_data := replicate num_channels [] in
                  match fill_channels num_channels data y_data with
                  | Err e => Err e
                  | Ret y_data => Ret (ChartData (seq 0 (length data)) y_data)
                  end
              end
          end
    end.

(** [push_data(signal_name, frames, timestamp)].  [timestamp] is [None]
    when the argument is missing or falsy (see [truthy_timestamp]); [time_time i] is the reading
    of [time.time()] when the frame of index [i] is queued, [now] that
    of [datetime.now().isoformat()].  The state is changed in place:
    what has been written when an exception is raised stays written.
    The answer carries the chart emitted to the clients, if any. *)
Definition push_data (signal_name : string) (frames : list (list V))
    (timestamp : option T) (time_time : nat -> T) (now : string)
    (st : state) : state * res (option chart) :=
  if negb (validate_signal_name signal_name) then (st, Ret None)
  else
    match key signal_name with
    | None => (st, Ret None)
    | Some sig =>
        let queued :=
          imap (fun i frame => Entry frame (default (time_time i) timestamp))
               frames in
        let q := foldl deque_append (data_queues st sig) queued in
        let s := stats st sig in
        let s1 := Stat (samples s + length frames) (Some now)
                       (current_temp s) in
        let st1 := State (assign (data_queues st) sig q) (assign (stats st) sig s1)
                         (packet_count st) in
        let with_temp :=
          match sig, last frames with
          | TEMP, Some frame =>
              match frame with
              | [] => Err IndexError
              | v :: _ =>
                  Ret (State (data_queues st1)
                             (assign (stats st1) sig
                                (Stat (samples s1) (last_update s1) (Some v)))
                             (packet_count st1))
              end
          | _, _ => Ret st1
          end in
        match with_temp with
        | Err e => (st1, Err e)
        | Ret st2 =>
            let st3 := State (data_queues st2) (stats st2)
                             (packet_count st2 + 1) in
            if (packet_count st3 mod 5 =? 0)%nat then
              match prepare_chart_data signal_name 1000 st3 with
              | Err e => (st3, Err e)
              | Ret c => (st3, Ret (Some c))
              end
            else (st3, Ret None)
        end
    end.

End Data.

Arguments Entry {V T} values timestamp.
Arguments values {V T} e.
Arguments timestamp {V T} e.
Arguments Deque {V T} maxlen items.
Arguments maxlen {V T} d.
Arguments items {V T} d.
Arguments deque_append {V T} q e.
Arguments Stat {V} samples last_update current_temp.
Arguments samples {V} s.
Arguments last_update {V} s.
Arguments current_temp {V} s.
Arguments State {V T} data_queues stats packet_count.
Arguments data_queues {V T} s.
Arguments stats {V T} s.
Arguments packet_count {V T} s.
Arguments ChartData {V} chart_x chart_y.
Arguments chart_x {V} c.
Arguments chart_y {V} c.
Arguments append_channels {V} channels point_values y_data.
Arguments fill_channels {V T} num_channels data y_data.
Arguments first_values {V T} data.
Arguments prepare_chart_data {V T} signal_name max_points st.
Arguments push_data {V T} signal_name frames timestamp time_time now st.

(** The payload of a realtime MQTT message, [json.loads(msg.payload)],
    with the readings of the two clocks while it is handled: [signal],
    [frames] and [timestamp] are what [payload.get] returns
    ([frames] defaults to the empty list, and is taken to be a list of
    lists of values). *)
Record message (V T : Type) := Message {
  m_signal : option string;
  m_frames : list (list V);
  m_timestamp : option T;
  m_time_time : nat -> T;
  m_now : string
}.
Arguments Message {V T} m_signal m_frames m_timestamp m_time_time m_now.
Arguments m_signal {V T} m.
Arguments m_frames {V T} m.
Arguments m_timestamp {V T} m.
Arguments m_time_time {V T} m.
Arguments m_now {V T} m.

(** [timestamp or time.time()] takes the clock for a falsy [timestamp]
    (0, for one); [truth] is Python's truth value of a timestamp. *)
Definition truthy_timestamp {T} (truth : T -> bool) (timestamp : option T)
    : option T :=
  match timestamp with
  | Some t => if truth t then Some t else None
  | None => None
  end.

(** [handle_realtime_data]: what [push_data] raises is caught and
    printed.  The answer is the chart emitted to the clients, if any. *)
Definition handle_realtime_data {V T} (truth : T -> bool)
    (payload : message V T) (st : state V T)
    : state V T * option (chart V) :=
  let signal := m_signal payload in
  let frames := m_frames payload in
  let timestamp := m_timestamp payload in
  if negb (truthy signal)
     || negb (bool_decide (default "" signal ∈ ["ECG"; "ADC"; "TEMP"]))
  then (st, None)
  else
    match push_data (default "" signal) frames
            (truthy_timestamp truth timestamp)
            (m_time_time payload) (m_now payload) st with
    | (st', Ret emitted) => (st', emitted)
    | (st', Err _) => (st', None)
    end.

(** The realtime messages of a connection, handled one after the other
    as the MQTT client delivers them; the charts emitted, in order. *)
Fixpoint handle_all {V T} (truth : T -> bool)
    (messages : list (message V T)) (st : state V T)
    : state V T * list (chart V) :=
  match messages with
  | [] => (st, [])
  | m :: messages' =>
      let '(st1, emitted) := handle_realtime_data truth m st in
      let '(st2, charts) := handle_all truth messages' st1 in
      (st2, option_list emitted ++ charts)
  end.

(** The [maxlen] the queues are created with. *)
Definition capacity (sig : signal) : nat :=
  match sig with TEMP => 120 | _ => 2500 end.

(** The queues have the capacity they were created with and are within
    it. *)
Definition within_capacity {V T} (st : state V T) : Prop :=
  forall sig,
    maxlen (data_queues st sig) = capacity sig /\
    (length (items (data_queues st sig)) <= capacity sig)%nat.

(** The step [prepare_chart_data] samples with, for a positive
    [max_points]. *)
Definition sampling_step (len : nat) (max_points : Z) : nat :=
  if max_points <? Z.of_nat len then Z.to_nat (Z.of_nat len / max_points)
  else 1%nat.

(** A queue of [n] frames with one value each. *)
Definition ramp (n : nat) : list (entry Z Z) :=
  (fun i => Entry [Z.of_nat i] 0) <$> seq 0 n.

Definition one_queue (maxlen : nat) (l : list (entry Z Z)) : state Z Z :=
  State (fun _ => Deque maxlen l) (fun _ => Stat 0%nat None None) 0%nat.

End Chart.

(** ** Sample sessions and request bodies *)

(** A store in which alice, a [medico], holds the session ["tok"]. *)
Definition alice_logged_in : AuthDB.db :=
  AuthDB.Db (only_alice "2025-01-01 10:00:00")
            [AuthDB.Session 1 "tok" "2025-02-01 12:40:00"].

Definition alice_credentials : Endpoints.json :=
  {[ "username" := "alice"; "password" := "$2b$12$alice" ]}.

(** A registration that asks for the role [admin]. *)
Definition mallory_registration : Endpoints.json :=
  {[ "username" := "mallory"; "password" := "pw"; "nome" := "Mal";
     "cognome" := "Lory"; "ruolo" := "admin" ]}.

Definition mallory_credentials : Endpoints.json :=
  {[ "username" := "mallory"; "password" := "pw" ]}.

(** * Properties *)

(** ** The reference parser on the formats in use *)

Example iso_sqlite_now :
  Iso.fromisoformat "2025-01-01 10:00:00"
  = Some (DateTime 63871322400000000 None).
Proof. reflexivity. Qed.

Example iso_zulu :
  Iso.fromisoformat (replace_Z "2025-01-01T10:05:00Z")
  = Some (DateTime 63871322700000000 (Some 0)).
Proof. reflexivity. Qed.

Example iso_garbage : Iso.fromisoformat (replace_Z "yesterday") = None.
Proof. reflexivity. Qed.

(** ** The accumulators are only ever added to

    A computation is [framed] when its effect on the counters, the
    conflict list and the operation log is to add to them, and nothing it
    does depends on them: running it from any state is running it from the
    [blank] state over the same table and adding the result. *)

Lemma extend_blank s : extend s (blank (cur s)) = s.
Proof.
  destruct s; unfold extend, blank; simpl.
  by rewrite !Nat.add_0_r, !app_nil_r.
Qed.

Lemma extend_assoc s d1 d2 :
  extend (extend s d1) d2 = extend s (extend d1 d2).
Proof.
  unfold extend; simpl. by rewrite !Nat.add_assoc, !app_assoc.
Qed.

Lemma framed_ret {A} (a : A) : framed (ret a).
Proof. intros s. unfold ret; simpl. by rewrite extend_blank. Qed.

Lemma framed_raise {A} (e : exn) : framed (@raise A e).
Proof. intros s. unfold raise; simpl. by rewrite extend_blank. Qed.

Lemma framed_lift {A} (r : result A) : framed (lift r).
Proof. intros s. unfold lift; simpl. by rewrite extend_blank. Qed.

Lemma framed_bind {A B} (m : M A) (k : A -> M B) :
  framed m -> (forall a, framed (k a)) -> framed (bind m k).
Proof.
  intros Hm Hk s. unfold bind. rewrite (Hm s).
  destruct (m (blank (cur s))) as [d [a|e]]; simpl; [|done].
  rewrite (Hk a (extend s d)); simpl.
  rewrite (Hk a d); simpl.
  by rewrite extend_assoc.
Qed.

Lemma framed_try_except {A} (m : M A) (h : exn -> M A) :
  framed m -> (forall e, framed (h e)) -> framed (try_except m h).
Proof.
  intros Hm Hh s. unfold try_except. rewrite (Hm s).
  destruct (m (blank (cur s))) as [d [a|e]]; simpl; [done|].
  rewrite (Hh e (extend s d)); simpl.
  rewrite (Hh e d); simpl.
  by rewrite extend_assoc.
Qed.

Lemma framed_getitem {A} key (entry : option A) : framed (getitem key entry).
Proof. destruct entry; [apply framed_ret | apply framed_raise]. Qed.

Lemma framed_log_event e : framed (log_event e).
Proof. intros s. unfold log_event, extend; simpl. by rewrite ?Nat.add_0_r, ?app_nil_r. Qed.

Lemma framed_conflicts_append c : framed (conflicts_append c).
Proof. intros s. unfold conflicts_append, extend; simpl. by rewrite ?Nat.add_0_r, ?app_nil_r. Qed.

Lemma framed_incr_updated : framed incr_updated.
Proof. intros s. unfold incr_updated, extend; simpl. by rewrite ?Nat.add_0_r, ?Nat.add_1_r, ?app_nil_r. Qed.

Lemma framed_incr_inserted : framed incr_inserted.
Proof. intros s. unfold incr_inserted, extend; simpl. by rewrite ?Nat.add_0_r, ?Nat.add_1_r, ?app_nil_r. Qed.

Lemma framed_bind_int n : framed (bind_int n).
Proof. unfold bind_int. destruct (sqlite_int n); [apply framed_ret | apply framed_raise]. Qed.

Lemma framed_read {A} (f : gmap Z row -> result A) :
  framed (fun s => (s, f (cur s))).
Proof. intros s; simpl. by rewrite extend_blank. Qed.

Lemma framed_set_cur t : framed (set_cur t).
Proof. intros s. unfold set_cur, extend; simpl. by rewrite ?Nat.add_0_r, ?app_nil_r. Qed.

Lemma framed_select_id_updated_at uid : framed (select_id_updated_at uid).
Proof.
  unfold select_id_updated_at.
  apply framed_bind; [apply framed_bind_int | intros _].
  apply framed_bind; [apply framed_log_event | intros _].
  apply (framed_read (fun t => Ok (match t !! uid with
                                   | Some r => Some (uid, r_updated_at r)
                                   | None => None
                                   end))).
Qed.

Lemma framed_update_users uid r : framed (update_users uid r).
Proof.
  unfold update_users.
  apply framed_bind; [apply framed_bind_int | intros _].
  apply framed_bind; [apply framed_log_event | intros _].
  intros s; simpl. destruct (cur s !! uid); [|by rewrite extend_blank].
  destruct (constraints_ok (cur s) uid r); [apply framed_set_cur|].
  simpl. by rewrite extend_blank.
Qed.

Lemma framed_insert_users uid r : framed (insert_users uid r).
Proof.
  unfold insert_users.
  apply framed_bind; [apply framed_bind_int | intros _].
  apply framed_bind; [apply framed_log_event | intros _].
  intros s; simpl. destruct (cur s !! uid); [by rewrite extend_blank|].
  destruct (constraints_ok (cur s) uid r); [apply framed_set_cur|].
  simpl. by rewrite extend_blank.
Qed.

Create HintDb framed discriminated.
#[local] Hint Resolve framed_ret framed_raise framed_lift framed_getitem
  framed_log_event framed_conflicts_append framed_incr_updated
  framed_incr_inserted framed_bind_int framed_select_id_updated_at
  framed_update_users framed_insert_users : framed.

(** Repeatedly splits binds and handlers, closing the leaves from the
    hint database. *)
Ltac framed_tac :=
  repeat first
    [ solve [eauto with framed]
    | apply framed_bind; [|intros ?]
    | apply framed_try_except; [|intros ?]
    | match goal with
      | |- framed (if ?b then _ else _) => destruct b
      | |- framed (match ?x with _ => _ end) => destruct x
      end ].

Section SyncProperties.

Variable fromisoformat : string -> option datetime.

Lemma framed_parse_ts v : framed (parse_ts fromisoformat v).
Proof. unfold parse_ts. framed_tac. Qed.

Lemma framed_report_conflict u reason l i : framed (report_conflict u reason l i).
Proof. unfold report_conflict. framed_tac. Qed.

Lemma framed_update_params u : framed (update_params u).
Proof. unfold update_params. framed_tac. Qed.

Lemma framed_insert_params u : framed (insert_params u).
Proof. unfold insert_params. framed_tac. Qed.

#[local] Hint Resolve framed_parse_ts framed_report_conflict framed_update_params
  framed_insert_params : framed.

Lemma framed_compare_timestamps u v :
  framed (compare_timestamps fromisoformat u v).
Proof. unfold compare_timestamps. framed_tac. Qed.

Lemma framed_process_user u : framed (process_user fromisoformat u).
Proof.
  unfold process_user. framed_tac.
  apply framed_compare_timestamps.
Qed.

Lemma framed_for_each (l : list user) :
  framed (for_each (process_user fromisoformat) l).
Proof.
  induction l as [|u l IH]; simpl; [apply framed_ret|].
  apply framed_bind; [apply framed_process_user | intros _; apply IH].
Qed.

End SyncProperties.

(** ** The branches of the loop body *)

Lemma record_row_inv u r :
  record_row u = Some r ->
  u_username u = Some (r_username r) /\
  u_password_hash u = Some (r_password_hash r) /\
  u_nome u = Some (r_nome r) /\
  u_cognome u = Some (r_cognome r) /\
  u_ruolo u = Some (r_ruolo r) /\
  r_created_at r = dict_get (u_created_at u) /\
  r_last_login r = dict_get (u_last_login u) /\
  r_updated_at r = dict_get (u_updated_at u).
Proof.
  unfold record_row. intros H.
  destruct (u_username u), (u_password_hash u), (u_nome u), (u_cognome u),
    (u_ruolo u); simplify_eq/=. done.
Qed.

Lemma truthy_Some v : truthy v = true <-> exists s, v = Some s /\ s <> "".
Proof.
  destruct v as [s|]; simpl.
  - destruct (String.eqb_spec s ""); simpl; split.
    + done.
    + intros (s' & [= <-] & ?). done.
    + eauto.
    + done.
  - split; [done | by intros (? & ? & ?)].
Qed.

Lemma truthy_str s : s <> "" -> truthy (Some s) = true.
Proof. intros. apply truthy_Some. eauto. Qed.

Lemma insert_params_ok u r s :
  record_row u = Some r -> insert_params u s = (s, Ok r).
Proof.
  intros H. destruct (record_row_inv _ _ H) as (H1&H2&H3&H4&H5&H6&H7&H8).
  unfold insert_params, bind. rewrite H1, H2, H3, H4, H5; simpl.
  unfold ret. rewrite <- H6, <- H7, <- H8. by destruct r.
Qed.

Lemma update_params_ok u r s :
  record_row u = Some r -> is_Some (u_updated_at u) ->
  update_params u s = (s, Ok r).
Proof.
  intros H [v Hv]. destruct (record_row_inv _ _ H) as (H1&H2&H3&H4&H5&H6&H7&H8).
  unfold update_params, bind. rewrite H1, H2, H3, H4, H5, Hv; simpl.
  unfold ret. rewrite Hv in H8; simpl in H8.
  rewrite <- H6, <- H7, <- H8. by destruct r.
Qed.

Section Branches.

Variable fromisoformat : string -> option datetime.

Lemma select_id_updated_at_ok n s :
  sqlite_int n = true ->
  select_id_updated_at n s =
    (logged [EvSelectUser n] s,
     Ok (match cur s !! n with
         | Some r => Some (n, r_updated_at r)
         | None => None
         end)).
Proof.
  intros Hn. unfold select_id_updated_at, bind_int, bind. by rewrite Hn.
Qed.

(** The lookup that opens the loop body. *)
Lemma process_user_lookup u n s :
  u_id u = Some n -> sqlite_int n = true ->
  process_user fromisoformat u s =
    match cur s !! n with
    | Some r =>
        try_except
          (compare_timestamps fromisoformat u (r_updated_at r))
          (fun _ => report_conflict u "timestamp_parse_error" None None)
          (logged [EvSelectUser n] s)
    | None =>
        (let* r := insert_params u in insert_users n r ;;; incr_inserted)
          (logged [EvSelectUser n] s)
    end.
Proof.
  intros Hid Hn. unfold process_user. rewrite Hid.
  unfold getitem, bind at 1 2; simpl.
  rewrite select_id_updated_at_ok by done.
  destruct (cur s !! n); done.
Qed.

Lemma bind_ok {A B} (m : M A) (k : A -> M B) s s' a :
  m s = (s', Ok a) -> bind m k s = k a s'.
Proof. intros H. unfold bind. by rewrite H. Qed.

Lemma bind_raise {A B} (m : M A) (k : A -> M B) s s' e :
  m s = (s', Raise e) -> bind m k s = (s', Raise e).
Proof. intros H. unfold bind. by rewrite H. Qed.

Lemma bind_ext {A B} (m : M A) (k1 k2 : A -> M B) s :
  (forall a s', k1 a s' = k2 a s') -> bind m k1 s = bind m k2 s.
Proof. intros H. unfold bind. destruct (m s) as [s' [a|e]]; [apply H | done]. Qed.

Lemma try_except_ok {A} (m : M A) h s s' a :
  m s = (s', Ok a) -> try_except m h s = (s', Ok a).
Proof. intros H. unfold try_except. by rewrite H. Qed.

Lemma try_except_raise {A} (m : M A) h s s' e :
  m s = (s', Raise e) -> try_except m h s = h e s'.
Proof. intros H. unfold try_except. by rewrite H. Qed.

Lemma insert_users_ok n r s :
  sqlite_int n = true -> cur s !! n = None ->
  constraints_ok (cur s) n r = true ->
  insert_users n r s =
    (St (<[n := r]> (cur s)) (updated s) (inserted s) (conflicts s)
        (db_log s ++ [EvInsert n]), Ok tt).
Proof.
  intros Hn Hnone Hc. unfold insert_users, bind_int, bind. rewrite Hn; simpl.
  by rewrite Hnone, Hc.
Qed.

Lemma update_users_ok n r r0 s :
  sqlite_int n = true -> cur s !! n = Some r0 ->
  constraints_ok (cur s) n r = true ->
  update_users n r s =
    (St (<[n := r]> (cur s)) (updated s) (inserted s) (conflicts s)
        (db_log s ++ [EvUpdate n]), Ok tt).
Proof.
  intros Hn Hsome Hc. unfold update_users, bind_int, bind. rewrite Hn; simpl.
  by rewrite Hsome, Hc.
Qed.

Lemma report_conflict_ok u n name reason l i s :
  u_id u = Some n -> u_username u = Some name ->
  report_conflict u reason l i s =
    (St (cur s) (updated s) (inserted s)
        (conflicts s ++ [Conflict n name reason l i]) (db_log s), Ok tt).
Proof.
  intros Hid Hname. unfold report_conflict, bind. by rewrite Hid, Hname.
Qed.

Lemma parse_ts_ok str d s :
  fromisoformat (replace_Z str) = Some d ->
  parse_ts fromisoformat (Some str) s = (s, Ok d).
Proof. intros H. unfold parse_ts. by rewrite H. Qed.

Lemma parse_ts_fail str s :
  fromisoformat (replace_Z str) = None ->
  parse_ts fromisoformat (Some str) s = (s, Raise ValueError).
Proof. intros H. unfold parse_ts. by rewrite H. Qed.

(** INSERT branch: the id is new and the statement succeeds. *)
Lemma process_user_insert u n r s :
  u_id u = Some n -> sqlite_int n = true -> cur s !! n = None ->
  record_row u = Some r -> constraints_ok (cur s) n r = true ->
  process_user fromisoformat u s =
    (St (<[n := r]> (cur s)) (updated s) (S (inserted s)) (conflicts s)
        (db_log s ++ [EvSelectUser n; EvInsert n]), Ok tt).
Proof.
  intros Hid Hn Hnone Hr Hc.
  rewrite (process_user_lookup u n) by done. rewrite Hnone.
  erewrite bind_ok by (by apply insert_params_ok).
  erewrite bind_ok by (by apply insert_users_ok).
  unfold incr_inserted; simpl. by rewrite <- app_assoc.
Qed.

(** A missing timestamp on either side: the report is attempted inside
    the [try]. *)
Lemma process_user_missing_red u n r0 s :
  u_id u = Some n -> sqlite_int n = true -> cur s !! n = Some r0 ->
  truthy (dict_get (u_updated_at u)) && truthy (r_updated_at r0) = false ->
  process_user fromisoformat u s =
    try_except
      (report_conflict u "missing_timestamp" None None)
      (fun _ => report_conflict u "timestamp_parse_error" None None)
      (logged [EvSelectUser n] s).
Proof.
  intros Hid Hn Hsome Hmiss.
  rewrite (process_user_lookup u n) by done. rewrite Hsome.
  unfold try_except, compare_timestamps.
  by rewrite <- negb_andb, Hmiss.
Qed.

Lemma process_user_missing u n r0 name s :
  u_id u = Some n -> sqlite_int n = true -> cur s !! n = Some r0 ->
  u_username u = Some name ->
  truthy (dict_get (u_updated_at u)) && truthy (r_updated_at r0) = false ->
  process_user fromisoformat u s =
    (St (cur s) (updated s) (inserted s)
        (conflicts s ++ [Conflict n name "missing_timestamp" None None])
        (db_log s ++ [EvSelectUser n]), Ok tt).
Proof.
  intros Hid Hn Hsome Hname Hmiss.
  rewrite (process_user_missing_red u n r0) by done.
  apply try_except_ok. by rewrite (report_conflict_ok u n name).
Qed.

(** Both timestamps are present but one does not parse, or one is naive
    and the other aware: the handler of the [try] runs. *)
Lemma process_user_unparsed_red u n r0 tin tloc s :
  u_id u = Some n -> sqlite_int n = true -> cur s !! n = Some r0 ->
  u_updated_at u = Some (Some tin) -> tin <> "" ->
  r_updated_at r0 = Some tloc -> tloc <> "" ->
  match fromisoformat (replace_Z tin), fromisoformat (replace_Z tloc) with
  | Some din, Some dloc => dt_sub din dloc = Raise TypeError
  | _, _ => True
  end ->
  process_user fromisoformat u s =
    report_conflict u "timestamp_parse_error" None None
      (logged [EvSelectUser n] s).
Proof.
  intros Hid Hn Hsome Hin Hin' Hloc Hloc' Hbad.
  rewrite (process_user_lookup u n) by done. rewrite Hsome.
  assert (exists e, compare_timestamps fromisoformat u (r_updated_at r0)
                      (logged [EvSelectUser n] s)
                    = (logged [EvSelectUser n] s, Raise e)) as [e He].
  { unfold compare_timestamps.
    rewrite Hin, Hloc; cbn [dict_get]. rewrite !truthy_str by done; cbn [negb orb].
    destruct (fromisoformat (replace_Z tin)) as [din|] eqn:Ein.
    2:{ exists ValueError. by erewrite bind_raise by (by apply parse_ts_fail). }
    erewrite bind_ok by (by apply parse_ts_ok).
    destruct (fromisoformat (replace_Z tloc)) as [dloc|] eqn:Eloc.
    2:{ exists ValueError. by erewrite bind_raise by (by apply parse_ts_fail). }
    erewrite bind_ok by (by apply parse_ts_ok).
    exists TypeError. apply bind_raise. unfold lift. by rewrite Hbad. }
  by erewrite try_except_raise by exact He.
Qed.

Lemma process_user_parse_error u n r0 name tin tloc s :
  u_id u = Some n -> sqlite_int n = true -> cur s !! n = Some r0 ->
  u_username u = Some name ->
  u_updated_at u = Some (Some tin) -> tin <> "" ->
  r_updated_at r0 = Some tloc -> tloc <> "" ->
  match fromisoformat (replace_Z tin), fromisoformat (replace_Z tloc) with
  | Some din, Some dloc => dt_sub din dloc = Raise TypeError
  | _, _ => True
  end ->
  process_user fromisoformat u s =
    (St (cur s) (updated s) (inserted s)
        (conflicts s ++ [Conflict n name "timestamp_parse_error" None None])
        (db_log s ++ [EvSelectUser n]), Ok tt).
Proof.
  intros Hid Hn Hsome Hname Hin Hin' Hloc Hloc' Hbad.
  rewrite (process_user_unparsed_red u n r0 tin tloc) by done.
  by rewrite (report_conflict_ok u n name).
Qed.

Lemma dt_gt_sub a b delta :
  dt_sub a b = Ok delta -> dt_gt a b = Ok (0 <? delta).
Proof.
  unfold dt_sub, dt_gt.
  destruct (dt_utcoffset a), (dt_utcoffset b); intros [= <-]; f_equal.
  - destruct (Z.ltb_spec (dt_wall b - z0) (dt_wall a - z)),
      (Z.ltb_spec 0 (dt_wall a - z - (dt_wall b - z0))); (done || lia).
  - destruct (Z.ltb_spec (dt_wall b) (dt_wall a)),
      (Z.ltb_spec 0 (dt_wall a - dt_wall b)); (done || lia).
Qed.

(** Both timestamps parse and can be subtracted. *)
Lemma process_user_compare u n r0 tin tloc din dloc delta s :
  u_id u = Some n -> sqlite_int n = true -> cur s !! n = Some r0 ->
  u_updated_at u = Some (Some tin) -> tin <> "" ->
  r_updated_at r0 = Some tloc -> tloc <> "" ->
  fromisoformat (replace_Z tin) = Some din ->
  fromisoformat (replace_Z tloc) = Some dloc ->
  dt_sub din dloc = Ok delta ->
  process_user fromisoformat u s =
    try_except
      (if Z.abs delta <? 1000000 then ret tt
       else if 0 <? delta then
         let* r := update_params u in update_users n r ;;; incr_updated
       else report_conflict u "local_newer" (Some (Some tloc)) (Some (Some tin)))
      (fun _ => report_conflict u "timestamp_parse_error" None None)
      (logged [EvSelectUser n] s).
Proof.
  intros Hid Hn Hsome Hin Hin' Hloc Hloc' Hdin Hdloc Hsub.
  rewrite (process_user_lookup u n) by done. rewrite Hsome.
  unfold try_except.
  match goal with |- (let (_, _) := ?a in _) = (let (_, _) := ?b in _) =>
    enough (a = b) as -> by done end.
  unfold compare_timestamps.
  rewrite Hin, Hloc; cbn [dict_get]. rewrite !truthy_str by done; cbn [negb orb].
  erewrite bind_ok by (by apply parse_ts_ok).
  erewrite bind_ok by (by apply parse_ts_ok).
  erewrite bind_ok by (unfold lift; by rewrite Hsub).
  cbv zeta. destruct (Z.abs delta <? 1000000); [done|].
  erewrite bind_ok by (unfold lift; by rewrite (dt_gt_sub _ _ delta)).
  destruct (0 <? delta); [|done].
  apply bind_ext; intros r s'. by rewrite Hid.
Qed.

Lemma process_user_tolerated u n r0 tin tloc din dloc delta s :
  u_id u = Some n -> sqlite_int n = true -> cur s !! n = Some r0 ->
  u_updated_at u = Some (Some tin) -> tin <> "" ->
  r_updated_at r0 = Some tloc -> tloc <> "" ->
  fromisoformat (replace_Z tin) = Some din ->
  fromisoformat (replace_Z tloc) = Some dloc ->
  dt_sub din dloc = Ok delta -> Z.abs delta < 1000000 ->
  process_user fromisoformat u s = (logged [EvSelectUser n] s, Ok tt).
Proof.
  intros Hid Hn Hsome Hin Hin' Hloc Hloc' Hdin Hdloc Hsub Hlt.
  rewrite (process_user_compare u n r0 tin tloc din dloc delta) by done.
  apply Z.ltb_lt in Hlt. by rewrite Hlt.
Qed.

Lemma process_user_update u n r0 tin tloc din dloc delta r s :
  u_id u = Some n -> sqlite_int n = true -> cur s !! n = Some r0 ->
  u_updated_at u = Some (Some tin) -> tin <> "" ->
  r_updated_at r0 = Some tloc -> tloc <> "" ->
  fromisoformat (replace_Z tin) = Some din ->
  fromisoformat (replace_Z tloc) = Some dloc ->
  dt_sub din dloc = Ok delta -> 1000000 <= delta ->
  record_row u = Some r -> constraints_ok (cur s) n r = true ->
  process_user fromisoformat u s =
    (St (<[n := r]> (cur s)) (S (updated s)) (inserted s) (conflicts s)
        (db_log s ++ [EvSelectUser n; EvUpdate n]), Ok tt).
Proof.
  intros Hid Hn Hsome Hin Hin' Hloc Hloc' Hdin Hdloc Hsub Hge Hr Hc.
  rewrite (process_user_compare u n r0 tin tloc din dloc delta) by done.
  assert ((Z.abs delta <? 1000000) = false) as -> by (apply Z.ltb_ge; lia).
  assert ((0 <? delta) = true) as -> by (apply Z.ltb_lt; lia).
  apply try_except_ok.
  erewrite bind_ok by (apply update_params_ok; [done | by rewrite Hin]).
  erewrite bind_ok by (by eapply update_users_ok).
  unfold incr_updated; simpl. by rewrite <- app_assoc.
Qed.

Lemma process_user_local_newer u n r0 tin tloc din dloc delta name s :
  u_id u = Some n -> sqlite_int n = true -> cur s !! n = Some r0 ->
  u_updated_at u = Some (Some tin) -> tin <> "" ->
  r_updated_at r0 = Some tloc -> tloc <> "" ->
  fromisoformat (replace_Z tin) = Some din ->
  fromisoformat (replace_Z tloc) = Some dloc ->
  dt_sub din dloc = Ok delta -> delta <= -1000000 ->
  u_username u = Some name ->
  process_user fromisoformat u s =
    (St (cur s) (updated s) (inserted s)
        (conflicts s ++ [Conflict n name "local_newer"
                           (Some (Some tloc)) (Some (Some tin))])
        (db_log s ++ [EvSelectUser n]), Ok tt).
Proof.
  intros Hid Hn Hsome Hin Hin' Hloc Hloc' Hdin Hdloc Hsub Hle Hname.
  rewrite (process_user_compare u n r0 tin tloc din dloc delta) by done.
  assert ((Z.abs delta <? 1000000) = false) as -> by (apply Z.ltb_ge; lia).
  assert ((0 <? delta) = false) as -> by (apply Z.ltb_ge; lia).
  apply try_except_ok.
  by rewrite (report_conflict_ok u n name).
Qed.

End Branches.

Section Decisions.

Variable fromisoformat : string -> option datetime.

(** C1 (amended): for a record whose id exists locally and whose two
    [updated_at] values parse.  When the two timestamps can be subtracted
    (both naive or both offset-aware): a difference below one second is
    a no-op (no write, no conflict); a newer incoming record that carries
    the five required keys and satisfies the table's constraints replaces
    the local row and is counted in [updated]; an older incoming record
    that carries [username] is reported as ["local_newer"] without a
    write.  When they cannot (one is naive, the other offset-aware, and
    the subtraction raises [TypeError]), a record that carries
    [username] is reported as ["timestamp_parse_error"] without a
    write. *)
Theorem sync_existing_record_decision u n r0 tin tloc din dloc s :
  u_id u = Some n -> sqlite_int n = true -> cur s !! n = Some r0 ->
  u_updated_at u = Some (Some tin) -> tin <> "" ->
  r_updated_at r0 = Some tloc -> tloc <> "" ->
  fromisoformat (replace_Z tin) = Some din ->
  fromisoformat (replace_Z tloc) = Some dloc ->
  (forall delta, dt_sub din dloc = Ok delta ->
     (Z.abs delta < 1000000 ->
        process_user fromisoformat u s = (logged [EvSelectUser n] s, Ok tt)) /\
     (1000000 <= delta ->
        forall r, record_row u = Some r -> constraints_ok (cur s) n r = true ->
        process_user fromisoformat u s =
          (St (<[n := r]> (cur s)) (S (updated s)) (inserted s) (conflicts s)
              (db_log s ++ [EvSelectUser n; EvUpdate n]), Ok tt)) /\
     (delta <= -1000000 ->
        forall name, u_username u = Some name ->
        process_user fromisoformat u s =
          (St (cur s) (updated s) (inserted s)
              (conflicts s ++ [Conflict n name "local_newer"
                                 (Some (Some tloc)) (Some (Some tin))])
              (db_log s ++ [EvSelectUser n]), Ok tt))) /\
  (forall e, dt_sub din dloc = Raise e ->
     forall name, u_username u = Some name ->
     process_user fromisoformat u s =
       (St (cur s) (updated s) (inserted s)
           (conflicts s ++ [Conflict n name "timestamp_parse_error" None None])
           (db_log s ++ [EvSelectUser n]), Ok tt)).
Proof.
  intros Hid Hn Hsome Hin Hin' Hloc Hloc' Hdin Hdloc.
  split.
  - intros delta Hsub. split; [|split].
    + intros Hlt. by eapply process_user_tolerated.
    + intros Hge r Hr Hc. by eapply process_user_update.
    + intros Hle name Hname. by eapply process_user_local_newer.
  - intros e Hsub name Hname.
    apply (process_user_parse_error fromisoformat u n r0 name tin tloc);
      try done.
    rewrite Hdin, Hdloc. revert Hsub. unfold dt_sub.
    destruct (dt_utcoffset din), (dt_utcoffset dloc); by intros [= <-].
Qed.

End Decisions.

Lemma sync_existing_record_decision_witness :
  let s := blank (only_alice "2025-01-01 10:00:00") in
  process_user Iso.fromisoformat
    (alice_incoming (Some "2025-01-01T10:00:00.500000")) s
  = (logged [EvSelectUser 1] s, Ok tt) /\
  process_user Iso.fromisoformat (alice_incoming (Some "2025-01-01T10:05:00")) s
  = (St (<[1 := alice_merged (Some "2025-01-01T10:05:00")]> (cur s)) 1 0 []
        [EvSelectUser 1; EvUpdate 1], Ok tt) /\
  process_user Iso.fromisoformat (alice_incoming (Some "2025-01-01 09:59:50")) s
  = (St (cur s) 0 0
        [Conflict 1 (Some "alice") "local_newer"
           (Some (Some "2025-01-01 10:00:00")) (Some (Some "2025-01-01 09:59:50"))]
        [EvSelectUser 1], Ok tt) /\
  process_user Iso.fromisoformat
    (alice_incoming (Some "2025-01-01T10:05:00+02:00")) s
  = (St (cur s) 0 0
        [Conflict 1 (Some "alice") "timestamp_parse_error" None None]
        [EvSelectUser 1], Ok tt).
Proof.
  intros s. split; [|split; [|split]].
  - eapply (fun din dloc H1 H2 H3 H4 H5 H6 H7 H8 H9 H10 =>
              proj1 (proj1 (sync_existing_record_decision Iso.fromisoformat
                (alice_incoming (Some "2025-01-01T10:00:00.500000")) 1
                (alice "2025-01-01 10:00:00")
                "2025-01-01T10:00:00.500000" "2025-01-01 10:00:00" din dloc s
                H1 H2 H3 H4 H5 H6 H7 H8 H9) 500000 H10));
      try reflexivity; try discriminate.
  - eapply (fun din dloc H1 H2 H3 H4 H5 H6 H7 H8 H9 H10 =>
              proj1 (proj2 (proj1 (sync_existing_record_decision
                Iso.fromisoformat
                (alice_incoming (Some "2025-01-01T10:05:00")) 1
                (alice "2025-01-01 10:00:00")
                "2025-01-01T10:05:00" "2025-01-01 10:00:00" din dloc s
                H1 H2 H3 H4 H5 H6 H7 H8 H9) 300000000 H10)));
      try reflexivity; try discriminate.
  - eapply (fun din dloc H1 H2 H3 H4 H5 H6 H7 H8 H9 H10 =>
              proj2 (proj2 (proj1 (sync_existing_record_decision
                Iso.fromisoformat
                (alice_incoming (Some "2025-01-01 09:59:50")) 1
                (alice "2025-01-01 10:00:00")
                "2025-01-01 09:59:50" "2025-01-01 10:00:00" din dloc s
                H1 H2 H3 H4 H5 H6 H7 H8 H9) (-10000000) H10)));
      try reflexivity; try discriminate.
  - eapply (fun din dloc H1 H2 H3 H4 H5 H6 H7 H8 H9 =>
              proj2 (sync_existing_record_decision Iso.fromisoformat
                (alice_incoming (Some "2025-01-01T10:05:00+02:00")) 1
                (alice "2025-01-01 10:00:00")
                "2025-01-01T10:05:00+02:00" "2025-01-01 10:00:00" din dloc s
                H1 H2 H3 H4 H5 H6 H7 H8 H9) TypeError);
      try reflexivity; try discriminate.
Defined.

(** C1 as stated fails: both timestamps parse, yet the record is neither a
    no-op, nor an update, nor a ["local_newer"] conflict.  The local value
    is naive (SQLite's [datetime('now')]), the incoming one carries [Z];
    their subtraction raises [TypeError], which the handler reports as
    ["timestamp_parse_error"]. *)
Lemma sync_mixed_awareness_counterexample :
  is_Some (Iso.fromisoformat (replace_Z "2025-01-01 10:00:00")) /\
  is_Some (Iso.fromisoformat (replace_Z "2025-01-01T10:05:00Z")) /\
  receive_users_for_sync "test123" Iso.fromisoformat
    (post [alice_incoming (Some "2025-01-01T10:05:00Z")])
    (only_alice "2025-01-01 10:00:00")
  = Outcome
      (SyncOk 0 0 [Conflict 1 (Some "alice") "timestamp_parse_error" None None])
      (only_alice "2025-01-01 10:00:00")
      [EvConnect; EvSelectUser 1; EvCommit; EvClose].
Proof. repeat split; try (eexists; reflexivity). Qed.


(** ** Every outcome of the loop body *)

Lemma report_conflict_cases u reason l i s :
  (exists e, report_conflict u reason l i s = (s, Raise e)) \/
  (exists c, c_reason c = reason /\
     report_conflict u reason l i s =
       (St (cur s) (updated s) (inserted s) (conflicts s ++ [c]) (db_log s),
        Ok tt)).
Proof.
  unfold report_conflict, bind, getitem, ret, raise, conflicts_append.
  destruct (u_id u); [|by eauto]. destruct (u_username u); [|by eauto].
  right. by eexists (Conflict _ _ _ _ _).
Qed.

Lemma report_conflict_skipped u reason l i s0 s1 s' res :
  unwritten s0 s1 -> conflicts s1 = conflicts s0 ->
  report_conflict u reason l i s1 = (s', res) -> skipped s0 s' res.
Proof.
  intros Hun Hc H.
  destruct (report_conflict_cases u reason l i s1) as [[e He]|(c & _ & He)];
    rewrite He in H; simplify_eq.
  - split; [done | eauto].
  - split; [done | right; exists c; simpl; by rewrite Hc].
Qed.

Lemma try_report_skipped u r1 l1 i1 r2 l2 i2 s0 s1 s' res :
  unwritten s0 s1 -> conflicts s1 = conflicts s0 ->
  try_except (report_conflict u r1 l1 i1)
    (fun _ => report_conflict u r2 l2 i2) s1 = (s', res) ->
  skipped s0 s' res.
Proof.
  intros Hun Hc H. unfold try_except in H.
  destruct (report_conflict_cases u r1 l1 i1 s1) as [[e He]|(c & _ & He)];
    rewrite He in H.
  - by eapply report_conflict_skipped.
  - simplify_eq. split; [done | right; exists c; simpl; by rewrite Hc].
Qed.

Lemma update_params_cases u s :
  (exists e, update_params u s = (s, Raise e)) \/
  (exists r, record_row u = Some r /\ update_params u s = (s, Ok r)).
Proof.
  destruct (record_row u) as [r|] eqn:Hr.
  - destruct (u_updated_at u) as [v|] eqn:Hv.
    + right. exists r. split; [done|]. apply update_params_ok; [done|].
      rewrite Hv. by eexists.
    + left. destruct (record_row_inv _ _ Hr) as (H1&H2&H3&H4&H5&_).
      unfold update_params, bind. rewrite H1, H2, H3, H4, H5, Hv. by eexists.
  - left. unfold record_row in Hr. unfold update_params, bind, getitem, raise.
    destruct (u_username u); [|by eexists].
    destruct (u_password_hash u); [|by eexists].
    destruct (u_nome u); [|by eexists].
    destruct (u_cognome u); [|by eexists].
    destruct (u_ruolo u); [done | by eexists].
Qed.

Lemma insert_params_cases u s :
  (exists e, record_row u = None /\ insert_params u s = (s, Raise e)) \/
  (exists r, record_row u = Some r /\ insert_params u s = (s, Ok r)).
Proof.
  destruct (record_row u) as [r|] eqn:Hr.
  - right. exists r. split; [done|]. by apply insert_params_ok.
  - left. unfold record_row in Hr. unfold insert_params, bind, getitem, raise.
    destruct (u_username u); [|by eexists].
    destruct (u_password_hash u); [|by eexists].
    destruct (u_nome u); [|by eexists].
    destruct (u_cognome u); [|by eexists].
    destruct (u_ruolo u); [done | by eexists].
Qed.

Lemma update_users_rejected n r r0 s :
  sqlite_int n = true -> cur s !! n = Some r0 ->
  constraints_ok (cur s) n r = false ->
  update_users n r s = (logged [EvUpdate n] s, Raise IntegrityError).
Proof.
  intros Hn Hsome Hc. unfold update_users, bind_int, bind. rewrite Hn; simpl.
  by rewrite Hsome, Hc.
Qed.

Lemma insert_users_rejected n r s :
  sqlite_int n = true -> cur s !! n = None ->
  constraints_ok (cur s) n r = false ->
  insert_users n r s = (logged [EvInsert n] s, Raise IntegrityError).
Proof.
  intros Hn Hnone Hc. unfold insert_users, bind_int, bind. rewrite Hn; simpl.
  by rewrite Hnone, Hc.
Qed.

Lemma dt_sub_raise a b e : dt_sub a b = Raise e -> e = TypeError.
Proof.
  unfold dt_sub. destruct (dt_utcoffset a), (dt_utcoffset b); by intros [= <-].
Qed.

Lemma dict_get_Some entry (v : string) :
  dict_get entry = Some v -> entry = Some (Some v).
Proof. destruct entry as [[?|]|]; simpl; congruence. Qed.

Section Inversion.

Variable fromisoformat : string -> option datetime.

Lemma process_user_cases u s s' res :
  process_user fromisoformat u s = (s', res) ->
  step_outcome fromisoformat u s s' res.
Proof.
  intros H.
  destruct (u_id u) as [n|] eqn:Hid.
  2:{ unfold process_user in H. rewrite Hid in H. cbv in H. simplify_eq.
      apply Skipped. split; [done | eauto]. }
  destruct (sqlite_int n) eqn:Hn.
  2:{ unfold process_user, select_id_updated_at, bind_int, bind in H.
      rewrite Hid in H; simpl in H. rewrite Hn in H; simpl in H. simplify_eq.
      apply Skipped. split; [done | eauto]. }
  assert (unwritten s (logged [EvSelectUser n] s)) as Hlog by done.
  destruct (cur s !! n) as [r0|] eqn:Hlk.
  - destruct (truthy (dict_get (u_updated_at u)) && truthy (r_updated_at r0))
      eqn:Ht.
    2:{ rewrite (process_user_missing_red fromisoformat u n r0) in H by done.
        apply Skipped. by eapply try_report_skipped. }
    apply andb_true_iff in Ht as [Ht1 Ht2].
    apply truthy_Some in Ht1 as (tin & Hin & Hin').
    apply truthy_Some in Ht2 as (tloc & Hloc & Hloc').
    apply dict_get_Some in Hin.
    destruct (fromisoformat (replace_Z tin)) as [din|] eqn:Edin.
    2:{ rewrite (process_user_unparsed_red fromisoformat u n r0 tin tloc) in H
          by (try done; by rewrite Edin).
        apply Skipped. by eapply report_conflict_skipped. }
    destruct (fromisoformat (replace_Z tloc)) as [dloc|] eqn:Edloc.
    2:{ rewrite (process_user_unparsed_red fromisoformat u n r0 tin tloc) in H
          by (try done; by rewrite Edin, Edloc).
        apply Skipped. by eapply report_conflict_skipped. }
    destruct (dt_sub din dloc) as [delta|e] eqn:Esub.
    2:{ apply dt_sub_raise in Esub as He; subst e.
        rewrite (process_user_unparsed_red fromisoformat u n r0 tin tloc) in H
          by (try done; by rewrite Edin, Edloc).
        apply Skipped. by eapply report_conflict_skipped. }
    rewrite (process_user_compare fromisoformat u n r0 tin tloc din dloc delta)
      in H by done.
    destruct (Z.ltb_spec (Z.abs delta) 1000000) as [Hlt|Hge].
    { cbv [try_except ret] in H. simplify_eq.
      eapply (Tolerated _ _ _ _ _ n); [|done..].
      by exists r0, tin, tloc, din, dloc, delta. }
    destruct (Z.ltb_spec 0 delta) as [Hpos|Hneg].
    2:{ apply Skipped. by eapply try_report_skipped. }
    destruct (update_params_cases u (logged [EvSelectUser n] s))
      as [[e He]|(r & Hr & He)].
    { erewrite try_except_raise in H by (by eapply bind_raise).
      apply Skipped. by eapply report_conflict_skipped. }
    destruct (constraints_ok (cur s) n r) eqn:Hc.
    + erewrite try_except_ok in H.
      2:{ erewrite bind_ok by exact He.
          erewrite bind_ok by (by eapply update_users_ok).
          reflexivity. }
      simplify_eq. eapply (Replaced _ _ _ _ _ n r r0); try done.
      destruct (record_row_inv _ _ Hr) as (_&_&_&_&_&_&_&->).
      rewrite Hin. by apply truthy_str.
    + erewrite try_except_raise in H.
      2:{ erewrite bind_ok by exact He.
          eapply bind_raise. by eapply update_users_rejected. }
      apply Skipped.
      by eapply (report_conflict_skipped _ _ _ _ s
                   (logged [EvUpdate n] (logged [EvSelectUser n] s))).
  - rewrite (process_user_lookup fromisoformat u n) in H by done.
    rewrite Hlk in H.
    destruct (insert_params_cases u (logged [EvSelectUser n] s))
      as [(e & _ & He)|(r & Hr & He)].
    { erewrite bind_raise in H by exact He. simplify_eq.
      apply Skipped. split; [done | eauto]. }
    erewrite bind_ok in H by exact He.
    destruct (constraints_ok (cur s) n r) eqn:Hc.
    + erewrite bind_ok in H by (by eapply insert_users_ok).
      cbv [incr_inserted] in H. simplify_eq.
      by eapply (Inserted _ _ _ _ _ n r).
    + erewrite bind_raise in H by (by eapply insert_users_rejected).
      simplify_eq. apply Skipped. split; [done | eauto].
Qed.

End Inversion.

Section RecordClaims.

Variable fromisoformat : string -> option datetime.

(** C3 (amended): an incoming record whose [updated_at] is null, missing
    or empty, whose id already exists locally and which carries
    [username], is neither inserted nor updated: the table and both
    counters stay as they are and the record is appended to [conflicts]
    with reason ["missing_timestamp"]. *)
Theorem sync_missing_timestamp_existing u n r0 name s :
  u_id u = Some n -> sqlite_int n = true -> cur s !! n = Some r0 ->
  u_username u = Some name ->
  truthy (dict_get (u_updated_at u)) = false ->
  process_user fromisoformat u s =
    (St (cur s) (updated s) (inserted s)
        (conflicts s ++ [Conflict n name "missing_timestamp" None None])
        (db_log s ++ [EvSelectUser n]), Ok tt).
Proof.
  intros Hid Hn Hsome Hname Hmiss.
  apply (process_user_missing fromisoformat u n r0); try done.
  by rewrite Hmiss.
Qed.

(** C4 (amended): an incoming record whose id is absent from the table,
    which carries the five required keys and whose row satisfies the
    table's constraints, is inserted whatever its [updated_at] is (the
    stored value is the incoming one, NULL when absent) and is counted in
    [inserted]. *)
Theorem sync_new_record_inserted u n r s :
  u_id u = Some n -> sqlite_int n = true -> cur s !! n = None ->
  record_row u = Some r -> constraints_ok (cur s) n r = true ->
  process_user fromisoformat u s =
    (St (<[n := r]> (cur s)) (updated s) (S (inserted s)) (conflicts s)
        (db_log s ++ [EvSelectUser n; EvInsert n]), Ok tt) /\
  r_updated_at r = dict_get (u_updated_at u).
Proof.
  intros Hid Hn Hnone Hr Hc. split.
  - by apply process_user_insert.
  - by destruct (record_row_inv _ _ Hr) as (_&_&_&_&_&_&_&->).
Qed.

(** What a counted update leaves in the table. *)
Lemma process_user_update_inv u s s' res :
  process_user fromisoformat u s = (s', res) ->
  updated s' = S (updated s) ->
  exists n r0 r,
    u_id u = Some n /\ cur s !! n = Some r0 /\ record_row u = Some r /\
    cur s' = <[n := r]> (cur s) /\ res = Ok tt.
Proof.
  intros H Hupd.
  destruct (process_user_cases fromisoformat u s s' res H)
    as [n Htol -> _|[(_ & Hu & _) _]|n r _ _ _ _ _ Hu|n r r0 Hid _ Hlk Hr _ Hcur _ _ _ Hres].
  - simpl in Hupd. lia.
  - lia.
  - lia.
  - by exists n, r0, r.
Qed.

(** C5 (amended): the UPDATE of the merge writes [created_at] as well:
    after a counted update of a record whose [created_at] is absent,
    null or a text the TIMESTAMP column keeps as text (not a well-formed
    number), the row's [created_at] is the incoming record's
    [created_at] (NULL when absent or null), whatever the local value
    was. *)
Theorem sync_update_overwrites_created_at u s s' res :
  process_user fromisoformat u s = (s', res) ->
  updated s' = S (updated s) ->
  kept_as_text (dict_get (u_created_at u)) = true ->
  exists n r0 r,
    u_id u = Some n /\ cur s !! n = Some r0 /\ cur s' !! n = Some r /\
    r_created_at r = dict_get (u_created_at u).
Proof.
  intros H Hupd _.
  destruct (process_user_update_inv u s s' res H Hupd)
    as (n & r0 & r & Hid & Hlk & Hr & Hcur & _).
  exists n, r0, r. repeat split; try done.
  - rewrite Hcur. apply lookup_insert_eq.
  - by destruct (record_row_inv _ _ Hr) as (_&_&_&_&_&->&_).
Qed.

End RecordClaims.

Lemma sync_missing_timestamp_existing_witness :
  let s := blank (only_alice "2025-01-01 10:00:00") in
  process_user Iso.fromisoformat (alice_incoming None) s =
    (St (cur s) 0 0 [Conflict 1 (Some "alice") "missing_timestamp" None None]
        [EvSelectUser 1], Ok tt).
Proof.
  intros s.
  apply (sync_missing_timestamp_existing Iso.fromisoformat
           (alice_incoming None) 1 (alice "2025-01-01 10:00:00")
           (Some "alice") s); reflexivity.
Defined.

(** C3 as stated fails: a record with a null [updated_at] whose id is new
    is inserted, with a NULL timestamp, and no conflict is reported. *)
Lemma sync_null_timestamp_inserted_counterexample :
  receive_users_for_sync "test123" Iso.fromisoformat
    (post [bob_incoming 2 "bob" (Some None)])
    (only_alice "2025-01-01 10:00:00")
  = Outcome (SyncOk 0 1 [])
      (<[2 := bob_row "bob" None]> (only_alice "2025-01-01 10:00:00"))
      [EvConnect; EvSelectUser 2; EvInsert 2; EvCommit; EvClose].
Proof. reflexivity. Qed.

Lemma sync_new_record_inserted_witness :
  let s := blank (only_alice "2025-01-01 10:00:00") in
  process_user Iso.fromisoformat (bob_incoming 2 "bob" None) s =
    (St (<[2 := bob_row "bob" None]> (cur s)) 0 1 []
        [EvSelectUser 2; EvInsert 2], Ok tt) /\
  r_updated_at (bob_row "bob" None) = None.
Proof.
  intros s.
  apply (sync_new_record_inserted Iso.fromisoformat
           (bob_incoming 2 "bob" None) 2 (bob_row "bob" None) s); reflexivity.
Defined.

(** C4 as stated fails: the id is new, but the username is already taken
    by another row; the INSERT violates [username UNIQUE], the exception
    leaves the loop and the request ends in a 500 with nothing inserted. *)
Lemma sync_new_id_taken_username_counterexample :
  only_alice "2025-01-01 10:00:00" !! 2 = None /\
  receive_users_for_sync "test123" Iso.fromisoformat
    (post [bob_incoming 2 "alice" (Some (Some "2025-01-01T10:05:00"))])
    (only_alice "2025-01-01 10:00:00")
  = Outcome (ServerError IntegrityError)
      (only_alice "2025-01-01 10:00:00")
      [EvConnect; EvSelectUser 2; EvInsert 2].
Proof. split; reflexivity. Qed.

Lemma sync_update_overwrites_created_at_witness :
  let u := alice_incoming (Some "2025-01-01T10:05:00") in
  let s := blank (only_alice "2025-01-01 10:00:00") in
  let s' := St (<[1 := alice_merged (Some "2025-01-01T10:05:00")]> (cur s)) 1 0 []
               [EvSelectUser 1; EvUpdate 1] in
  process_user Iso.fromisoformat u s = (s', Ok tt) /\
  exists n r0 r,
    u_id u = Some n /\ cur s !! n = Some r0 /\ cur s' !! n = Some r /\
    r_created_at r = dict_get (u_created_at u).
Proof.
  intros u s s'. split; [reflexivity|].
  apply (sync_update_overwrites_created_at Iso.fromisoformat u s s' (Ok tt));
    reflexivity.
Defined.

(** C5 as stated fails: the stored [created_at] before the merge is
    ["2024-12-01 09:00:00"], after the merge it is the incoming
    ["2024-12-24 18:30:00"]. *)
Lemma sync_created_at_changed_counterexample :
  let before := only_alice "2025-01-01T10:00:00" in
  let after := db_after (receive_users_for_sync "test123" Iso.fromisoformat
                 (post [alice_incoming (Some "2025-01-01T10:05:00")]) before) in
  resp (receive_users_for_sync "test123" Iso.fromisoformat
          (post [alice_incoming (Some "2025-01-01T10:05:00")]) before)
    = SyncOk 1 0 [] /\
  (r_created_at <$> before !! 1) = Some (Some "2024-12-01 09:00:00") /\
  (r_created_at <$> after !! 1) = Some (Some "2024-12-24 18:30:00").
Proof. repeat split; reflexivity. Qed.

Lemma username_free_singleton n r0 name : username_free {[n := r0]} n name = true.
Proof.
  unfold username_free. apply bool_decide_eq_true.
  apply map_Forall_singleton. by left.
Qed.

(** C6: a counted update stores the incoming [updated_at] verbatim; and
    in the scenario of the specification (local user 1 updated at
    10:00:00, incoming copy updated at 10:05:00 and otherwise any record
    the table accepts) the response is [{updated: 1, inserted: 0,
    conflicts: []}] and the stored [updated_at] is the incoming string. *)
Theorem sync_update_stores_incoming_updated_at :
  (forall fromisoformat u s s' res,
     process_user fromisoformat u s = (s', res) ->
     updated s' = S (updated s) ->
     exists n r, u_id u = Some n /\ cur s' !! n = Some r /\
       Some (r_updated_at r) = u_updated_at u) /\
  (forall token r0 u r,
     r_updated_at r0 = Some "2025-01-01T10:00:00" ->
     u_id u = Some 1 ->
     u_updated_at u = Some (Some "2025-01-01T10:05:00") ->
     record_row u = Some r -> row_ok r = true ->
     receive_users_for_sync token Iso.fromisoformat
       (Request (Some token) [u]) {[1 := r0]}
     = Outcome (SyncOk 1 0 []) {[1 := r]}
         [EvConnect; EvSelectUser 1; EvUpdate 1; EvCommit; EvClose] /\
     r_updated_at r = Some "2025-01-01T10:05:00").
Proof.
  split.
  - intros fromisoformat u s s' res H Hupd.
    destruct (process_user_cases fromisoformat u s s' res H)
      as [n Htol -> _|[(_ & Hu & _) _]|n r _ _ _ _ _ Hu|n r r0 Hid _ Hlk Hr Ht Hcur _ _ _ Hres];
      [simpl in Hupd; lia | lia | lia |].
    exists n, r. split; [done|]. split; [rewrite Hcur; apply lookup_insert_eq|].
    destruct (record_row_inv _ _ Hr) as (_&_&_&_&_&_&_&Hup).
    rewrite Hup in Ht |- *.
    destruct (u_updated_at u) as [v|]; [done | discriminate].
  - intros token r0 u r Hloc Hid Hin Hr Hok.
    assert (r_updated_at r = Some "2025-01-01T10:05:00") as Hup.
    { destruct (record_row_inv _ _ Hr) as (_&_&_&_&_&_&_&->). by rewrite Hin. }
    split; [|done].
    unfold receive_users_for_sync, verify_sync_token; simpl.
    rewrite bool_decide_eq_true_2 by done; simpl. unfold bind at 1.
    rewrite (process_user_update Iso.fromisoformat u 1 r0
               "2025-01-01T10:05:00" "2025-01-01T10:00:00"
               (DateTime 63871322700000000 None)
               (DateTime 63871322400000000 None) 300000000 r
               (St {[1 := r0]} 0 0 [] [EvConnect])); try done.
    unfold constraints_ok. rewrite Hok; simpl. apply username_free_singleton.
Qed.

Lemma sync_update_stores_incoming_updated_at_witness :
  let u := alice_incoming (Some "2025-01-01T10:05:00") in
  let r := alice_merged (Some "2025-01-01T10:05:00") in
  let s := blank (only_alice "2025-01-01T10:00:00") in
  let s' := (St (<[1 := r]> (cur s)) 1 0 [] [EvSelectUser 1; EvUpdate 1]) in
  (exists n r', u_id u = Some n /\ cur s' !! n = Some r' /\
     Some (r_updated_at r') = u_updated_at u) /\
  receive_users_for_sync "test123" Iso.fromisoformat
    (Request (Some "test123") [u]) {[1 := alice "2025-01-01T10:00:00"]}
  = Outcome (SyncOk 1 0 []) {[1 := r]}
      [EvConnect; EvSelectUser 1; EvUpdate 1; EvCommit; EvClose] /\
  r_updated_at r = Some "2025-01-01T10:05:00".
Proof.
  intros u r s s'. split.
  - apply (proj1 sync_update_stores_incoming_updated_at
             Iso.fromisoformat u s s' (Ok tt)); reflexivity.
  - apply (proj2 sync_update_stores_incoming_updated_at
             "test123" (alice "2025-01-01T10:00:00") u r); reflexivity.
Defined.

(** ** Batches *)

Lemma for_each_app {A} (body : A -> M unit) l1 l2 s :
  for_each body (l1 ++ l2) s =
    match for_each body l1 s with
    | (s', Ok _) => for_each body l2 s'
    | (s', Raise e) => (s', Raise e)
    end.
Proof.
  revert s. induction l1 as [|x l1 IH]; intros s; simpl; [done|].
  unfold bind. destruct (body x s) as [s1 [[]|e]]; [apply IH | done].
Qed.

Section BatchClaims.

Variable SYNC_TOKEN : string.
Variable fromisoformat : string -> option datetime.

Lemma process_user_malformed u n r0 name s :
  u_id u = Some n -> sqlite_int n = true -> cur s !! n = Some r0 ->
  u_username u = Some name ->
  malformed_timestamp fromisoformat u \/
    missing_field_on_update fromisoformat u r0 ->
  exists reason,
    (reason = "missing_timestamp" \/ reason = "timestamp_parse_error") /\
    process_user fromisoformat u s =
      (St (cur s) (updated s) (inserted s)
          (conflicts s ++ [Conflict n name reason None None])
          (db_log s ++ [EvSelectUser n]), Ok tt).
Proof.
  intros Hid Hn Hsome Hname
    [[Hmiss|(tin & Hin & Hin' & Hbad)]
    |(Hrow & tin & tloc & din & dloc & delta &
      Hin & Hin' & Hloc & Hloc' & Hdin & Hdloc & Hsub & Hge)].
  - exists "missing_timestamp". split; [by left|].
    apply (process_user_missing fromisoformat u n r0); try done.
    by rewrite Hmiss.
  - destruct (truthy (r_updated_at r0)) eqn:Hloc.
    + apply truthy_Some in Hloc as (tloc & Hloc & Hloc').
      exists "timestamp_parse_error". split; [by right|].
      apply (process_user_parse_error fromisoformat u n r0 name tin tloc);
        try done.
      by rewrite Hbad.
    + exists "missing_timestamp". split; [by left|].
      apply (process_user_missing fromisoformat u n r0); try done.
      rewrite Hloc. apply andb_false_r.
  - exists "timestamp_parse_error". split; [by right|].
    rewrite (process_user_compare fromisoformat u n r0 tin tloc din dloc delta)
      by done.
    assert ((Z.abs delta <? 1000000) = false) as -> by (apply Z.ltb_ge; lia).
    assert ((0 <? delta) = true) as -> by (apply Z.ltb_lt; lia).
    destruct (update_params_cases u (logged [EvSelectUser n] s))
      as [[e He]|(r & Hr & _)]; [|congruence].
    erewrite try_except_raise by (by eapply bind_raise).
    by rewrite (report_conflict_ok u n name).
Qed.

(** C7 (amended): a malformed record whose id exists locally and which
    carries [username] does not abort the batch, where malformed means a
    missing, null, empty or unparseable [updated_at], or a missing
    [password_hash], [nome], [cognome] or [ruolo] on a record at least a
    second newer than the local row.  That record alone is appended to
    [conflicts], with reason ["missing_timestamp"] or
    ["timestamp_parse_error"], and the rest of the batch is processed
    exactly as if the record were not there: same result, same table,
    same counters, same other conflicts. *)
Theorem sync_malformed_record_isolated pre bad post s0 s1 n r0 name :
  for_each (process_user fromisoformat) pre s0 = (s1, Ok tt) ->
  u_id bad = Some n -> sqlite_int n = true -> cur s1 !! n = Some r0 ->
  u_username bad = Some name ->
  malformed_timestamp fromisoformat bad \/
    missing_field_on_update fromisoformat bad r0 ->
  exists reason cs,
    (reason = "missing_timestamp" \/ reason = "timestamp_parse_error") /\
    let with_bad := for_each (process_user fromisoformat) (pre ++ bad :: post) s0 in
    let without := for_each (process_user fromisoformat) (pre ++ post) s0 in
    with_bad.2 = without.2 /\
    cur with_bad.1 = cur without.1 /\
    updated with_bad.1 = updated without.1 /\
    inserted with_bad.1 = inserted without.1 /\
    conflicts without.1 = conflicts s1 ++ cs /\
    conflicts with_bad.1 =
      conflicts s1 ++ Conflict n name reason None None :: cs.
Proof.
  intros Hpre Hid Hn Hsome Hname Hbad.
  destruct (process_user_malformed bad n r0 name s1 Hid Hn Hsome Hname Hbad)
    as (reason & Hreason & Hstep).
  exists reason,
    (conflicts (for_each (process_user fromisoformat) post (blank (cur s1))).1).
  split; [done|]. cbv zeta.
  assert (for_each (process_user fromisoformat) (pre ++ post) s0
          = for_each (process_user fromisoformat) post s1) as ->.
  { by rewrite for_each_app, Hpre. }
  assert (for_each (process_user fromisoformat) (pre ++ bad :: post) s0
          = for_each (process_user fromisoformat) post
              (St (cur s1) (updated s1) (inserted s1)
                  (conflicts s1 ++ [Conflict n name reason None None])
                  (db_log s1 ++ [EvSelectUser n]))) as ->.
  { rewrite for_each_app, Hpre. cbn [for_each].
    by erewrite bind_ok by exact Hstep. }
  rewrite (framed_for_each fromisoformat post s1).
  rewrite (framed_for_each fromisoformat post (St _ _ _ _ _)).
  cbn [cur fst snd extend updated inserted conflicts].
  repeat split; try done. by rewrite <- app_assoc.
Qed.

(** C8: a GET or POST whose [X-Sync-Token] header is missing or differs
    from the configured token is answered 401 before the database is
    touched: no operation is performed and the table is unchanged. *)
Theorem sync_unauthorized_before_database req db :
  x_sync_token req <> Some SYNC_TOKEN ->
  get_users_for_sync SYNC_TOKEN req db = Outcome Unauthorized db [] /\
  receive_users_for_sync SYNC_TOKEN fromisoformat req db
    = Outcome Unauthorized db [] /\
  status_code Unauthorized = 401.
Proof.
  intros Htoken.
  unfold get_users_for_sync, receive_users_for_sync, verify_sync_token.
  by rewrite bool_decide_eq_false_2.
Qed.

(** C10: when a record raises past the per-record handling, the request
    is answered 500 and the table is exactly what it was before the
    request, whatever the records processed earlier in the batch had
    inserted or updated. *)
Theorem sync_escaped_exception_rolls_back req db pre u post s1 s2 e :
  x_sync_token req = Some SYNC_TOKEN ->
  body_users req = pre ++ u :: post ->
  for_each (process_user fromisoformat) pre (St db 0 0 [] [EvConnect])
    = (s1, Ok tt) ->
  process_user fromisoformat u s1 = (s2, Raise e) ->
  receive_users_for_sync SYNC_TOKEN fromisoformat req db
    = Outcome (ServerError e) db (db_log s2) /\
  status_code (ServerError e) = 500.
Proof.
  intros Htoken Hbody Hpre Hstep. split; [|done].
  unfold receive_users_for_sync, verify_sync_token.
  rewrite bool_decide_eq_true_2 by done. cbn [negb].
  assert (for_each (process_user fromisoformat) (pre ++ u :: post)
            (St db 0 0 [] [EvConnect]) = (s2, Raise e)) as Hrun.
  { rewrite for_each_app, Hpre. cbn [for_each].
    by erewrite bind_raise by exact Hstep. }
  rewrite Hbody. destruct (pre ++ u :: post) as [|u' l] eqn:Hl.
  { by destruct pre. }
  by rewrite Hrun.
Qed.

End BatchClaims.

Lemma sync_malformed_record_isolated_witness :
  let ts := Some (Some "2025-01-02T08:00:00") in
  let pre := [bob_incoming 2 "bob" ts] in
  let post := [bob_incoming 3 "carl" ts] in
  let s0 := St (only_alice "2025-01-01 10:00:00") 0 0 [] [EvConnect] in
  let isolated bad :=
    exists reason cs,
      (reason = "missing_timestamp" \/ reason = "timestamp_parse_error") /\
      let with_bad := for_each (process_user Iso.fromisoformat) (pre ++ bad :: post) s0 in
      let without := for_each (process_user Iso.fromisoformat) (pre ++ post) s0 in
      with_bad.2 = without.2 /\
      cur with_bad.1 = cur without.1 /\
      updated with_bad.1 = updated without.1 /\
      inserted with_bad.1 = inserted without.1 /\
      conflicts without.1 = [] ++ cs /\
      conflicts with_bad.1 =
        [] ++ Conflict 1 (Some "alice") reason None None :: cs in
  isolated (alice_incoming (Some "yesterday")) /\
  isolated (alice_without_hash (Some "2025-01-01T10:05:00")).
Proof.
  intros ts pre post s0 isolated.
  pose (s1 := St (<[2 := bob_row "bob" (Some "2025-01-02T08:00:00")]>
                    (only_alice "2025-01-01 10:00:00")) 0 1 []
                 [EvConnect; EvSelectUser 2; EvInsert 2]).
  split.
  - apply (sync_malformed_record_isolated Iso.fromisoformat pre
             (alice_incoming (Some "yesterday")) post s0 s1
             1 (alice "2025-01-01 10:00:00") (Some "alice"));
      try reflexivity.
    left. right. exists "yesterday".
    split; [reflexivity | split; [discriminate | reflexivity]].
  - apply (sync_malformed_record_isolated Iso.fromisoformat pre
             (alice_without_hash (Some "2025-01-01T10:05:00")) post s0 s1
             1 (alice "2025-01-01 10:00:00") (Some "alice"));
      try reflexivity.
    right. split; [reflexivity|].
    exists "2025-01-01T10:05:00", "2025-01-01 10:00:00",
      (DateTime 63871322700000000 None), (DateTime 63871322400000000 None),
      300000000.
    repeat split; (reflexivity || discriminate || lia).
Defined.

(** C7 as stated fails for a missing required field: the first record of
    the batch has a new id and no [username]; the [KeyError] is raised
    outside the per-record [try], the request ends in a 500 and the
    well-formed sibling is not merged.  The same happens for an existing
    id: building the conflict entry raises inside the handler as well. *)
Lemma sync_missing_field_aborts_batch_counterexample :
  let db := only_alice "2025-01-01 10:00:00" in
  let ts := Some (Some "2025-01-02T08:00:00") in
  receive_users_for_sync "test123" Iso.fromisoformat
    (post [nameless 3 ts; bob_incoming 2 "bob" ts]) db
  = Outcome (ServerError (KeyError "username")) db [EvConnect; EvSelectUser 3] /\
  receive_users_for_sync "test123" Iso.fromisoformat
    (post [nameless 1 (Some None); bob_incoming 2 "bob" ts]) db
  = Outcome (ServerError (KeyError "username")) db [EvConnect; EvSelectUser 1] /\
  receive_users_for_sync "test123" Iso.fromisoformat
    (post [bob_incoming 2 "bob" ts]) db
  = Outcome (SyncOk 0 1 [])
      (<[2 := bob_row "bob" (Some "2025-01-02T08:00:00")]> db)
      [EvConnect; EvSelectUser 2; EvInsert 2; EvCommit; EvClose].
Proof. repeat split; reflexivity. Qed.

Lemma sync_unauthorized_before_database_witness :
  let db := only_alice "2025-01-01 10:00:00" in
  let ts := Some (Some "2025-01-02T08:00:00") in
  (get_users_for_sync "test123" (Request None []) db
     = Outcome Unauthorized db [] /\
   receive_users_for_sync "test123" Iso.fromisoformat
     (Request None [bob_incoming 2 "bob" ts]) db = Outcome Unauthorized db [] /\
   status_code Unauthorized = 401) /\
  (get_users_for_sync "test123" (Request (Some "Test123") []) db
     = Outcome Unauthorized db [] /\
   receive_users_for_sync "test123" Iso.fromisoformat
     (Request (Some "Test123") [bob_incoming 2 "bob" ts]) db
     = Outcome Unauthorized db [] /\
   status_code Unauthorized = 401).
Proof.
  intros db ts. split.
  - apply (sync_unauthorized_before_database "test123" Iso.fromisoformat
             (Request None [bob_incoming 2 "bob" ts]) db). discriminate.
  - apply (sync_unauthorized_before_database "test123" Iso.fromisoformat
             (Request (Some "Test123") [bob_incoming 2 "bob" ts]) db).
    discriminate.
Defined.

Lemma sync_escaped_exception_rolls_back_witness :
  let db := only_alice "2025-01-01 10:00:00" in
  let ts := Some (Some "2025-01-02T08:00:00") in
  receive_users_for_sync "test123" Iso.fromisoformat
    (post [bob_incoming 2 "bob" ts; nameless 3 ts; bob_incoming 4 "dan" ts]) db
  = Outcome (ServerError (KeyError "username")) db
      [EvConnect; EvSelectUser 2; EvInsert 2; EvSelectUser 3] /\
  status_code (ServerError (KeyError "username")) = 500.
Proof.
  intros db ts.
  apply (sync_escaped_exception_rolls_back "test123" Iso.fromisoformat
           (post [bob_incoming 2 "bob" ts; nameless 3 ts; bob_incoming 4 "dan" ts])
           db [bob_incoming 2 "bob" ts] (nameless 3 ts) [bob_incoming 4 "dan" ts]
           (St (<[2 := bob_row "bob" (Some "2025-01-02T08:00:00")]> db) 0 1 []
               [EvConnect; EvSelectUser 2; EvInsert 2])
           (St (<[2 := bob_row "bob" (Some "2025-01-02T08:00:00")]> db) 0 1 []
               [EvConnect; EvSelectUser 2; EvInsert 2; EvSelectUser 3])
           (KeyError "username")); reflexivity.
Defined.

(** ** Re-submitting a batch *)

Lemma dt_sub_self d : dt_sub d d = Ok 0.
Proof.
  unfold dt_sub. destruct (dt_utcoffset d); f_equal; lia.
Qed.

Lemma app_eq_self {A} (l k : list A) : l ++ k = l -> k = [].
Proof.
  intros H. apply (app_inv_head l). by rewrite app_nil_r.
Qed.

Section Resubmission.

Variable SYNC_TOKEN : string.
Variable fromisoformat : string -> option datetime.

Lemma process_user_conflicts_grow u s s' res :
  process_user fromisoformat u s = (s', res) ->
  exists cs, conflicts s' = conflicts s ++ cs.
Proof.
  rewrite (framed_process_user fromisoformat u s). intros [= <- _].
  by eexists.
Qed.

Lemma for_each_conflicts_grow l s s' res :
  for_each (process_user fromisoformat) l s = (s', res) ->
  exists cs, conflicts s' = conflicts s ++ cs.
Proof.
  rewrite (framed_for_each fromisoformat l s). intros [= <- _].
  by eexists.
Qed.

(** The loop body reads and writes only the row of the record's id. *)
Lemma process_user_other_rows u s s' res k :
  process_user fromisoformat u s = (s', res) ->
  u_id u <> Some k -> cur s' !! k = cur s !! k.
Proof.
  intros H Hk.
  destruct (process_user_cases fromisoformat u s s' res H)
    as [n _ -> _|[(-> & _) _]|n r Hid _ _ _ -> _ _ _ _
       |n r r0 Hid _ _ _ _ -> _ _ _ _]; try done.
  - apply lookup_insert_ne. congruence.
  - apply lookup_insert_ne. congruence.
Qed.

Lemma settled_lookup u t t' n :
  u_id u = Some n -> t' !! n = t !! n ->
  settled fromisoformat u t -> settled fromisoformat u t'.
Proof.
  intros Hid Hlk (m & r0 & tin & tloc & din & dloc & delta & Hid' & Hm & Hr0 & H).
  assert (m = n) as -> by congruence.
  exists n, r0, tin, tloc, din, dloc, delta.
  split; [done|]. split; [done|]. split; [by rewrite Hlk | done].
Qed.

(** A settled record is a no-op. *)
Lemma settled_step u s :
  settled fromisoformat u (cur s) ->
  exists n, u_id u = Some n /\
    process_user fromisoformat u s = (logged [EvSelectUser n] s, Ok tt).
Proof.
  intros (n & r0 & tin & tloc & din & dloc & delta &
          Hid & Hn & Hr0 & Hin & Hin' & Hloc & Hloc' & Hdin & Hdloc & Hsub & Hlt).
  exists n. split; [done|]. by eapply process_user_tolerated.
Qed.

(** A record that went through without a conflict is settled afterwards. *)
Lemma step_settles u s s' :
  process_user fromisoformat u s = (s', Ok tt) ->
  conflicts s' = conflicts s -> parseable fromisoformat u ->
  settled fromisoformat u (cur s').
Proof.
  intros H Hc (tin & d & Hin & Hin' & Hd).
  assert (forall n r, u_id u = Some n -> sqlite_int n = true ->
                      record_row u = Some r ->
                      settled fromisoformat u (<[n := r]> (cur s))) as Hwritten.
  { intros n r Hid Hn Hr.
    exists n, r, tin, tin, d, d, 0.
    destruct (record_row_inv _ _ Hr) as (_&_&_&_&_&_&_&Hup).
    rewrite Hin in Hup. simpl in Hup.
    repeat split; try done.
    - apply lookup_insert_eq.
    - apply dt_sub_self. }
  destruct (process_user_cases fromisoformat u s s' _ H)
    as [n Htol -> _|[_ [[e ?]|[c Hc']]]|n r Hid Hn _ Hr -> _ _ _ _
       |n r r0 Hid Hn _ Hr _ -> _ _ _ _].
  - by exists n.
  - done.
  - rewrite Hc in Hc'. symmetry in Hc'. by apply app_eq_self in Hc'.
  - by apply Hwritten.
  - by apply Hwritten.
Qed.

(** After a batch of distinct ids has gone through without a conflict,
    every record of it is settled. *)
Lemma first_pass_settles l s s' :
  NoDup (u_id <$> l) -> Forall (parseable fromisoformat) l ->
  for_each (process_user fromisoformat) l s = (s', Ok tt) ->
  conflicts s' = conflicts s ->
  Forall (fun u => settled fromisoformat u (cur s')) l /\
  (forall k, Some k ∉ (u_id <$> l) -> cur s' !! k = cur s !! k).
Proof.
  revert s. induction l as [|u l IH]; intros s Hnd Hparse Hrun Hc.
  { cbv [for_each ret] in Hrun. simplify_eq. by split. }
  apply NoDup_cons in Hnd as [Hnotin Hnd].
  apply Forall_cons in Hparse as [Hu Hparse].
  cbn [for_each] in Hrun. unfold bind at 1 in Hrun.
  destruct (process_user fromisoformat u s) as [s1 [[]|e]] eqn:Hstep;
    [|by simplify_eq].
  destruct (process_user_conflicts_grow _ _ _ _ Hstep) as [cs1 Hc1].
  destruct (for_each_conflicts_grow _ _ _ _ Hrun) as [cs2 Hc2].
  assert (cs1 = [] /\ cs2 = []) as [-> ->].
  { rewrite Hc1, <- app_assoc in Hc2. rewrite Hc2 in Hc.
    apply app_eq_self in Hc. by apply app_eq_nil in Hc. }
  rewrite app_nil_r in Hc1, Hc2.
  destruct (IH s1 Hnd Hparse Hrun Hc2) as [Hsettled Hframe].
  pose proof (step_settles u s s1 Hstep Hc1 Hu) as Hset.
  split.
  - apply Forall_cons. split; [|done].
    destruct Hset as [n Hn]. pose proof Hn as (? & ? & ? & ? & ? & ? & Hid & _).
    apply (settled_lookup u (cur s1) (cur s') n); [done| |by exists n].
    apply Hframe. by rewrite <- Hid.
  - intros k Hk. apply not_elem_of_cons in Hk as [Hk1 Hk2].
    rewrite (Hframe k Hk2).
    by apply (process_user_other_rows u s s1 (Ok tt)).
Qed.

(** A batch of settled records only reads. *)
Lemma second_pass_reads l s :
  Forall (fun u => settled fromisoformat u (cur s)) l ->
  exists evs, for_each (process_user fromisoformat) l s = (logged evs s, Ok tt).
Proof.
  revert s. induction l as [|u l IH]; intros s Hall.
  { exists []. unfold logged; simpl. rewrite app_nil_r. by destruct s. }
  apply Forall_cons in Hall as [Hu Hall].
  destruct (settled_step u s Hu) as (n & _ & Hstep).
  destruct (IH (logged [EvSelectUser n] s) Hall) as [evs Hrest].
  exists (EvSelectUser n :: evs). cbn [for_each].
  erewrite bind_ok by exact Hstep. rewrite Hrest.
  unfold logged; simpl. by rewrite <- app_assoc.
Qed.

(** C2 (amended): when a batch of records with pairwise distinct ids and
    parseable [updated_at] values has been accepted without any conflict,
    posting the same batch again changes nothing: every record is a
    no-op, the response has [updated = 0], [inserted = 0] and no
    conflicts, and the table is the one the first call left. *)
Theorem sync_resubmission_idempotent req db n_upd n_ins db1 trace1 :
  x_sync_token req = Some SYNC_TOKEN ->
  NoDup (u_id <$> body_users req) ->
  Forall (parseable fromisoformat) (body_users req) ->
  receive_users_for_sync SYNC_TOKEN fromisoformat req db
    = Outcome (SyncOk n_upd n_ins []) db1 trace1 ->
  exists trace2,
    receive_users_for_sync SYNC_TOKEN fromisoformat req db1
      = Outcome (SyncOk 0 0 []) db1 trace2.
Proof.
  intros Htoken Hnd Hparse Hfirst.
  unfold receive_users_for_sync, verify_sync_token in *.
  rewrite bool_decide_eq_true_2 in * by done. cbn [negb] in *.
  destruct (body_users req) as [|u l] eqn:Hbody; [done|].
  destruct (for_each (process_user fromisoformat) (u :: l)
              (St db 0 0 [] [EvConnect])) as [s1 [[]|e]] eqn:Hrun;
    [|done].
  injection Hfirst as _ _ Hc Hdb _. subst db1.
  destruct (first_pass_settles (u :: l) _ s1 Hnd Hparse Hrun Hc)
    as [Hsettled _].
  destruct (second_pass_reads (u :: l) (St (cur s1) 0 0 [] [EvConnect]) Hsettled)
    as [evs ->].
  by eexists.
Qed.

End Resubmission.

Lemma sync_resubmission_idempotent_witness :
  let req := post [bob_incoming 2 "bob" (Some (Some "2025-01-02T08:00:00"));
                   alice_incoming (Some "2025-01-01T10:05:00")] in
  let first := receive_users_for_sync "test123" Iso.fromisoformat req
                 (only_alice "2025-01-01 10:00:00") in
  resp first = SyncOk 1 1 [] /\
  exists trace2,
    receive_users_for_sync "test123" Iso.fromisoformat req (db_after first)
    = Outcome (SyncOk 0 0 []) (db_after first) trace2.
Proof.
  intros req first. split; [reflexivity|].
  apply (sync_resubmission_idempotent "test123" Iso.fromisoformat req
           (only_alice "2025-01-01 10:00:00") 1 1 (db_after first)
           (db_trace first)).
  - reflexivity.
  - change (NoDup [Some 2; Some 1]).
    apply NoDup_cons_2; [|apply NoDup_singleton].
    intros [=]%list_elem_of_singleton.
  - repeat apply Forall_cons_2; [| |apply Forall_nil_2].
    + exists "2025-01-02T08:00:00", (DateTime 63871401600000000 None).
      split; [reflexivity | split; [discriminate | reflexivity]].
    + exists "2025-01-01T10:05:00", (DateTime 63871322700000000 None).
      split; [reflexivity | split; [discriminate | reflexivity]].
  - reflexivity.
Defined.

(** C2 as stated fails, in four ways.  A new record without a timestamp
    is inserted by the first call and reported as ["missing_timestamp"]
    by the second.  A record older than the local one is reported as
    ["local_newer"] by both calls.  When a batch carries two versions of
    one id, the first call inserts the older and applies the newer, and
    the second call reports the older as ["local_newer"].  And the table
    itself can change on the second call: the first record renames user 1
    to a username that user 2 gives up later in the same batch, so its
    UPDATE is rejected the first time and accepted the second time. *)
Lemma sync_resubmission_counterexample :
  let db := only_alice "2025-01-01 10:00:00" in
  let run req d := receive_users_for_sync "test123" Iso.fromisoformat req d in
  let req1 := post [bob_incoming 2 "bob" (Some None)] in
  let req2 := post [alice_incoming (Some "2025-01-01 09:59:50")] in
  let ts := Some (Some "2025-01-02T08:00:00") in
  let later := Some (Some "2025-01-02T09:00:00") in
  let req3 := post [bob_incoming 2 "bob" ts; bob_incoming 2 "bob" later] in
  let db4 := <[2 := bob_row "alicia" (Some "2025-01-01 10:00:00")]> db in
  let req4 := post [bob_incoming 1 "alicia" ts; bob_incoming 2 "bob" ts] in
  (resp (run req1 db) = SyncOk 0 1 [] /\
   resp (run req1 (db_after (run req1 db)))
     = SyncOk 0 0 [Conflict 2 (Some "bob") "missing_timestamp" None None]) /\
  (db_after (run req2 db) = db /\
   resp (run req2 db)
     = SyncOk 0 0 [Conflict 1 (Some "alice") "local_newer"
                     (Some (Some "2025-01-01 10:00:00"))
                     (Some (Some "2025-01-01 09:59:50"))]) /\
  (resp (run req3 db) = SyncOk 1 1 [] /\
   resp (run req3 (db_after (run req3 db)))
     = SyncOk 0 0 [Conflict 2 (Some "bob") "local_newer"
                     (Some (Some "2025-01-02T09:00:00"))
                     (Some (Some "2025-01-02T08:00:00"))]) /\
  (resp (run req4 db4)
     = SyncOk 1 0 [Conflict 1 (Some "alicia") "timestamp_parse_error" None None] /\
   resp (run req4 (db_after (run req4 db4))) = SyncOk 1 0 [] /\
   db_after (run req4 (db_after (run req4 db4))) <> db_after (run req4 db4)).
Proof.
  repeat split; try reflexivity.
  intros H. apply (f_equal (fun t => r_username <$> t !! 1)) in H.
  vm_compute in H. discriminate.
Qed.

(** ** The credential store and [updated_at] *)

Section AuthDBClaims.

Variable hash_password : string -> string.
Variable verify_password : string -> string -> result bool.
Variable next_rowid : gmap Z row -> Z.

Lemma select_by_username_Some t username uid r :
  AuthDB.select_by_username t username = Some (uid, r) ->
  t !! uid = Some r /\ r_username r = Some username.
Proof.
  unfold AuthDB.select_by_username. intros H.
  apply head_Some_elem_of, list_elem_of_filter in H as [Hname Hin].
  split; [by apply elem_of_map_to_list | done].
Qed.

(** C9: a successful [login] adds one session row and changes, in
    [users], only the [last_login] column of the user who logged in
    ([updated_at] and every other column and row are as before); a
    successful [register_user] creates a row whose [updated_at] is the
    current time, and a successful [update_user] sets [updated_at] of the
    edited row to the current time. *)
Theorem updated_at_refreshed_by_edits_not_by_login :
  (forall username password token expires now d d' uid user,
     AuthDB.login verify_password username password token expires now d
       = (Ok (AuthDB.LoggedIn token uid user), d') ->
     AuthDB.sessions d' = AuthDB.sessions d ++ [AuthDB.Session uid token expires] /\
     (forall k, k <> uid -> AuthDB.users d' !! k = AuthDB.users d !! k) /\
     exists r r',
       AuthDB.users d !! uid = Some r /\ AuthDB.users d' !! uid = Some r' /\
       r_last_login r' = Some now /\
       r_updated_at r' = r_updated_at r /\
       r_username r' = r_username r /\
       r_password_hash r' = r_password_hash r /\
       r_nome r' = r_nome r /\ r_cognome r' = r_cognome r /\
       r_ruolo r' = r_ruolo r /\ r_created_at r' = r_created_at r) /\
  (forall username password nome cognome ruolo now d d' uid,
     AuthDB.register_user hash_password next_rowid
       username password nome cognome ruolo now d = (AuthDB.Registered uid, d') ->
     AuthDB.users d !! uid = None /\
     exists r, AuthDB.users d' !! uid = Some r /\
       r_username r = Some username /\ r_updated_at r = Some now) /\
  (forall uid nome cognome ruolo new_password now d d',
     AuthDB.update_user hash_password uid nome cognome ruolo new_password now d
       = (Ok AuthDB.Updated, d') ->
     exists r r',
       AuthDB.users d !! uid = Some r /\ AuthDB.users d' !! uid = Some r' /\
       r_updated_at r' = Some now).
Proof.
  split; [|split].
  - intros username password token expires now d d' uid user H.
    unfold AuthDB.login in H.
    destruct (AuthDB.select_by_username (AuthDB.users d) username)
      as [[uid' r]|] eqn:Hsel; [|by simplify_eq].
    apply select_by_username_Some in Hsel as [Hlk _].
    destruct (r_password_hash r) as [ph|]; [|by simplify_eq].
    destruct (verify_password password ph) as [[|]|e]; try by simplify_eq.
    case_bool_decide; simplify_eq/=.
    split; [done|]. split.
    + intros k Hk. by apply lookup_insert_ne.
    + exists user, (AuthDB.set_last_login now user).
      repeat split; try done. apply lookup_insert_eq.
  - intros username password nome cognome ruolo now d d' uid H.
    unfold AuthDB.register_user in H.
    destruct (negb (ruolo_valid ruolo)); [by simplify_eq|].
    destruct (AuthDB.select_by_username (AuthDB.users d) username);
      [by simplify_eq|].
    destruct (AuthDB.users d !! next_rowid (AuthDB.users d)) eqn:Hlk;
      [by simplify_eq|].
    destruct (constraints_ok _ _ _); simplify_eq/=.
    split; [done|]. eexists. split; [apply lookup_insert_eq | done].
  - intros uid nome cognome ruolo new_password now d d' H.
    unfold AuthDB.update_user in H.
    destruct (truthy ruolo && negb (ruolo_valid (default "" ruolo)));
      [by simplify_eq|].
    destruct (negb (truthy nome || truthy cognome || truthy ruolo
                    || truthy new_password)); [by simplify_eq|].
    destruct (negb (sqlite_int uid)); [by simplify_eq|].
    destruct (AuthDB.users d !! uid) as [r|] eqn:Hlk; simplify_eq/=.
    eexists r, _. split; [done|]. split; [apply lookup_insert_eq | done].
Qed.

End AuthDBClaims.

Lemma updated_at_refreshed_by_edits_not_by_login_witness :
  let d := AuthDB.Db (only_alice "2025-01-01 10:00:00") [] in
  let now := "2025-02-01 12:00:00" in
  (exists r r',
     AuthDB.users d !! 1 = Some r /\
     (AuthDB.login plain_check "alice" "$2b$12$alice" "tok" "2025-02-01 12:40:00"
        now d).2.(AuthDB.users) !! 1 = Some r' /\
     r_last_login r' = Some now /\ r_updated_at r' = r_updated_at r) /\
  (exists r,
     (AuthDB.register_user (fun p => p) (fun _ => 2)
        "bob" "pw" "Bob" "Verdi" "paziente" now d).2.(AuthDB.users) !! 2 = Some r /\
     r_updated_at r = Some now) /\
  (exists r r',
     AuthDB.users d !! 1 = Some r /\
     (AuthDB.update_user (fun p => p) 1 None (Some "Bianchi") None None now d).2
       .(AuthDB.users) !! 1 = Some r' /\
     r_updated_at r' = Some now).
Proof.
  intros d now.
  pose proof (updated_at_refreshed_by_edits_not_by_login
                (fun p => p) plain_check (fun _ => 2)) as (Hlogin & Hreg & Hupd).
  split; [|split].
  - destruct (Hlogin "alice" "$2b$12$alice" "tok" "2025-02-01 12:40:00" now d
                (AuthDB.login plain_check "alice" "$2b$12$alice" "tok"
                   "2025-02-01 12:40:00" now d).2
                1 (alice "2025-01-01 10:00:00") eq_refl)
      as (_ & _ & r & r' & H1 & H2 & H3 & H4 & _).
    by exists r, r'.
  - destruct (Hreg "bob" "pw" "Bob" "Verdi" "paziente" now d
                (AuthDB.register_user (fun p => p) (fun _ => 2)
                   "bob" "pw" "Bob" "Verdi" "paziente" now d).2 2 eq_refl)
      as (_ & r & H1 & _ & H2).
    by exists r.
  - destruct (Hupd 1 None (Some "Bianchi") None None now d
                (AuthDB.update_user (fun p => p) 1 None (Some "Bianchi") None None
                   now d).2 eq_refl)
      as (r & r' & H1 & H2 & H3).
    by exists r, r'.
Defined.

(** * Further properties of the merge endpoint *)

(** ** The merge is local to the ids of the batch *)

Section MergeFrame.

Variable SYNC_TOKEN : string.
Variable fromisoformat : string -> option datetime.

Lemma process_user_keeps_rows u s s' res k :
  process_user fromisoformat u s = (s', res) ->
  is_Some (cur s !! k) -> is_Some (cur s' !! k).
Proof.
  intros H Hk.
  destruct (process_user_cases fromisoformat u s s' res H)
    as [n _ -> _|[(-> & _) _]|n r _ _ _ _ -> _ _ _ _
       |n r r0 _ _ _ _ _ -> _ _ _ _]; try done.
  - rewrite lookup_insert. case_decide; [by eexists | done].
  - rewrite lookup_insert. case_decide; [by eexists | done].
Qed.

Lemma for_each_keeps_rows l s s' res k :
  for_each (process_user fromisoformat) l s = (s', res) ->
  is_Some (cur s !! k) -> is_Some (cur s' !! k).
Proof.
  revert s. induction l as [|u l IH]; intros s H Hk.
  { cbv [for_each ret] in H. by simplify_eq. }
  cbn [for_each] in H. unfold bind at 1 in H.
  destruct (process_user fromisoformat u s) as [s1 [[]|e]] eqn:Hstep.
  - eapply IH; [done|]. by eapply process_user_keeps_rows.
  - simplify_eq. by eapply process_user_keeps_rows.
Qed.

Lemma for_each_other_rows l s s' res k :
  for_each (process_user fromisoformat) l s = (s', res) ->
  Some k ∉ (u_id <$> l) -> cur s' !! k = cur s !! k.
Proof.
  revert s. induction l as [|u l IH]; intros s H Hk.
  { cbv [for_each ret] in H. by simplify_eq. }
  rewrite fmap_cons in Hk. apply not_elem_of_cons in Hk as [Hk1 Hk2].
  cbn [for_each] in H. unfold bind at 1 in H.
  destruct (process_user fromisoformat u s) as [s1 [[]|e]] eqn:Hstep.
  - rewrite (IH s1 H Hk2).
    by eapply (process_user_other_rows fromisoformat u s s1).
  - simplify_eq. by eapply (process_user_other_rows fromisoformat u s s').
Qed.

(** X1: whatever the batch and whatever the outcome, POST /api/users/sync
    deletes no row, and a row whose id does not occur in the batch is
    after the request exactly what it was before. *)
Theorem sync_merge_is_local req db :
  let out := receive_users_for_sync SYNC_TOKEN fromisoformat req db in
  (forall k, is_Some (db !! k) -> is_Some (db_after out !! k)) /\
  (forall k, Some k ∉ (u_id <$> body_users req) ->
             db_after out !! k = db !! k).
Proof.
  unfold receive_users_for_sync.
  destruct (negb (verify_sync_token SYNC_TOKEN req)); [done|].
  destruct (body_users req) as [|u l]; [done|].
  destruct (for_each (process_user fromisoformat) (u :: l)
              (St db 0 0 [] [EvConnect])) as [s [[]|e]] eqn:Hrun; [|done].
  split; intros k Hk.
  - by apply (for_each_keeps_rows _ _ _ _ k Hrun).
  - by apply (for_each_other_rows _ _ _ _ k Hrun).
Qed.

(** ** Counting *)

Lemma process_user_accounting u s s' :
  process_user fromisoformat u s = (s', Ok tt) ->
  (updated s' + inserted s' + length (conflicts s')
     <= S (updated s + inserted s + length (conflicts s)))%nat /\
  (size (cur s') + inserted s = size (cur s) + inserted s')%nat.
Proof.
  intros H.
  destruct (process_user_cases fromisoformat u s s' _ H)
    as [n _ -> _|[(Hc & Hu & Hi) [[e ?]|[c Hc']]]
       |n r _ _ Hnone _ Hc Hu Hi Hcs _
       |n r r0 _ _ Hsome _ _ Hc Hu Hi Hcs _].
  - simpl. lia.
  - done.
  - rewrite Hc, Hu, Hi, Hc', length_app. simpl. lia.
  - rewrite Hc, Hu, Hi, Hcs, map_size_insert_None by done. lia.
  - rewrite Hc, Hu, Hi, Hcs, map_size_insert_Some by done. lia.
Qed.

Lemma for_each_accounting l s s' :
  for_each (process_user fromisoformat) l s = (s', Ok tt) ->
  (updated s' + inserted s' + length (conflicts s')
     <= updated s + inserted s + length (conflicts s) + length l)%nat /\
  (size (cur s') + inserted s = size (cur s) + inserted s')%nat.
Proof.
  revert s. induction l as [|u l IH]; intros s H.
  { cbv [for_each ret] in H. simplify_eq. simpl. lia. }
  cbn [for_each] in H. unfold bind at 1 in H.
  destruct (process_user fromisoformat u s) as [s1 [[]|e]] eqn:Hstep;
    [|by simplify_eq].
  destruct (process_user_accounting u s s1 Hstep) as [H1 H2].
  destruct (IH s1 H) as [H3 H4]. simpl. lia.
Qed.

(** X2: in a 200 answer of POST /api/users/sync the three tallies never
    exceed the batch ([updated + inserted + len(conflicts) <= len(users)],
    the difference being the records that were no-ops), and the table has
    grown by exactly [inserted] rows. *)
Theorem sync_response_accounting req db n_upd n_ins cs db1 trace :
  receive_users_for_sync SYNC_TOKEN fromisoformat req db
    = Outcome (SyncOk n_upd n_ins cs) db1 trace ->
  (n_upd + n_ins + length cs <= length (body_users req))%nat /\
  size db1 = (size db + n_ins)%nat.
Proof.
  unfold receive_users_for_sync.
  destruct (negb (verify_sync_token SYNC_TOKEN req)); [done|].
  destruct (body_users req) as [|u l]; [done|].
  destruct (for_each (process_user fromisoformat) (u :: l)
              (St db 0 0 [] [EvConnect])) as [s [[]|e]] eqn:Hrun; [|done].
  intros [= <- <- <- <- _].
  destruct (for_each_accounting _ _ _ Hrun) as [H1 H2]. simpl in *. lia.
Qed.

End MergeFrame.

Lemma sync_response_accounting_witness :
  let req := post [bob_incoming 2 "bob" (Some (Some "2025-01-02T08:00:00"));
                   alice_incoming (Some "2025-01-01T10:00:00");
                   alice_incoming (Some "yesterday")] in
  let db := only_alice "2025-01-01 10:00:00" in
  let out := receive_users_for_sync "test123" Iso.fromisoformat req db in
  resp out = SyncOk 0 1 [Conflict 1 (Some "alice") "timestamp_parse_error" None None] /\
  (0 + 1 + 1 <= 3)%nat /\ size (db_after out) = (size db + 1)%nat.
Proof.
  intros req db out. split; [reflexivity|].
  apply (sync_response_accounting "test123" Iso.fromisoformat req db 0 1
           [Conflict 1 (Some "alice") "timestamp_parse_error" None None]
           (db_after out) (db_trace out)).
  reflexivity.
Defined.

(** ** Last writer wins, and only forwards *)

Section Monotone.

Variable SYNC_TOKEN : string.
Variable fromisoformat : string -> option datetime.

(** A counted update replaced a row by one at least a second newer. *)
Lemma process_user_update_newer u s s' res :
  process_user fromisoformat u s = (s', res) ->
  updated s' = S (updated s) ->
  exists n r0 r tin tloc din dloc delta,
    u_id u = Some n /\ cur s !! n = Some r0 /\ cur s' = <[n := r]> (cur s) /\
    constraints_ok (cur s) n r = true /\ sqlite_int n = true /\
    r_updated_at r = Some tin /\ r_updated_at r0 = Some tloc /\
    fromisoformat (replace_Z tin) = Some din /\
    fromisoformat (replace_Z tloc) = Some dloc /\
    dt_sub din dloc = Ok delta /\ 1000000 <= delta.
Proof.
  intros H Hupd.
  assert (forall res', skipped s s' res' -> False) as Hskip.
  { intros res' [(_ & Hu & _) _]. lia. }
  destruct (process_user_cases fromisoformat u s s' res H)
    as [n _ -> _|Hs|n r _ _ _ _ _ Hu|n r r0 Hid Hn Hlk Hr _ Hcur _ _ _ _];
    [simpl in Hupd; lia | by destruct (Hskip _ Hs) | lia |].
  assert (unwritten s (logged [EvSelectUser n] s)) as Hlog by done.
  destruct (truthy (dict_get (u_updated_at u)) && truthy (r_updated_at r0))
    eqn:Ht.
  2:{ rewrite (process_user_missing_red fromisoformat u n r0) in H by done.
      destruct (Hskip res). by eapply try_report_skipped. }
  apply andb_true_iff in Ht as [Ht1 Ht2].
  apply truthy_Some in Ht1 as (tin & Hin & Hin').
  apply truthy_Some in Ht2 as (tloc & Hloc & Hloc').
  apply dict_get_Some in Hin.
  destruct (fromisoformat (replace_Z tin)) as [din|] eqn:Edin.
  2:{ rewrite (process_user_unparsed_red fromisoformat u n r0 tin tloc) in H
        by (try done; by rewrite Edin).
      destruct (Hskip res). by eapply report_conflict_skipped. }
  destruct (fromisoformat (replace_Z tloc)) as [dloc|] eqn:Edloc.
  2:{ rewrite (process_user_unparsed_red fromisoformat u n r0 tin tloc) in H
        by (try done; by rewrite Edin, Edloc).
      destruct (Hskip res). by eapply report_conflict_skipped. }
  destruct (dt_sub din dloc) as [delta|e] eqn:Esub.
  2:{ apply dt_sub_raise in Esub as He; subst e.
      rewrite (process_user_unparsed_red fromisoformat u n r0 tin tloc) in H
        by (try done; by rewrite Edin, Edloc).
      destruct (Hskip res). by eapply report_conflict_skipped. }
  rewrite (process_user_compare fromisoformat u n r0 tin tloc din dloc delta)
    in H by done.
  destruct (Z.ltb_spec (Z.abs delta) 1000000) as [Hlt|Hge].
  { cbv [try_except ret] in H. simplify_eq. simpl in Hupd. lia. }
  destruct (Z.ltb_spec 0 delta) as [Hpos|Hneg].
  2:{ destruct (Hskip res). by eapply try_report_skipped. }
  destruct (constraints_ok (cur s) n r) eqn:Hc.
  2:{ erewrite try_except_raise in H.
      2:{ erewrite bind_ok
            by (apply update_params_ok; [done | by rewrite Hin]).
          eapply bind_raise. by eapply update_users_rejected. }
      destruct (Hskip res).
      by eapply (report_conflict_skipped _ _ _ _ s
                   (logged [EvUpdate n] (logged [EvSelectUser n] s))). }
  exists n, r0, r, tin, tloc, din, dloc, delta.
  repeat split; try done; [|lia].
  destruct (record_row_inv _ _ Hr) as (_&_&_&_&_&_&_&->). by rewrite Hin.
Qed.

(** X3: the body of the merge loop never replaces a stored row by an
    older or equally old one: after a record has been processed, every
    row that was there before is either untouched or has been replaced
    by a row whose [updated_at] parses to a time at least one second
    later than that of the row it replaces. *)
Theorem sync_never_replaces_by_older u s s' res k r0 r1 :
  process_user fromisoformat u s = (s', res) ->
  cur s !! k = Some r0 -> cur s' !! k = Some r1 ->
  r1 = r0 \/
  exists tin tloc din dloc delta,
    r_updated_at r1 = Some tin /\ r_updated_at r0 = Some tloc /\
    fromisoformat (replace_Z tin) = Some din /\
    fromisoformat (replace_Z tloc) = Some dloc /\
    dt_sub din dloc = Ok delta /\ 1000000 <= delta.
Proof.
  intros H H0 H1.
  destruct (process_user_cases fromisoformat u s s' res H)
    as [n _ -> _|[(Hc & _) _]|n r _ _ Hnone _ Hc _ _ _ _
       |n r r0' _ _ _ _ _ _ Hupd _ _ _].
  - left. simpl in H1. congruence.
  - left. congruence.
  - left. rewrite Hc, lookup_insert in H1. case_decide; simplify_eq.
    congruence.
  - destruct (process_user_update_newer u s s' res H Hupd)
      as (m & q0 & q & tin & tloc & din & dloc & delta &
          Hid & Hlk & Hcur & _ & _ & Hq & Hq0 & Hdin & Hdloc & Hsub & Hge).
    rewrite Hcur, lookup_insert in H1. case_decide; simplify_eq.
    + right. by exists tin, tloc, din, dloc, delta.
    + left. congruence.
Qed.

End Monotone.

Lemma sync_never_replaces_by_older_witness :
  let u := alice_incoming (Some "2025-01-01T10:05:00") in
  let s := blank (only_alice "2025-01-01 10:00:00") in
  let r1 := alice_merged (Some "2025-01-01T10:05:00") in
  r1 = alice "2025-01-01 10:00:00" \/
  exists tin tloc din dloc delta,
    r_updated_at r1 = Some tin /\
    r_updated_at (alice "2025-01-01 10:00:00") = Some tloc /\
    Iso.fromisoformat (replace_Z tin) = Some din /\
    Iso.fromisoformat (replace_Z tloc) = Some dloc /\
    dt_sub din dloc = Ok delta /\ 1000000 <= delta.
Proof.
  intros u s r1.
  apply (sync_never_replaces_by_older Iso.fromisoformat u s
           (St (<[1 := r1]> (cur s)) 1 0 [] [EvSelectUser 1; EvUpdate 1])
           (Ok tt) 1); reflexivity.
Defined.

(** ** The constraints of the table survive the merge *)

Lemma username_free_spec t n name :
  username_free t n name = true <->
  forall k r, t !! k = Some r -> k = n \/ r_username r <> name.
Proof.
  unfold username_free. rewrite bool_decide_eq_true. apply map_Forall_lookup.
Qed.

Lemma table_ok_insert t n r :
  table_ok t -> sqlite_int n = true -> constraints_ok t n r = true ->
  table_ok (<[n := r]> t).
Proof.
  intros Hok Hn Hc. unfold constraints_ok in Hc.
  apply andb_true_iff in Hc as [Hrow Hfree].
  rewrite username_free_spec in Hfree.
  apply map_Forall_lookup. intros k rk Hk.
  rewrite lookup_insert in Hk. case_decide as Hkn.
  - simplify_eq. split; [done|]. unfold constraints_ok.
    rewrite Hrow. simpl. apply username_free_spec.
    intros j rj Hj. rewrite lookup_insert in Hj.
    case_decide; [by left|]. destruct (Hfree j rj Hj); [congruence | by right].
  - destruct (map_Forall_lookup_1 _ _ _ _ Hok Hk) as [Hk64 Hck].
    split; [done|]. unfold constraints_ok in *.
    apply andb_true_iff in Hck as [Hrk Hfk]. rewrite Hrk. simpl.
    rewrite username_free_spec in Hfk. apply username_free_spec.
    intros j rj Hj. rewrite lookup_insert in Hj. case_decide.
    + simplify_eq. destruct (Hfree k rk Hk) as [|Hne]; [congruence|].
      right. congruence.
    + by apply Hfk.
Qed.

Lemma preserves_quiet P {A} (m : M A) :
  (forall s s' res, m s = (s', res) -> cur s' = cur s) -> preserves P m.
Proof. intros Hq s s' res HP H. by rewrite (Hq _ _ _ H). Qed.

Lemma preserves_bind P {A B} (m : M A) (k : A -> M B) :
  preserves P m -> (forall a, preserves P (k a)) -> preserves P (bind m k).
Proof.
  intros Hm Hk s s' res HP H. unfold bind in H.
  destruct (m s) as [s1 [a|e]] eqn:Hms.
  - eapply Hk; [|done]. by eapply Hm.
  - simplify_eq. by eapply Hm.
Qed.

Lemma preserves_try_except P {A} (m : M A) (h : exn -> M A) :
  preserves P m -> (forall e, preserves P (h e)) ->
  preserves P (try_except m h).
Proof.
  intros Hm Hh s s' res HP H. unfold try_except in H.
  destruct (m s) as [s1 [a|e]] eqn:Hms.
  - simplify_eq. by eapply Hm.
  - eapply Hh; [|done]. by eapply Hm.
Qed.

Lemma preserves_ret P {A} (a : A) : preserves P (ret a).
Proof. apply preserves_quiet. by intros s s' res [= <- _]. Qed.

Lemma preserves_raise P {A} e : preserves P (@raise A e).
Proof. apply preserves_quiet. by intros s s' res [= <- _]. Qed.

Lemma preserves_lift P {A} (r : result A) : preserves P (lift r).
Proof. apply preserves_quiet. by intros s s' res [= <- _]. Qed.

Lemma preserves_getitem P {A} key (entry : option A) :
  preserves P (getitem key entry).
Proof. destruct entry; [apply preserves_ret | apply preserves_raise]. Qed.

Lemma preserves_log_event P e : preserves P (log_event e).
Proof. apply preserves_quiet. by intros s s' res [= <- _]. Qed.

Lemma preserves_conflicts_append P c : preserves P (conflicts_append c).
Proof. apply preserves_quiet. by intros s s' res [= <- _]. Qed.

Lemma preserves_incr_updated P : preserves P incr_updated.
Proof. apply preserves_quiet. by intros s s' res [= <- _]. Qed.

Lemma preserves_incr_inserted P : preserves P incr_inserted.
Proof. apply preserves_quiet. by intros s s' res [= <- _]. Qed.

Lemma preserves_bind_int P n : preserves P (bind_int n).
Proof.
  unfold bind_int. destruct (sqlite_int n);
    [apply preserves_ret | apply preserves_raise].
Qed.

Lemma preserves_select P uid : preserves P (select_id_updated_at uid).
Proof.
  unfold select_id_updated_at.
  apply preserves_bind; [apply preserves_bind_int | intros _].
  apply preserves_bind; [apply preserves_log_event | intros _].
  apply preserves_quiet. by intros s s' res [= <- _].
Qed.

Lemma update_users_table_ok uid r : preserves table_ok (update_users uid r).
Proof.
  intros s s' res Hok H. unfold update_users, bind_int, bind, set_cur in H.
  destruct (sqlite_int uid) eqn:Hn; simpl in H; [|by simplify_eq].
  destruct (cur s !! uid); [|by simplify_eq].
  destruct (constraints_ok (cur s) uid r) eqn:Hc; simplify_eq/=; [|done].
  by apply table_ok_insert.
Qed.

Lemma insert_users_table_ok uid r : preserves table_ok (insert_users uid r).
Proof.
  intros s s' res Hok H. unfold insert_users, bind_int, bind, set_cur in H.
  destruct (sqlite_int uid) eqn:Hn; simpl in H; [|by simplify_eq].
  destruct (cur s !! uid); [by simplify_eq|].
  destruct (constraints_ok (cur s) uid r) eqn:Hc; simplify_eq/=; [|done].
  by apply table_ok_insert.
Qed.

Create HintDb keeps discriminated.
#[local] Hint Resolve preserves_ret preserves_raise preserves_lift
  preserves_getitem preserves_log_event preserves_conflicts_append
  preserves_incr_updated preserves_incr_inserted preserves_bind_int
  preserves_select update_users_table_ok insert_users_table_ok : keeps.

Ltac keeps_tac :=
  repeat first
    [ solve [eauto with keeps]
    | apply preserves_bind; [|intros ?]
    | apply preserves_try_except; [|intros ?]
    | match goal with
      | |- preserves _ (if ?b then _ else _) => destruct b
      | |- preserves _ (match ?x with _ => _ end) => destruct x
      end ].

Section Integrity.

Variable SYNC_TOKEN : string.
Variable fromisoformat : string -> option datetime.

Lemma process_user_table_ok u :
  preserves table_ok (process_user fromisoformat u).
Proof.
  unfold process_user, compare_timestamps, report_conflict, parse_ts,
    update_params, insert_params.
  keeps_tac.
Qed.

Lemma for_each_table_ok l :
  preserves table_ok (for_each (process_user fromisoformat) l).
Proof.
  induction l as [|u l IH]; simpl; [apply preserves_ret|].
  apply preserves_bind; [apply process_user_table_ok | intros _; apply IH].
Qed.

(** X4: POST /api/users/sync keeps the integrity of [users]: if before
    the request every row has a 64-bit id, non-null [username],
    [password_hash], [nome] and [cognome], a [ruolo] among the three
    allowed and a [username] no other row has, then so it is after the
    request, whatever the batch contains and however the request ends. *)
Theorem sync_preserves_table_constraints req db :
  table_ok db ->
  table_ok (db_after (receive_users_for_sync SYNC_TOKEN fromisoformat req db)).
Proof.
  intros Hok. unfold receive_users_for_sync.
  destruct (negb (verify_sync_token SYNC_TOKEN req)); [done|].
  destruct (body_users req) as [|u l]; [done|].
  destruct (for_each (process_user fromisoformat) (u :: l)
              (St db 0 0 [] [EvConnect])) as [s [[]|e]] eqn:Hrun; [|done].
  by apply (for_each_table_ok (u :: l) (St db 0 0 [] [EvConnect]) s (Ok tt)).
Qed.

End Integrity.

Lemma only_alice_table_ok ts : table_ok (only_alice ts).
Proof.
  apply map_Forall_singleton. split; [done|].
  unfold constraints_ok. simpl. apply username_free_singleton.
Qed.

Lemma sync_preserves_table_constraints_witness :
  table_ok (db_after (receive_users_for_sync "test123" Iso.fromisoformat
      (post [bob_incoming 2 "bob" (Some None);
             alice_incoming (Some "2025-01-01T10:05:00")])
      (only_alice "2025-01-01 10:00:00"))).
Proof.
  apply (sync_preserves_table_constraints "test123" Iso.fromisoformat).
  apply only_alice_table_ok.
Defined.

(** ** A node fed its own snapshot *)

Section OwnSnapshot.

Variable SYNC_TOKEN : string.
Variable fromisoformat : string -> option datetime.

(** A record read from the table is compared with itself: it is a no-op
    or, when its timestamp is missing or does not parse, a conflict. *)
Lemma own_row_step k r s :
  cur s !! k = Some r ->
  exists s' res,
    process_user fromisoformat (row_to_dict (k, r)) s = (s', res) /\
    unwritten s s' /\
    (length (conflicts s') <= S (length (conflicts s)))%nat /\
    (sqlite_int k = true -> res = Ok tt).
Proof.
  intros Hlk.
  destruct (sqlite_int k) eqn:Hk.
  2:{ exists s, (Raise OverflowError). split; [|split; [done|split; [lia|done]]].
      unfold process_user, select_id_updated_at, bind_int, bind, raise. simpl.
      by rewrite Hk. }
  destruct (truthy (r_updated_at r)) eqn:Ht.
  2:{ eexists _, _. split.
      - apply (process_user_missing fromisoformat (row_to_dict (k, r)) k r (r_username r));
          try done. simpl. by rewrite Ht.
      - split; [done|]. split; [|done]. simpl. rewrite length_app. simpl. lia. }
  apply truthy_Some in Ht as (ts & Hts & Hts').
  destruct (fromisoformat (replace_Z ts)) as [d|] eqn:Hd.
  - eexists _, _. split.
    + apply (process_user_tolerated fromisoformat (row_to_dict (k, r)) k r ts ts d d 0);
        try done; [by simpl; rewrite Hts | apply dt_sub_self].
    + split; [done|]. split; [simpl; lia | done].
  - eexists _, _. split.
    + apply (process_user_parse_error fromisoformat (row_to_dict (k, r)) k r (r_username r) ts ts);
        try done; [by simpl; rewrite Hts | by rewrite Hd].
    + split; [done|]. split; [|done]. simpl. rewrite length_app. simpl. lia.
Qed.

Lemma own_rows_run (l : list (Z * row)) s :
  Forall (fun kr => cur s !! kr.1 = Some kr.2) l ->
  exists s' res,
    for_each (process_user fromisoformat) (row_to_dict <$> l) s = (s', res) /\
    unwritten s s' /\
    (length (conflicts s') <= length (conflicts s) + length l)%nat /\
    (Forall (fun kr => sqlite_int kr.1 = true) l -> res = Ok tt).
Proof.
  revert s. induction l as [|[k r] l IH]; intros s Hall.
  { exists s, (Ok tt). repeat split; simpl; try done. lia. }
  apply Forall_cons in Hall as [Hkr Hall]. simpl in Hkr.
  destruct (own_row_step k r s Hkr) as (s1 & res1 & Hstep & Hun & Hlen & Hres).
  rewrite fmap_cons. cbn [for_each]. unfold bind at 1. rewrite Hstep.
  destruct res1 as [[]|e].
  - destruct Hun as (Hc & Hu & Hi).
    destruct (IH s1) as (s' & res & Hrun & (Hc' & Hu' & Hi') & Hlen' & Hres').
    { by rewrite Hc. }
    exists s', res. split; [done|]. split; [|split].
    + split; [congruence | split; congruence].
    + simpl. lia.
    + intros [_ Hin]%Forall_cons. by apply Hres'.
  - exists s1, (Raise e). split; [done|]. split; [done|]. split.
    + simpl. lia.
    + intros [Hin _]%Forall_cons. by discriminate (Hres Hin).
Qed.

(** X5: posting to a node the snapshot GET /api/users/sync serves from
    that very node writes nothing, whatever the table holds; and when the
    token is right, the table is not empty and its ids are 64-bit, the
    answer is a 200 with [updated = 0], [inserted = 0] and at most one
    conflict per row (the rows whose own timestamp is missing or does not
    parse). *)
Theorem sync_own_snapshot_writes_nothing token db :
  let out := receive_users_for_sync SYNC_TOKEN fromisoformat
               (Request token (snapshot db)) db in
  db_after out = db /\
  (token = Some SYNC_TOKEN -> db <> ∅ ->
   map_Forall (fun k _ => sqlite_int k = true) db ->
   exists cs, resp out = SyncOk 0 0 cs /\ (length cs <= size db)%nat).
Proof.
  cbv zeta. unfold receive_users_for_sync, verify_sync_token, snapshot.
  cbn [x_sync_token body_users].
  assert (rowid_order db ≡ₚ map_to_list db) as Hperm
    by apply merge_sort_Permutation.
  destruct (own_rows_run (rowid_order db) (St db 0 0 [] [EvConnect]))
    as (s' & res & Hrun & (Hc & Hu & Hi) & Hlen & Hres).
  { apply Forall_forall. intros [k r] Hin. rewrite Hperm in Hin.
    by apply elem_of_map_to_list. }
  case_bool_decide as Htok; cbn [negb].
  2:{ split; [done|]. by intros ->. }
  destruct (row_to_dict <$> rowid_order db) as [|u l] eqn:Hl.
  { split; [done|]. intros _ Hne _.
    apply fmap_nil_inv in Hl. rewrite Hl in Hperm.
    symmetry in Hperm. apply Permutation_nil_r in Hperm.
    by apply map_to_list_empty_iff in Hperm. }
  rewrite Hrun. destruct res as [[]|e]; cbn [db_after resp].
  - split; [done|]. intros _ _ _. exists (conflicts s').
    simpl in *. rewrite Hu, Hi. split; [done|].
    rewrite Hperm, length_map_to_list in Hlen. simpl in Hlen. lia.
  - split; [done|]. intros _ _ Hall. exfalso.
    assert (Raise e = Ok tt) as Hbad; [|discriminate Hbad].
    apply Hres. apply Forall_forall. intros [k r] Hin.
    rewrite Hperm in Hin. apply elem_of_map_to_list in Hin.
    by apply (map_Forall_lookup_1 _ _ _ _ Hall Hin).
Qed.

End OwnSnapshot.

Lemma sync_own_snapshot_writes_nothing_witness :
  let db := <[2 := bob_row "bob" None]> (only_alice "2025-01-01 10:00:00") in
  let out := receive_users_for_sync "test123" Iso.fromisoformat
               (Request (Some "test123") (snapshot db)) db in
  db_after out = db /\
  exists cs, resp out = SyncOk 0 0 cs /\ (length cs <= size db)%nat.
Proof.
  intros db out.
  destruct (sync_own_snapshot_writes_nothing "test123" Iso.fromisoformat
              (Some "test123") db) as [H1 H2].
  split; [exact H1|]. apply H2.
  - reflexivity.
  - intros H. apply (f_equal (fun t : gmap Z row => t !! 1)) in H.
    discriminate H.
  - apply map_Forall_insert_2; [reflexivity|].
    apply map_Forall_singleton. reflexivity.
Defined.

(** * Properties of the credential store *)

(** ** Sessions *)

Lemma ltb_asym a b : String.ltb a b = true -> String.ltb b a = false.
Proof.
  unfold String.ltb. rewrite (String.compare_antisym b a).
  by destruct (String.compare a b).
Qed.

Lemma filter_none {A} (f : A -> bool) (l : list A) :
  (forall x, x ∈ l -> f x = false) -> filter (fun x => f x) l = [].
Proof.
  induction l as [|x l IH]; intros H; [done|].
  rewrite filter_cons_False.
  - apply IH. intros y Hy. apply H. by right.
  - rewrite (H x) by left. by intros [].
Qed.

Lemma filter_nothing {A} (P : A -> Prop) `{!forall x, Decision (P x)}
    (l : list A) :
  (forall x, x ∈ l -> ~ P x) -> filter P l = [].
Proof.
  induction l as [|x l IH]; intros Hno; [done|].
  rewrite filter_cons_False by (apply Hno; left).
  apply IH. intros y Hy. apply Hno. by right.
Qed.

Section Sessions.

Variable verify_password : string -> string -> result bool.

(** X6: a session opened by [login] is accepted by [verify_session]
    exactly until it expires: with the token [login] returned,
    [verify_session] answers with the id, username, name and role of the
    user who logged in when the current time is byte-wise below
    [expires_at], and fails otherwise. *)
Theorem login_then_verify_session
    username password token expires now now' d d' uid user :
  AuthDB.login verify_password username password token expires now d
    = (Ok (AuthDB.LoggedIn token uid user), d') ->
  token <> "" ->
  AuthStore.verify_session (Some token) now' d'
  = if String.ltb now' expires
    then AuthStore.SessionUser uid (r_username user) (r_nome user)
           (r_cognome user) (r_ruolo user)
    else AuthStore.Fail "Sessione scaduta o non valida".
Proof.
  intros H Htok. unfold AuthDB.login in H.
  destruct (AuthDB.select_by_username (AuthDB.users d) username)
    as [[uid' r]|] eqn:Hsel; [|by simplify_eq].
  destruct (r_password_hash r) as [ph|]; [|by simplify_eq].
  destruct (verify_password password ph) as [[|]|e]; try by simplify_eq.
  case_bool_decide as Hfresh; simplify_eq/=.
  unfold AuthStore.verify_session. cbn [truthy default from_option id AuthDB.sessions AuthDB.users].
  destruct (String.eqb_spec token ""); [done|]. cbn [negb].
  rewrite filter_app, filter_none.
  2:{ intros s Hs. unfold AuthStore.live.
      destruct (String.eqb_spec (AuthDB.s_session_token s) token) as [Heq|];
        [|done].
      destruct Hfresh. rewrite <- Heq. apply list_elem_of_In, in_map.
      by apply list_elem_of_In. }
  cbn [app]. rewrite filter_cons, filter_nil.
  unfold AuthStore.live. cbn [AuthDB.s_session_token AuthDB.s_expires_at
                                AuthDB.s_user_id].
  rewrite String.eqb_refl, lookup_insert_eq.
  rewrite (bool_decide_eq_true_2 (is_Some _)) by by eexists.
  rewrite !andb_true_r.
  destruct (String.ltb now' expires); simpl; [|done].
  by rewrite lookup_insert_eq.
Qed.

End Sessions.

Lemma login_then_verify_session_witness :
  let d := AuthDB.Db (only_alice "2025-01-01 10:00:00") [] in
  let d' := (AuthDB.login plain_check "alice" "$2b$12$alice" "tok"
               "2025-02-01 12:40:00.000000" "2025-02-01 12:00:00" d).2 in
  AuthStore.verify_session (Some "tok") "2025-02-01 12:39:59" d'
  = AuthStore.SessionUser 1 (Some "alice") (Some "Alice") (Some "Rossi")
      (Some "medico") /\
  AuthStore.verify_session (Some "tok") "2025-02-01 12:40:01" d'
  = AuthStore.Fail "Sessione scaduta o non valida".
Proof.
  intros d d'. split.
  - apply (login_then_verify_session plain_check "alice" "$2b$12$alice" "tok"
             "2025-02-01 12:40:00.000000" "2025-02-01 12:00:00"
             "2025-02-01 12:39:59" d d' 1 (alice "2025-01-01 10:00:00"));
      [reflexivity | discriminate].
  - apply (login_then_verify_session plain_check "alice" "$2b$12$alice" "tok"
             "2025-02-01 12:40:00.000000" "2025-02-01 12:00:00"
             "2025-02-01 12:40:01" d d' 1 (alice "2025-01-01 10:00:00"));
      [reflexivity | discriminate].
Defined.

(** X7: [logout] touches no user, ends every session that carries the
    token, and leaves the verification of every other token as it was. *)
Theorem logout_ends_the_session token now d :
  let d' := (AuthStore.logout token d).2 in
  AuthDB.users d' = AuthDB.users d /\
  (exists e, AuthStore.verify_session (Some token) now d' = AuthStore.Fail e) /\
  (forall other, other <> token ->
     AuthStore.verify_session (Some other) now d'
     = AuthStore.verify_session (Some other) now d).
Proof.
  cbv zeta. unfold AuthStore.logout. cbn [snd]. split; [done|]. split.
  - unfold AuthStore.verify_session.
    destruct (negb (truthy (Some token))); [by eexists|].
    cbn [AuthDB.sessions default from_option id].
    rewrite list_filter_filter, filter_nothing; [by eexists|].
    intros s _ [Hl Hne].
    unfold AuthStore.live in Hl.
    destruct (String.eqb_spec (AuthDB.s_session_token s) token); done.
  - intros other Hne. unfold AuthStore.verify_session.
    cbn [AuthDB.sessions AuthDB.users default from_option id].
    rewrite list_filter_filter_l; [done|].
    intros s Hl. unfold AuthStore.live in Hl.
    destruct (String.eqb_spec (AuthDB.s_session_token s) other); [|done].
    congruence.
Qed.

(** X8: [cleanup_expired_sessions] removes only sessions that
    [verify_session] rejects at that time: every token is verified after
    the cleanup as before it, no user is touched, and the number it
    reports is the number of session rows that went away. *)
Theorem cleanup_keeps_live_sessions now d :
  let d' := (AuthStore.cleanup_expired_sessions now d).2 in
  AuthDB.users d' = AuthDB.users d /\
  (forall token, AuthStore.verify_session token now d'
                 = AuthStore.verify_session token now d) /\
  (AuthStore.cleanup_expired_sessions now d).1
  = AuthStore.Cleaned (length (AuthDB.sessions d) - length (AuthDB.sessions d')) /\
  (length (AuthDB.sessions d') <= length (AuthDB.sessions d))%nat.
Proof.
  cbv zeta. unfold AuthStore.cleanup_expired_sessions. cbn [fst snd].
  split; [done|]. split; [|split; [done | apply length_filter]].
  intros token. unfold AuthStore.verify_session.
  cbn [AuthDB.sessions AuthDB.users].
  rewrite list_filter_filter_l; [done|].
  intros s Hl. unfold AuthStore.live in Hl.
  destruct (String.ltb now (AuthDB.s_expires_at s)) eqn:Hlt.
  - by apply ltb_asym.
  - by rewrite andb_false_r in Hl.
Qed.

(** ** Administrators *)

Lemma admin_count_pos t :
  (0 < AuthStore.admin_count t)%nat <->
  exists k r, t !! k = Some r /\ r_ruolo r = Some "admin".
Proof.
  unfold AuthStore.admin_count. split.
  - intros Hpos.
    destruct (map_size_ne_0_lookup_1
                (filter (fun kr : Z * row => r_ruolo kr.2 = Some "admin") t))
      as (k & r & Hk); [lia|].
    apply map_lookup_filter_Some in Hk as [Hk Hr]. by exists k, r.
  - intros (k & r & Hk & Hr).
    assert (size (filter (fun kr : Z * row => r_ruolo kr.2 = Some "admin") t)
            <> 0%nat); [|lia].
    apply (map_size_ne_0_lookup_2 _ k). exists r.
    by apply map_lookup_filter_Some.
Qed.

Lemma admin_count_delete t k r :
  t !! k = Some r ->
  AuthStore.admin_count (delete k t)
  = if decide (r_ruolo r = Some "admin")
    then pred (AuthStore.admin_count t) else AuthStore.admin_count t.
Proof.
  intros Hk. unfold AuthStore.admin_count. rewrite map_filter_delete.
  case_decide as Hr.
  - apply map_size_delete_Some. exists r. by apply map_lookup_filter_Some.
  - apply map_size_delete_None. apply map_lookup_filter_None. right.
    intros r' Hk'. simpl. congruence.
Qed.

(** X9: [delete_user] never removes the last administrator: whenever the
    table has an admin before the call it has one after it.  The call
    removes at most the row of [user_id], and no session. *)
Theorem delete_user_keeps_an_admin user_id d res d' :
  AuthStore.delete_user user_id d = (res, d') ->
  ((0 < AuthStore.admin_count (AuthDB.users d))%nat ->
   (0 < AuthStore.admin_count (AuthDB.users d'))%nat) /\
  (forall k, k <> user_id -> AuthDB.users d' !! k = AuthDB.users d !! k) /\
  AuthDB.sessions d' = AuthDB.sessions d.
Proof.
  unfold AuthStore.delete_user. intros H.
  destruct (negb (sqlite_int user_id)); [by simplify_eq|].
  destruct (AuthDB.users d !! user_id) as [user|] eqn:Hk; [|by simplify_eq].
  destruct (bool_decide (r_ruolo user = Some "admin")
            && (AuthStore.admin_count (AuthDB.users d) <=? 1)%nat) eqn:Hlast;
    simplify_eq/=; [done|].
  split; [|split; [|done]].
  - intros Hpos. rewrite (admin_count_delete _ _ user Hk).
    destruct (decide (r_ruolo user = Some "admin")) as [Hadmin|]; [|done].
    rewrite bool_decide_eq_true_2 in Hlast by done. simpl in Hlast.
    apply Nat.leb_gt in Hlast. lia.
  - intros k Hne. by apply lookup_delete_ne.
Qed.

Lemma delete_user_keeps_an_admin_witness :
  let d := AuthDB.Db (<[1 := bob_row "root" None]>
             {[ 5 := Row (Some "admin") (Some "h") (Some "Admin")
                         (Some "System") (Some "admin") None None None ]}) [] in
  ((0 < AuthStore.admin_count (AuthDB.users d))%nat ->
   (0 < AuthStore.admin_count
          (AuthDB.users (AuthStore.delete_user 5 d).2))%nat) /\
  (AuthStore.delete_user 5 d).1
  = Ok (AuthStore.Fail "Impossibile eliminare ultimo admin").
Proof.
  intros d. split; [|reflexivity].
  apply (delete_user_keeps_an_admin 5 d (AuthStore.delete_user 5 d).1
           (AuthStore.delete_user 5 d).2).
  reflexivity.
Defined.

(** X10: [update_user] has no such guard: changing the role of the only
    administrator to another valid role succeeds and leaves the table
    without any admin; if that row carries the username ["admin"], the
    next [init_database] tries to insert the default admin again and
    ends in the [IntegrityError] of the UNIQUE username. *)
Theorem update_user_can_remove_the_last_admin
    hash_password next_rowid uid r ruolo now now' d :
  AuthDB.users d !! uid = Some r -> sqlite_int uid = true ->
  (forall k r', AuthDB.users d !! k = Some r' ->
                r_ruolo r' = Some "admin" -> k = uid) ->
  ruolo_valid ruolo = true -> ruolo <> "admin" ->
  exists d',
    AuthDB.update_user hash_password uid None None (Some ruolo) None now d
      = (Ok AuthDB.Updated, d') /\
    AuthStore.admin_count (AuthDB.users d') = 0%nat /\
    (r_username r = Some "admin" ->
     AuthStore.init_database hash_password next_rowid now' d'
       = (Raise IntegrityError, d')).
Proof.
  intros Hk H64 Honly Hvalid Hne.
  assert (ruolo <> "") as Hne' by (by intros ->).
  eexists. split; [|split].
  - unfold AuthDB.update_user. cbn [truthy default from_option id].
    destruct (String.eqb_spec ruolo ""); [done|].
    rewrite Hvalid, H64, Hk. reflexivity.
  - cbn [AuthDB.users].
    destruct (AuthStore.admin_count _) eqn:Hcount; [done|]. exfalso.
    assert (0 < AuthStore.admin_count
              (<[uid := Row (r_username r) (r_password_hash r)
                            (AuthDB.assign None (r_nome r))
                            (AuthDB.assign None (r_cognome r))
                            (AuthDB.assign (Some ruolo) (r_ruolo r))
                            (r_created_at r) (r_last_login r) (Some now)]>
                 (AuthDB.users d)))%nat as Hpos.
    { cbn [truthy] in Hcount |- *. lia. }
    apply admin_count_pos in Hpos as (k & r' & Hk' & Hr').
    rewrite lookup_insert in Hk'. case_decide; simplify_eq/=.
    + unfold AuthDB.assign in Hr'. cbn [truthy] in Hr'.
      destruct (String.eqb_spec ruolo ""); [done|]. simpl in Hr'. congruence.
    + by specialize (Honly k r' Hk' Hr').
  - intros Hname. unfold AuthStore.init_database. cbn [AuthDB.users].
    match goal with |- context [(?c =? 0)%nat] =>
      assert (c = 0%nat) as ->
    end.
    { destruct (AuthStore.admin_count _) eqn:Hcount; [done|]. exfalso.
      assert (0 < S n)%nat as Hpos by lia. rewrite <- Hcount in Hpos.
      apply admin_count_pos in Hpos as (k & r' & Hk' & Hr').
      rewrite lookup_insert in Hk'. case_decide; simplify_eq/=.
      + unfold AuthDB.assign in Hr'. cbn [truthy] in Hr'.
        destruct (String.eqb_spec ruolo ""); [done|]. simpl in Hr'. congruence.
      + by specialize (Honly k r' Hk' Hr'). }
    cbn [Nat.eqb].
    match goal with |- context [<[uid := ?q]> (AuthDB.users d)] =>
      set (r1 := q); set (t1 := <[uid := r1]> (AuthDB.users d))
    end.
    destruct (t1 !! next_rowid t1) eqn:Hnext; [done|].
    assert (constraints_ok t1 (next_rowid t1)
              (Row (Some "admin") (Some (hash_password "admin123"))
                   (Some "Admin") (Some "System") (Some "admin")
                   (Some now') None None) = false) as ->; [|done].
    unfold constraints_ok. apply andb_false_iff. right.
    apply not_true_is_false. rewrite username_free_spec. intros Hfree.
    destruct (Hfree uid r1) as [Heq|Hdiff].
    + apply lookup_insert_eq.
    + rewrite <- Heq in Hnext. unfold t1 in Hnext.
      by rewrite lookup_insert_eq in Hnext.
    + by apply Hdiff.
Qed.

Lemma update_user_can_remove_the_last_admin_witness :
  let admin := Row (Some "admin") (Some "h") (Some "Admin") (Some "System")
                   (Some "admin") None None None in
  let d := AuthDB.Db {[ 1 := admin ]} [] in
  exists d',
    AuthDB.update_user (fun p => p) 1 None None (Some "medico") None
      "2025-02-01 12:00:00" d = (Ok AuthDB.Updated, d') /\
    AuthStore.admin_count (AuthDB.users d') = 0%nat /\
    (r_username admin = Some "admin" ->
     AuthStore.init_database (fun p => p) (fun _ => 2) "2025-02-02 08:00:00" d'
       = (Raise IntegrityError, d')).
Proof.
  intros admin d.
  apply (update_user_can_remove_the_last_admin (fun p => p) (fun _ => 2) 1 admin
           "medico" "2025-02-01 12:00:00" "2025-02-02 08:00:00" d);
    try reflexivity; try discriminate.
  intros k r' Hk _. cbn [d AuthDB.users] in Hk.
  apply lookup_singleton_Some in Hk. by destruct Hk.
Defined.

(** ** Start-up *)

Lemma backfill_fills now r : is_Some (r_updated_at (AuthStore.backfill now r)).
Proof.
  unfold AuthStore.backfill.
  destruct (r_updated_at r) eqn:Hr; [by rewrite Hr|].
  by destruct (r_created_at r).
Qed.

(** X11: [fix_null_updated_at] writes nothing when the [users] table has
    no [updated_at] column.  When it has one, no row has a NULL
    [updated_at] afterwards: a row that had a timestamp is untouched, a
    row that had none gets its [created_at] (or the current time when
    that is NULL too); and a second run changes nothing. *)
Theorem fix_null_updated_at_backfills columns now now' d :
  let d' := AuthStore.fix_null_updated_at columns now d in
  ("updated_at" ∉ columns -> d' = d) /\
  ("updated_at" ∈ columns ->
   (forall k r', AuthDB.users d' !! k = Some r' -> is_Some (r_updated_at r')) /\
   (forall k r, AuthDB.users d !! k = Some r ->
      AuthDB.users d' !! k
      = Some (if r_updated_at r is Some _ then r
              else Row (r_username r) (r_password_hash r) (r_nome r)
                       (r_cognome r) (r_ruolo r) (r_created_at r)
                       (r_last_login r)
                       (Some (default now (r_created_at r))))) /\
   AuthStore.fix_null_updated_at columns now' d' = d').
Proof.
  cbv zeta. unfold AuthStore.fix_null_updated_at. split.
  - intros Hno. by rewrite bool_decide_eq_false_2.
  - intros Hcol. rewrite !bool_decide_eq_true_2 by done.
    cbn [AuthDB.users AuthDB.sessions]. split; [|split].
    + intros k r' Hk. apply lookup_fmap_Some in Hk as (r & <- & _).
      apply backfill_fills.
    + intros k r Hk. rewrite lookup_fmap, Hk. simpl. f_equal.
      unfold AuthStore.backfill.
      destruct (r_updated_at r); [done|]. by destruct (r_created_at r).
    + f_equal. rewrite <- map_fmap_compose. apply map_fmap_ext.
      intros k r _. simpl. unfold AuthStore.backfill.
      destruct (r_updated_at r) eqn:Hr; [by rewrite Hr|].
      by destruct (r_created_at r).
Qed.

Lemma fix_null_updated_at_backfills_witness :
  let d := AuthDB.Db {[ 1 := legacy_admin ]} [] in
  let d' := AuthStore.fix_null_updated_at migrated_columns
              "2025-02-01 12:00:00" d in
  (forall k r', AuthDB.users d' !! k = Some r' -> is_Some (r_updated_at r')) /\
  (forall k r, AuthDB.users d !! k = Some r ->
     AuthDB.users d' !! k
     = Some (if r_updated_at r is Some _ then r
             else Row (r_username r) (r_password_hash r) (r_nome r)
                      (r_cognome r) (r_ruolo r) (r_created_at r)
                      (r_last_login r)
                      (Some (default "2025-02-01 12:00:00" (r_created_at r))))) /\
  AuthStore.fix_null_updated_at migrated_columns "2025-03-01 12:00:00" d' = d'.
Proof.
  intros d d'.
  apply (proj2 (fix_null_updated_at_backfills migrated_columns
                  "2025-02-01 12:00:00" "2025-03-01 12:00:00" d)).
  apply (bool_decide_unpack _ (dec := decide _)). vm_compute. exact I.
Defined.

Lemma admin_count_backfill now t :
  (0 < AuthStore.admin_count t)%nat ->
  (0 < AuthStore.admin_count (AuthStore.backfill now <$> t))%nat.
Proof.
  rewrite !admin_count_pos. intros (k & r & Hk & Hr).
  exists k, (AuthStore.backfill now r). split.
  - by rewrite lookup_fmap, Hk.
  - unfold AuthStore.backfill. by destruct (r_updated_at r).
Qed.

Section Startup.

Variable hash_password : string -> string.
Variable next_rowid : gmap Z row -> Z.

(** X12: [AuthDB.__init__] leaves a database that has an administrator
    as [fix_null_updated_at] leaves it (untouched when [users] has no
    [updated_at] column); and whenever it returns, the table has an
    administrator, the sessions are as they were and, when [users] has an
    [updated_at] column, every row has a non-NULL [updated_at]. *)
Theorem init_leaves_an_admin_with_timestamps columns now now' d :
  ((0 < AuthStore.admin_count (AuthDB.users d))%nat ->
   AuthStore.__init__ hash_password next_rowid columns now now' d
   = (Ok tt, AuthStore.fix_null_updated_at columns now' d)) /\
  (forall d',
     AuthStore.__init__ hash_password next_rowid columns now now' d
     = (Ok tt, d') ->
     (0 < AuthStore.admin_count (AuthDB.users d'))%nat /\
     ("updated_at" ∈ columns ->
      forall k r, AuthDB.users d' !! k = Some r -> is_Some (r_updated_at r)) /\
     AuthDB.sessions d' = AuthDB.sessions d).
Proof.
  split.
  - intros Hpos. unfold AuthStore.__init__, AuthStore.init_database.
    destruct (Nat.eqb_spec (AuthStore.admin_count (AuthDB.users d)) 0);
      [lia | done].
  - intros d' H. unfold AuthStore.__init__ in H.
    destruct (AuthStore.init_database hash_password next_rowid now d)
      as [[[]|e] d1] eqn:Hinit; [|done].
    injection H as <-.
    assert ((0 < AuthStore.admin_count (AuthDB.users d1))%nat
            /\ AuthDB.sessions d1 = AuthDB.sessions d) as [Hpos Hsess].
    { unfold AuthStore.init_database in Hinit.
      destruct (Nat.eqb_spec (AuthStore.admin_count (AuthDB.users d)) 0).
      - destruct (AuthDB.users d !! next_rowid (AuthDB.users d));
          [done|].
        destruct (constraints_ok _ _ _); simplify_eq/=.
        split; [|done]. apply admin_count_pos.
        eexists _, _. split; [apply lookup_insert_eq | done].
      - simplify_eq. split; [lia | done]. }
    unfold AuthStore.fix_null_updated_at.
    case_bool_decide as Hcol; cbn [AuthDB.users AuthDB.sessions].
    + split; [by apply admin_count_backfill|]. split; [|done].
      intros _ k r Hk. apply lookup_fmap_Some in Hk as (r0 & <- & _).
      apply backfill_fills.
    + done.
Qed.

End Startup.

Lemma init_leaves_an_admin_with_timestamps_witness :
  let d := AuthDB.Db {[ 1 := legacy_admin ]} [] in
  let d' := (AuthStore.__init__ (fun p => p) (fun _ => 2) migrated_columns
               "2025-02-01 12:00:00" "2025-02-01 12:00:01" d).2 in
  (0 < AuthStore.admin_count (AuthDB.users d'))%nat /\
  ("updated_at" ∈ migrated_columns ->
   forall k r, AuthDB.users d' !! k = Some r -> is_Some (r_updated_at r)) /\
  AuthDB.sessions d' = AuthDB.sessions d.
Proof.
  intros d d'.
  apply (proj2 (init_leaves_an_admin_with_timestamps (fun p => p) (fun _ => 2)
                  migrated_columns "2025-02-01 12:00:00"
                  "2025-02-01 12:00:01" d) d').
  reflexivity.
Defined.

(** ** Registration *)

Lemma select_by_username_None t username :
  AuthDB.select_by_username t username = None <->
  forall k r, t !! k = Some r -> r_username r <> Some username.
Proof.
  unfold AuthDB.select_by_username. rewrite head_None. split.
  - intros Hnil k r Hk Hr.
    eapply (filter_nil_not_elem_of _ _ (k, r)); [exact Hnil | done |].
    by apply elem_of_map_to_list.
  - intros Hno. apply filter_nothing. intros [k r] Hin Hr.
    apply elem_of_map_to_list in Hin. by apply (Hno k r).
Qed.

Lemma select_by_username_fresh t uid r username :
  AuthDB.select_by_username t username = None -> t !! uid = None ->
  r_username r = Some username ->
  AuthDB.select_by_username (<[uid := r]> t) username = Some (uid, r).
Proof.
  intros Hnone Hk Hr. unfold AuthDB.select_by_username in *.
  apply head_None in Hnone.
  assert (filter (fun kr : Z * row => r_username kr.2 = Some username)
            (map_to_list (<[uid := r]> t)) = [(uid, r)]) as ->; [|done].
  apply Permutation_singleton_r.
  rewrite (map_to_list_insert t uid r Hk), filter_cons_True by done.
  by rewrite Hnone.
Qed.

Section Registration.

Variable hash_password : string -> string.
Variable verify_password : string -> string -> result bool.
Variable next_rowid : gmap Z row -> Z.

(** X13: a user who has just registered can log in: when the password
    check accepts the password against the hash [register_user] stored
    and the session token is new, [login] with the same username and
    password succeeds for the id [register_user] returned, with the role
    given at registration; and the username is taken from then on: a
    second [register_user] with it fails and changes nothing. *)
Theorem register_then_login
    username password nome cognome ruolo now d uid d1 token expires now' :
  AuthDB.register_user hash_password next_rowid
    username password nome cognome ruolo now d = (AuthDB.Registered uid, d1) ->
  verify_password password (hash_password password) = Ok true ->
  token ∉ map AuthDB.s_session_token (AuthDB.sessions d1) ->
  (exists user d2,
     AuthDB.login verify_password username password token expires now' d1
       = (Ok (AuthDB.LoggedIn token uid user), d2) /\
     r_username user = Some username /\ r_ruolo user = Some ruolo /\
     r_last_login user = None) /\
  (forall password' nome' cognome' ruolo' now'',
     exists e,
       AuthDB.register_user hash_password next_rowid
         username password' nome' cognome' ruolo' now'' d1
       = (AuthDB.Failure e, d1)).
Proof.
  intros Hreg Hpw Htok. unfold AuthDB.register_user in Hreg.
  destruct (negb (ruolo_valid ruolo)); [by simplify_eq|].
  destruct (AuthDB.select_by_username (AuthDB.users d) username) eqn:Hsel;
    [by simplify_eq|].
  destruct (AuthDB.users d !! next_rowid (AuthDB.users d)) eqn:Hlk;
    [by simplify_eq|].
  destruct (constraints_ok _ _ _); simplify_eq/=.
  pose proof (select_by_username_fresh (AuthDB.users d)
                (next_rowid (AuthDB.users d))
                (Row (Some username) (Some (hash_password password)) (Some nome)
                     (Some cognome) (Some ruolo) (Some now) None (Some now))
                username Hsel Hlk eq_refl) as Hfound.
  split.
  - eexists _, _. split.
    + unfold AuthDB.login. cbn [AuthDB.users AuthDB.sessions].
      rewrite Hfound. cbn [r_password_hash]. rewrite Hpw.
      by rewrite bool_decide_eq_false_2.
    + done.
  - intros password' nome' cognome' ruolo' now''.
    unfold AuthDB.register_user. cbn [AuthDB.users].
    destruct (negb (ruolo_valid ruolo')); [by eexists|].
    rewrite Hfound. by eexists.
Qed.

End Registration.

Lemma register_then_login_witness :
  let d := AuthDB.Db (only_alice "2025-01-01 10:00:00") [] in
  let d1 := (AuthDB.register_user (fun p => p) (fun _ => 2)
               "bob" "pw" "Bob" "Verdi" "paziente" "2025-02-01 12:00:00" d).2 in
  (exists user d2,
     AuthDB.login plain_check "bob" "pw" "tok" "2025-02-01 12:45:00"
       "2025-02-01 12:05:00" d1 = (Ok (AuthDB.LoggedIn "tok" 2 user), d2) /\
     r_username user = Some "bob" /\ r_ruolo user = Some "paziente" /\
     r_last_login user = None) /\
  (forall password' nome' cognome' ruolo' now'',
     exists e,
       AuthDB.register_user (fun p => p) (fun _ => 2)
         "bob" password' nome' cognome' ruolo' now'' d1
       = (AuthDB.Failure e, d1)).
Proof.
  intros d d1.
  apply (register_then_login (fun p => p) plain_check (fun _ => 2)
           "bob" "pw" "Bob" "Verdi" "paziente" "2025-02-01 12:00:00" d 2 d1
           "tok" "2025-02-01 12:45:00" "2025-02-01 12:05:00").
  - reflexivity.
  - reflexivity.
  - intros Hin. by apply elem_of_nil in Hin.
Defined.

(** ** The constraints of [users] under the methods of [AuthDB] *)

Lemma row_ok_spec r :
  row_ok r = true <->
  is_Some (r_username r) /\ is_Some (r_password_hash r) /\
  is_Some (r_nome r) /\ is_Some (r_cognome r) /\
  exists ro, r_ruolo r = Some ro /\ ruolo_valid ro = true.
Proof.
  unfold row_ok.
  destruct (r_username r), (r_password_hash r), (r_nome r), (r_cognome r),
    (r_ruolo r) as [ro|]; split;
    try (intros H; discriminate H);
    try (intros (H1 & H2 & H3 & H4 & ro' & H5 & H6);
         by (destruct H1 || destruct H2 || destruct H3 || destruct H4
             || discriminate H5)).
  - intros H. repeat (split; [by eexists|]). by exists ro.
  - intros (_ & _ & _ & _ & ro' & [= <-] & H). done.
Qed.

Lemma table_ok_lookup t k r :
  table_ok t -> t !! k = Some r ->
  sqlite_int k = true /\ row_ok r = true /\
  username_free t k (r_username r) = true.
Proof.
  intros Hok Hk. destruct (map_Forall_lookup_1 _ _ _ _ Hok Hk) as [H64 Hc].
  unfold constraints_ok in Hc. apply andb_true_iff in Hc as [? ?]. done.
Qed.

Lemma table_ok_replace t k r r' :
  table_ok t -> t !! k = Some r ->
  r_username r' = r_username r -> row_ok r' = true ->
  table_ok (<[k := r']> t).
Proof.
  intros Hok Hk Hname Hrow.
  destruct (table_ok_lookup t k r Hok Hk) as (H64 & _ & Hfree).
  apply table_ok_insert; [done..|].
  unfold constraints_ok. by rewrite Hrow, Hname, Hfree.
Qed.

Lemma table_ok_delete t k : table_ok t -> table_ok (delete k t).
Proof.
  intros Hok. apply map_Forall_lookup. intros j rj Hj.
  apply lookup_delete_Some in Hj as [Hne Hj].
  destruct (table_ok_lookup t j rj Hok Hj) as (H64 & Hrow & Hfree).
  split; [done|]. unfold constraints_ok. rewrite Hrow. simpl.
  rewrite username_free_spec in Hfree. apply username_free_spec.
  intros i ri Hi. apply lookup_delete_Some in Hi as [_ Hi]. by apply Hfree.
Qed.

Lemma backfill_same now r :
  r_username (AuthStore.backfill now r) = r_username r /\
  row_ok (AuthStore.backfill now r) = row_ok r.
Proof. unfold AuthStore.backfill. by destruct (r_updated_at r). Qed.

Lemma table_ok_backfill now t : table_ok t -> table_ok (AuthStore.backfill now <$> t).
Proof.
  intros Hok. apply map_Forall_lookup. intros j rj' Hj.
  apply lookup_fmap_Some in Hj as (rj & <- & Hj).
  destruct (table_ok_lookup t j rj Hok Hj) as (H64 & Hrow & Hfree).
  destruct (backfill_same now rj) as [Hn Hr].
  split; [done|]. unfold constraints_ok. rewrite Hr, Hrow, Hn. simpl.
  rewrite username_free_spec in Hfree. apply username_free_spec.
  intros i ri' Hi. apply lookup_fmap_Some in Hi as (ri & <- & Hi).
  destruct (backfill_same now ri) as [-> _]. by apply Hfree.
Qed.

Lemma assign_is_Some new old :
  is_Some old -> is_Some (AuthDB.assign new old).
Proof.
  intros Hold. unfold AuthDB.assign.
  destruct (truthy new) eqn:Ht; [|done].
  apply truthy_Some in Ht as (s & -> & _). by eexists.
Qed.

Section Constraints.

Variable hash_password : string -> string.
Variable verify_password : string -> string -> result bool.
Variable next_rowid : gmap Z row -> Z.

(** X14: the writing methods of [AuthDB] keep the integrity of [users]
    (64-bit ids, the NOT NULL columns, the closed set of roles, unique
    usernames): if the table satisfies it before [register_user],
    [login], [update_user], [delete_user], [fix_null_updated_at] or
    [init_database], it satisfies it afterwards, however the call ends.
    For the two methods that insert, the rowid SQLite assigns is taken
    to be a 64-bit integer. *)
Theorem authdb_keeps_table_constraints d :
  table_ok (AuthDB.users d) ->
  (forall username password nome cognome ruolo now,
     sqlite_int (next_rowid (AuthDB.users d)) = true ->
     table_ok (AuthDB.users
       (AuthDB.register_user hash_password next_rowid
          username password nome cognome ruolo now d).2)) /\
  (forall username password token expires now,
     table_ok (AuthDB.users
       (AuthDB.login verify_password username password token expires now d).2)) /\
  (forall uid nome cognome ruolo new_password now,
     table_ok (AuthDB.users
       (AuthDB.update_user hash_password uid nome cognome ruolo new_password
          now d).2)) /\
  (forall uid, table_ok (AuthDB.users (AuthStore.delete_user uid d).2)) /\
  (forall columns now,
     table_ok (AuthDB.users (AuthStore.fix_null_updated_at columns now d))) /\
  (forall now,
     sqlite_int (next_rowid (AuthDB.users d)) = true ->
     table_ok (AuthDB.users
       (AuthStore.init_database hash_password next_rowid now d).2)).
Proof.
  intros Hok. refine (conj _ (conj _ (conj _ (conj _ (conj _ _))))).
  - intros username password nome cognome ruolo now H64.
    unfold AuthDB.register_user.
    destruct (negb (ruolo_valid ruolo)); [done|].
    destruct (AuthDB.select_by_username _ _); [done|].
    destruct (AuthDB.users d !! next_rowid (AuthDB.users d)); [done|].
    destruct (constraints_ok _ _ _) eqn:Hc; [|done].
    by apply table_ok_insert.
  - intros username password token expires now. unfold AuthDB.login.
    destruct (AuthDB.select_by_username (AuthDB.users d) username)
      as [[uid r]|] eqn:Hsel; [|done].
    apply select_by_username_Some in Hsel as [Hk _].
    destruct (r_password_hash r); [|done].
    destruct (verify_password password _) as [[|]|e]; try done.
    case_bool_decide; [done|]. cbn [snd AuthDB.users].
    destruct (table_ok_lookup _ _ _ Hok Hk) as (_ & Hrow & _).
    by apply (table_ok_replace _ uid r).
  - intros uid nome cognome ruolo new_password now. unfold AuthDB.update_user.
    destruct (truthy ruolo && negb (ruolo_valid (default "" ruolo))) eqn:Hr;
      [done|].
    destruct (negb (truthy nome || truthy cognome || truthy ruolo
                    || truthy new_password)); [done|].
    destruct (negb (sqlite_int uid)); [done|].
    destruct (AuthDB.users d !! uid) as [r|] eqn:Hk; [|done].
    cbn [snd AuthDB.users].
    destruct (table_ok_lookup _ _ _ Hok Hk) as (_ & Hrow & _).
    apply (table_ok_replace _ uid r); [done..|].
    apply row_ok_spec in Hrow as (H1 & H2 & H3 & H4 & ro & H5 & H6).
    apply row_ok_spec. cbn [r_username r_password_hash r_nome r_cognome r_ruolo].
    split; [done|]. split.
    { destruct (truthy new_password) eqn:Hp; [|done].
      apply truthy_Some in Hp as (p & -> & _). by eexists. }
    split; [by apply assign_is_Some|]. split; [by apply assign_is_Some|].
    unfold AuthDB.assign. destruct (truthy ruolo) eqn:Ht.
    + apply truthy_Some in Ht as (s & -> & _). exists s. split; [done|].
      simpl in Hr. by destruct (ruolo_valid s).
    + by exists ro.
  - intros uid. unfold AuthStore.delete_user.
    destruct (negb (sqlite_int uid)); [done|].
    destruct (AuthDB.users d !! uid); [|done].
    destruct (_ && _); [done|]. by apply table_ok_delete.
  - intros columns now. unfold AuthStore.fix_null_updated_at.
    case_bool_decide; [by apply table_ok_backfill | done].
  - intros now H64. unfold AuthStore.init_database.
    destruct (AuthStore.admin_count (AuthDB.users d) =? 0)%nat; [|done].
    destruct (AuthDB.users d !! next_rowid (AuthDB.users d)); [done|].
    destruct (constraints_ok _ _ _) eqn:Hc; [|done].
    by apply table_ok_insert.
Qed.

End Constraints.

Lemma authdb_keeps_table_constraints_witness :
  let d := AuthDB.Db (only_alice "2025-01-01 10:00:00") [] in
  table_ok (AuthDB.users
    (AuthDB.register_user (fun p => p) (fun _ => 2)
       "bob" "pw" "Bob" "Verdi" "paziente" "2025-02-01 12:00:00" d).2) /\
  table_ok (AuthDB.users
    (AuthDB.update_user (fun p => p) 1 None (Some "Bianchi") None None
       "2025-02-01 12:00:00" d).2).
Proof.
  intros d.
  destruct (authdb_keeps_table_constraints (fun p => p) plain_check (fun _ => 2) d
              (only_alice_table_ok "2025-01-01 10:00:00"))
    as (Hreg & _ & Hupd & _).
  split.
  - apply Hreg. reflexivity.
  - apply Hupd.
Defined.

(** * Properties of the session decorators and the account routes *)

(** ** The token of the [Authorization] header *)

Lemma prefix_cons a p b s :
  String.prefix (String a p) (String b s) = true ->
  a = b /\ String.prefix p s = true.
Proof. simpl. by destruct (ascii_dec a b). Qed.

Lemma prefix_Bearer_space s :
  String.prefix "Bearer " s = true -> Endpoints.spaceless s = false.
Proof.
  intros H.
  do 6 (destruct s as [|? s]; [done|]; apply prefix_cons in H as [_ H];
        cbn [Endpoints.spaceless]; apply andb_false_intro2).
  destruct s as [|? s]; [done|]. apply prefix_cons in H as [<- _]. done.
Qed.

Lemma remove_from_spaceless s :
  Endpoints.spaceless s = true -> Endpoints.remove_from "Bearer " 0 s = s.
Proof.
  induction s as [|c s IH]; [done|]. intros Hs.
  cbn [Endpoints.remove_from].
  destruct (String.prefix "Bearer " (String c s)) eqn:Hp.
  - apply prefix_Bearer_space in Hp. congruence.
  - cbn [Endpoints.spaceless] in Hs. apply andb_true_iff in Hs as [_ Hs].
    by rewrite IH.
Qed.

Lemma bearer_token_scheme token :
  Endpoints.spaceless token = true ->
  Endpoints.bearer_token (Some ("Bearer " +:+ token)) = token /\
  Endpoints.bearer_token (Some token) = token.
Proof.
  intros Hs. unfold Endpoints.bearer_token. cbn [default from_option id].
  split; [|by apply remove_from_spaceless].
  rewrite <- (remove_from_spaceless token Hs) at 2.
  by destruct token.
Qed.

(** ** What [verify_session] answers *)

Lemma verify_session_user token now d uid un n c ro :
  AuthStore.verify_session token now d = AuthStore.SessionUser uid un n c ro ->
  exists s r,
    s ∈ AuthDB.sessions d /\ token = Some (AuthDB.s_session_token s) /\
    AuthDB.s_session_token s <> "" /\
    String.ltb now (AuthDB.s_expires_at s) = true /\
    AuthDB.s_user_id s = uid /\ AuthDB.users d !! uid = Some r /\
    un = r_username r /\ n = r_nome r /\ c = r_cognome r /\ ro = r_ruolo r.
Proof.
  unfold AuthStore.verify_session. intros H.
  destruct (truthy token) eqn:Ht; [|done]. cbn [negb] in H.
  apply truthy_Some in Ht as (t & -> & Hne). cbn [default from_option id] in H.
  destruct (head _) as [s|] eqn:Hs; [|done].
  apply head_Some_elem_of, list_elem_of_filter in Hs as [Hlive Hin].
  destruct (AuthDB.users d !! AuthDB.s_user_id s) as [r|] eqn:Hr; [|done].
  unfold AuthStore.live in Hlive.
  apply andb_prop_elim in Hlive as [Hlive _].
  apply andb_prop_elim in Hlive as [Heq Hlt].
  apply Is_true_true, String.eqb_eq in Heq. apply Is_true_true in Hlt.
  simplify_eq. by exists s, r.
Qed.

Lemma verify_session_new_session token now t ss uid r expires :
  token <> "" -> token ∉ map AuthDB.s_session_token ss ->
  t !! uid = Some r ->
  AuthStore.verify_session (Some token) now
    (AuthDB.Db t (ss ++ [AuthDB.Session uid token expires]))
  = if String.ltb now expires
    then AuthStore.SessionUser uid (r_username r) (r_nome r) (r_cognome r)
           (r_ruolo r)
    else AuthStore.Fail "Sessione scaduta o non valida".
Proof.
  intros Htok Hfresh Hr. unfold AuthStore.verify_session.
  cbn [truthy default from_option id AuthDB.sessions AuthDB.users].
  destruct (String.eqb_spec token ""); [done|]. cbn [negb].
  rewrite filter_app, filter_none.
  2:{ intros s Hs. unfold AuthStore.live.
      destruct (String.eqb_spec (AuthDB.s_session_token s) token) as [Heq|];
        [|done].
      destruct Hfresh. rewrite <- Heq. apply list_elem_of_In, in_map.
      by apply list_elem_of_In. }
  cbn [app]. rewrite filter_cons, filter_nil.
  unfold AuthStore.live. cbn [AuthDB.s_session_token AuthDB.s_expires_at
                                AuthDB.s_user_id].
  rewrite String.eqb_refl, Hr.
  rewrite (bool_decide_eq_true_2 (is_Some _)) by by eexists.
  rewrite !andb_true_r.
  destruct (String.ltb now expires); simpl; [|done].
  by rewrite Hr.
Qed.

Lemma verify_session_after_logout token now d :
  exists e,
    AuthStore.verify_session (Some token) now (AuthStore.logout token d).2
    = AuthStore.Fail e.
Proof.
  unfold AuthStore.logout, AuthStore.verify_session. cbn [snd].
  destruct (negb (truthy (Some token))); [by eexists|].
  cbn [AuthDB.sessions default from_option id].
  rewrite list_filter_filter, filter_nothing; [by eexists|].
  intros s _ [Hl Hne]. unfold AuthStore.live in Hl.
  destruct (String.eqb_spec (AuthDB.s_session_token s) token); done.
Qed.

Lemma login_cases verify_password username password token expires now d r d' :
  AuthDB.login verify_password username password token expires now d
    = (Ok r, d') ->
  (exists e, r = AuthDB.Failure e /\ d' = d) \/
  (exists uid user,
     r = AuthDB.LoggedIn token uid user /\
     AuthDB.users d !! uid = Some user /\
     r_username user = Some username /\
     (token ∉ map AuthDB.s_session_token (AuthDB.sessions d)) /\
     d' = AuthDB.Db (<[uid := AuthDB.set_last_login now user]> (AuthDB.users d))
            (AuthDB.sessions d ++ [AuthDB.Session uid token expires])).
Proof.
  unfold AuthDB.login. intros H.
  destruct (AuthDB.select_by_username (AuthDB.users d) username)
    as [[uid user]|] eqn:Hsel; [|simplify_eq; left; by eexists].
  apply select_by_username_Some in Hsel as [Hk Hname].
  destruct (r_password_hash user) as [ph|]; [|done].
  destruct (verify_password password ph) as [[|]|e]; [| |done].
  - case_bool_decide as Hfresh; [done|]. simplify_eq. right. by exists uid, user.
  - simplify_eq. left. by eexists.
Qed.

(** ** The decorators *)

Lemma require_admin_cases authorization now f d :
  let out := Endpoints.require_auth authorization now
               (Endpoints.require_role "admin" f) None d in
  (Endpoints.refused out.1 /\ out.2 = d) \/
  (Endpoints.admin_session authorization now d /\
   exists u, Endpoints.ru_ruolo u = Some "admin" /\ out = f (Some u) d).
Proof.
  cbv zeta. unfold Endpoints.require_auth.
  destruct (negb (truthy (Some (Endpoints.bearer_token authorization)))).
  { left. split; [|done]. exists 401, "Non autenticato". by split; [|left]. }
  destruct (AuthStore.verify_session _ now d) as [e|uid un n c ro| | |] eqn:Hv;
    try (left; split; [|done]; exists 401, "Sessione scaduta";
         by split; [|left]).
  apply verify_session_user in Hv
    as (s & r & Hin & [= Htok] & _ & Hlt & Hid & Hr & _ & _ & _ & ->).
  unfold Endpoints.require_role. cbn [Endpoints.ru_ruolo].
  case_bool_decide as Hadmin.
  - right. split.
    + exists s, r. rewrite Hid. by rewrite <- Htok.
    + eexists. split; [|reflexivity]. exact Hadmin.
  - rewrite bool_decide_eq_true_2 by done.
    left. split; [|done]. exists 403, "Permessi insufficienti".
    by split; [|right].
Qed.

Section Routes.

Variable hash_password : string -> string.
Variable verify_password : string -> string -> result bool.
Variable next_rowid : gmap Z row -> Z.

(** X15: the three routes under [/api/users/<int:user_id>] do nothing
    for a caller without an administrator's session: unless the store
    holds an unexpired session whose token is the [Authorization] header
    without its ["Bearer "] and whose user has the role [admin], GET, PUT
    and DELETE answer 401 or 403 with the decorators' own error and leave
    the store as it is. *)
Theorem admin_routes_refuse_without_admin_session
    authorization user_id data now now' d :
  ~ Endpoints.admin_session authorization now d ->
  let get := Endpoints.api_get_user authorization user_id now d in
  let put := Endpoints.api_update_user hash_password authorization user_id
               data now now' d in
  let del := Endpoints.api_delete_user authorization user_id now d in
  (Endpoints.refused get.1 /\ get.2 = d) /\
  (Endpoints.refused put.1 /\ put.2 = d) /\
  (Endpoints.refused del.1 /\ del.2 = d).
Proof.
  intros Hno. cbv zeta.
  unfold Endpoints.api_get_user, Endpoints.api_update_user,
    Endpoints.api_delete_user.
  split; [|split];
    match goal with
    | |- context [Endpoints.require_auth authorization now
                    (Endpoints.require_role "admin" ?f) None d] =>
        destruct (require_admin_cases authorization now f d) as [H|[H _]];
          [exact H | destruct (Hno H)]
    end.
Qed.

(** X16: the token [POST /api/auth/login] hands out opens every view
    behind [require_auth] until it expires: after a 200 of the login
    route, a request whose [Authorization] header is ["Bearer "] followed
    by the token, or the bare token, runs the view with [request.user]
    set to the id, username, name and role of the user who logged in,
    and the user named in the body is that user.  The token is taken
    to be non-empty and without spaces. *)
Theorem login_route_token_opens_the_views
    data token expires now now' d p d' :
  Endpoints.api_login verify_password data token expires now d
    = (Ok (200, p), d') ->
  token <> "" -> Endpoints.spaceless token = true ->
  String.ltb now' expires = true ->
  exists uid user,
    p = Endpoints.Reply (AuthDB.LoggedIn token uid user) /\
    Some <$> data !! "username" = Some (r_username user) /\
    forall f request_user,
      let u := Endpoints.ReqUser uid (r_username user) (r_nome user)
                 (r_cognome user) (r_ruolo user) in
      Endpoints.require_auth (Some ("Bearer " +:+ token)) now' f request_user d'
        = f (Some u) d' /\
      Endpoints.require_auth (Some token) now' f request_user d'
        = f (Some u) d'.
Proof.
  unfold Endpoints.api_login. intros H Htok Hsp Hlt.
  destruct (truthy (data !! "username")) eqn:Hu; [|done].
  destruct (truthy (data !! "password")) eqn:Hp; [|done].
  cbn [negb orb] in H.
  apply truthy_Some in Hu as (username & Hu & _). rewrite Hu in *.
  cbn [default from_option id] in H.
  destruct (AuthDB.login _ _ _ _ _ _ _) as [[r|e] d1] eqn:Hl; [|done].
  apply login_cases in Hl as [(e & -> & _)|(uid & user & -> & Hk & Hn & Hfresh & ->)];
    [done|].
  simplify_eq/=. exists uid, user. split; [done|]. split; [by rewrite Hn|].
  intros f request_user.
  destruct (bearer_token_scheme token Hsp) as [Hb1 Hb2].
  unfold Endpoints.require_auth. rewrite Hb1, Hb2.
  cbn [truthy]. destruct (String.eqb_spec token ""); [done|]. cbn [negb].
  rewrite (verify_session_new_session token now' _ _ uid
             (AuthDB.set_last_login now user) expires Htok Hfresh)
    by apply lookup_insert_eq.
  rewrite Hlt. done.
Qed.

(** X17: after a 200 of [POST /api/auth/logout] the same [Authorization]
    header opens nothing any more: every view behind [require_auth]
    answers 401 without being run, at any later time; the logout touches
    no user row. *)
Theorem logout_route_closes_the_views authorization now d p d' :
  Endpoints.api_logout authorization now d = (Ok (200, p), d') ->
  AuthDB.users d' = AuthDB.users d /\
  forall now' f request_user,
    Endpoints.require_auth authorization now' f request_user d'
    = (Ok (401, Endpoints.Refused "Sessione scaduta"), d').
Proof.
  unfold Endpoints.api_logout, Endpoints.require_auth. intros H.
  destruct (negb (truthy (Some (Endpoints.bearer_token authorization))))
    eqn:Ht; [done|].
  destruct (AuthStore.verify_session _ now d); try done.
  assert (d' = (AuthStore.logout (Endpoints.bearer_token authorization) d).2)
    as -> by (unfold AuthStore.logout in *; by simplify_eq/=).
  split; [done|]. intros now' f request_user.
  destruct (verify_session_after_logout
              (Endpoints.bearer_token authorization) now' d) as [e ->].
  done.
Qed.

End Routes.

Lemma admin_routes_refuse_without_admin_session_witness :
  let get := Endpoints.api_get_user (Some "Bearer tok") 1
               "2025-02-01 12:00:00" alice_logged_in in
  let put := Endpoints.api_update_user (fun p => p) (Some "Bearer tok") 1
               {[ "ruolo" := "admin" ]} "2025-02-01 12:00:00"
               "2025-02-01 12:00:01" alice_logged_in in
  let del := Endpoints.api_delete_user (Some "Bearer tok") 1
               "2025-02-01 12:00:00" alice_logged_in in
  (Endpoints.refused get.1 /\ get.2 = alice_logged_in) /\
  (Endpoints.refused put.1 /\ put.2 = alice_logged_in) /\
  (Endpoints.refused del.1 /\ del.2 = alice_logged_in).
Proof.
  apply (admin_routes_refuse_without_admin_session (fun p => p)).
  intros (s & r & Hin & _ & _ & Hk & Hr).
  apply list_elem_of_singleton in Hin as ->.
  vm_compute in Hk. injection Hk as <-. discriminate Hr.
Defined.

Lemma login_route_token_opens_the_views_witness :
  let d' := (Endpoints.api_login plain_check alice_credentials "tok2"
               "2025-02-01 12:45:00.000000" "2025-02-01 12:05:00"
               alice_logged_in).2 in
  exists uid user,
    Endpoints.Reply (AuthDB.LoggedIn "tok2" 1 (alice "2025-01-01 10:00:00"))
    = Endpoints.Reply (AuthDB.LoggedIn "tok2" uid user) /\
    Some <$> alice_credentials !! "username" = Some (r_username user) /\
    forall f request_user,
      let u := Endpoints.ReqUser uid (r_username user) (r_nome user)
                 (r_cognome user) (r_ruolo user) in
      Endpoints.require_auth (Some ("Bearer " +:+ "tok2"))
        "2025-02-01 12:30:00" f request_user d'
        = f (Some u) d' /\
      Endpoints.require_auth (Some "tok2") "2025-02-01 12:30:00" f
        request_user d'
        = f (Some u) d'.
Proof.
  apply (login_route_token_opens_the_views plain_check alice_credentials
           "tok2" "2025-02-01 12:45:00.000000" "2025-02-01 12:05:00"
           "2025-02-01 12:30:00" alice_logged_in).
  - vm_compute. reflexivity.
  - discriminate.
  - reflexivity.
  - reflexivity.
Defined.

Lemma logout_route_closes_the_views_witness :
  let d' := (Endpoints.api_logout (Some "Bearer tok") "2025-02-01 12:00:00"
               alice_logged_in).2 in
  AuthDB.users d' = AuthDB.users alice_logged_in /\
  forall now' f request_user,
    Endpoints.require_auth (Some "Bearer tok") now' f request_user d'
    = (Ok (401, Endpoints.Refused "Sessione scaduta"), d').
Proof.
  apply (logout_route_closes_the_views (Some "Bearer tok")
           "2025-02-01 12:00:00" alice_logged_in
           (Endpoints.Answer AuthStore.LoggedOut)).
  vm_compute. reflexivity.
Defined.

(** ** Registration is open *)

Lemma admin_count_two t k1 k2 r1 r2 :
  k1 <> k2 -> t !! k1 = Some r1 -> t !! k2 = Some r2 ->
  r_ruolo r1 = Some "admin" -> r_ruolo r2 = Some "admin" ->
  (2 <= AuthStore.admin_count t)%nat.
Proof.
  intros Hne H1 H2 Ha1 Ha2.
  pose proof (admin_count_delete t k1 r1 H1) as Hd.
  rewrite decide_True in Hd by done.
  assert (0 < AuthStore.admin_count (delete k1 t))%nat; [|lia].
  apply admin_count_pos. exists k2, r2. split; [|done].
  by rewrite lookup_delete_ne.
Qed.

Section OpenRegistration.

Variable hash_password : string -> string.
Variable verify_password : string -> string -> result bool.
Variable next_rowid : gmap Z row -> Z.

Lemma register_user_fresh username password nome cognome ruolo now d :
  let uid := next_rowid (AuthDB.users d) in
  let r := Row (Some username) (Some (hash_password password)) (Some nome)
               (Some cognome) (Some ruolo) (Some now) None (Some now) in
  ruolo_valid ruolo = true ->
  (forall k r', AuthDB.users d !! k = Some r' ->
                r_username r' <> Some username) ->
  AuthDB.users d !! uid = None ->
  AuthDB.register_user hash_password next_rowid username password nome
    cognome ruolo now d
  = (AuthDB.Registered uid,
     AuthDB.Db (<[uid := r]> (AuthDB.users d)) (AuthDB.sessions d)).
Proof.
  intros uid r Hruolo Hfresh Hk. unfold AuthDB.register_user.
  rewrite Hruolo. cbn [negb].
  assert (AuthDB.select_by_username (AuthDB.users d) username = None) as ->
    by by apply select_by_username_None.
  fold uid. rewrite Hk. fold r.
  assert (constraints_ok (AuthDB.users d) uid r = true) as ->; [|done].
  unfold constraints_ok. apply andb_true_iff. split.
  - unfold row_ok, r. cbn. exact Hruolo.
  - apply username_free_spec. intros k r' Hk'. right. exact (Hfresh k r' Hk').
Qed.

(** X18: [POST /api/auth/register] asks for no session and takes the
    role from the body, so the admin-only routes are open to anyone: a
    registration with a new username and the role [admin] is accepted,
    the login with the same credentials returns a token, and with that
    token [DELETE /api/users/<int:user_id>] removes any other user of
    the store whose id the route can name (a non-negative 64-bit
    integer), the former administrators included.  (The rowid SQLite
    assigns is taken to be new, the password check to accept
    the password against its own hash, the session token to be new,
    non-empty and without spaces.) *)
Theorem open_registration_reaches_the_admin_routes
    data credentials username password token expires now now' now'' victim d :
  let uid := next_rowid (AuthDB.users d) in
  data !! "username" = Some username -> data !! "password" = Some password ->
  credentials !! "username" = Some username ->
  credentials !! "password" = Some password ->
  username <> "" -> password <> "" ->
  truthy (data !! "nome") = true -> truthy (data !! "cognome") = true ->
  data !! "ruolo" = Some "admin" ->
  (forall k r, AuthDB.users d !! k = Some r -> r_username r <> Some username) ->
  AuthDB.users d !! uid = None ->
  verify_password password (hash_password password) = Ok true ->
  token <> "" -> Endpoints.spaceless token = true ->
  (token ∉ map AuthDB.s_session_token (AuthDB.sessions d)) ->
  String.ltb now'' expires = true ->
  is_Some (AuthDB.users d !! victim) ->
  0 <= victim -> sqlite_int victim = true ->
  exists user d1 d2 d3,
    Endpoints.api_register hash_password next_rowid data now d
      = (Ok (200, Endpoints.Reply (AuthDB.Registered uid)), d1) /\
    Endpoints.api_login verify_password credentials token expires now' d1
      = (Ok (200, Endpoints.Reply (AuthDB.LoggedIn token uid user)), d2) /\
    Endpoints.api_delete_user (Some ("Bearer " +:+ token)) victim now'' d2
      = (Ok (200, Endpoints.Answer AuthStore.Deleted), d3) /\
    AuthDB.users d3 !! victim = None.
Proof.
  intros uid Hdu Hdp Hcu Hcp Hu Hp Hnome Hcognome Hruolo Hfresh Hk Hpw
    Htok Hsp Hnew Hlt [rv Hv] _ Hv64.
  assert (victim <> uid) as Hne by (intros ->; congruence).
  apply truthy_Some in Hnome as (nome & Hnome & Hn0).
  apply truthy_Some in Hcognome as (cognome & Hcognome & Hc0).
  set (r := Row (Some username) (Some (hash_password password)) (Some nome)
                (Some cognome) (Some "admin") (Some now) None (Some now)).
  set (d1 := AuthDB.Db (<[uid := r]> (AuthDB.users d)) (AuthDB.sessions d)).
  set (d2 := AuthDB.Db (<[uid := AuthDB.set_last_login now' r]> (AuthDB.users d1))
               (AuthDB.sessions d1 ++ [AuthDB.Session uid token expires])).
  exists r, d1, d2, (AuthDB.Db (delete victim (AuthDB.users d2)) (AuthDB.sessions d2)).
  split; [|split; [|split]].
  - unfold Endpoints.api_register.
    rewrite Hdu, Hdp, Hnome, Hcognome, Hruolo.
    cbn [forallb truthy default from_option id].
    destruct (String.eqb_spec username ""); [done|].
    destruct (String.eqb_spec password ""); [done|].
    destruct (String.eqb_spec nome ""); [done|].
    destruct (String.eqb_spec cognome ""); [done|].
    cbn [negb andb String.eqb Ascii.eqb Bool.eqb].
    by rewrite (register_user_fresh username password nome cognome "admin"
                  now d eq_refl Hfresh Hk).
  - unfold Endpoints.api_login. rewrite Hcu, Hcp.
    cbn [truthy default from_option id].
    destruct (String.eqb_spec username ""); [done|].
    destruct (String.eqb_spec password ""); [done|].
    cbn [negb orb]. unfold AuthDB.login, d2, d1.
    cbn [AuthDB.users AuthDB.sessions].
    rewrite (select_by_username_fresh (AuthDB.users d) uid r username)
      by (done || by apply select_by_username_None).
    cbn [r_password_hash r]. rewrite Hpw.
    rewrite bool_decide_eq_false_2 by done. done.
  - unfold Endpoints.api_delete_user, Endpoints.require_auth.
    rewrite (proj1 (bearer_token_scheme token Hsp)).
    cbn [truthy]. destruct (String.eqb_spec token ""); [done|]. cbn [negb].
    unfold d2, d1. cbn [AuthDB.users AuthDB.sessions].
    rewrite (verify_session_new_session token now'' _ _ uid
               (AuthDB.set_last_login now' r) expires Htok Hnew)
      by apply lookup_insert_eq.
    rewrite Hlt. unfold Endpoints.require_role. cbn [Endpoints.ru_ruolo].
    rewrite bool_decide_eq_true_2 by done.
    unfold AuthStore.delete_user. rewrite Hv64. cbn [negb AuthDB.users].
    rewrite !lookup_insert_ne, Hv by done.
    assert (bool_decide (r_ruolo rv = Some "admin")
            && (AuthStore.admin_count
                  (<[uid := AuthDB.set_last_login now' r]>
                     (<[uid := r]> (AuthDB.users d))) <=? 1)%nat = false)
      as ->; [|done].
    case_bool_decide as Hadmin; [|done]. cbn [andb].
    apply Nat.leb_gt.
    apply (admin_count_two _ victim uid rv (AuthDB.set_last_login now' r));
      [done| |apply lookup_insert_eq|done..].
    by rewrite !lookup_insert_ne.
  - cbn [AuthDB.users]. apply lookup_delete_eq.
Qed.

End OpenRegistration.

Lemma open_registration_reaches_the_admin_routes_witness :
  exists user d1 d2 d3,
    Endpoints.api_register (fun p => p) (fun _ => 2) mallory_registration
      "2025-02-01 12:00:00" alice_logged_in
      = (Ok (200, Endpoints.Reply (AuthDB.Registered 2)), d1) /\
    Endpoints.api_login plain_check mallory_credentials "tok3"
      "2025-02-01 12:41:00.000000" "2025-02-01 12:01:00" d1
      = (Ok (200, Endpoints.Reply (AuthDB.LoggedIn "tok3" 2 user)), d2) /\
    Endpoints.api_delete_user (Some ("Bearer " +:+ "tok3")) 1
      "2025-02-01 12:02:00" d2
      = (Ok (200, Endpoints.Answer AuthStore.Deleted), d3) /\
    AuthDB.users d3 !! 1 = None.
Proof.
  apply (open_registration_reaches_the_admin_routes (fun p => p) plain_check
           (fun _ => 2) mallory_registration mallory_credentials
           "mallory" "pw" "tok3" "2025-02-01 12:41:00.000000"
           "2025-02-01 12:00:00" "2025-02-01 12:01:00" "2025-02-01 12:02:00"
           1 alice_logged_in); try (by vm_compute).
  - intros k r Hk. unfold alice_logged_in, only_alice in Hk. cbn in Hk.
    apply lookup_singleton_Some in Hk as [_ <-]. discriminate.
  - intros Hin. apply list_elem_of_singleton in Hin. discriminate Hin.
  - eexists. vm_compute. reflexivity.
Defined.

(** * Properties of the signal queues and the chart data *)

Lemma key_valid signal_name :
  Chart.validate_signal_name signal_name = true <->
  is_Some (Chart.key signal_name).
Proof.
  unfold Chart.validate_signal_name, Chart.key, Chart.allowed_signals.
  rewrite bool_decide_eq_true, !elem_of_cons, elem_of_nil.
  destruct (String.eqb_spec signal_name "ECG"); [by split; [eexists | left]|].
  destruct (String.eqb_spec signal_name "ADC");
    [by split; [eexists | right; left]|].
  destruct (String.eqb_spec signal_name "TEMP");
    [by split; [eexists | right; right; left]|].
  split; [intros [?|[?|[?|[]]]]; done | by intros []].
Qed.

(** ** Sampling *)

Lemma stride_lookup {A} step (l : list A) :
  (0 < step)%nat ->
  forall skip i,
    Chart.stride step skip l !! i = l !! (skip + i * step)%nat.
Proof.
  intros Hstep. induction l as [|a l IH]; intros skip i; [done|].
  destruct skip as [|k]; cbn [Chart.stride].
  - destruct i as [|j]; [done|]. cbn [lookup list_lookup]. rewrite IH.
    replace (0 + S j * step)%nat with (S (step - 1 + j * step)) by lia.
    done.
  - rewrite IH. done.
Qed.

Lemma stride_Forall {A} (P : A -> Prop) step (l : list A) :
  Forall P l -> forall skip, Forall P (Chart.stride step skip l).
Proof.
  induction 1 as [|a l Ha Hl IH]; intros skip; [constructor|].
  destruct skip; cbn [Chart.stride]; [constructor|]; auto.
Qed.

(** The list a positive [max_points] leaves: element [i] of it is
    element [i * step] of the queue. *)
Lemma sampled_lookup {A} (data : list A) max_points :
  0 < max_points ->
  exists sampled,
    (if max_points <? Z.of_nat (length data) then
       if max_points =? 0 then Chart.Err Chart.ZeroDivisionError
       else Chart.slice_step (Z.of_nat (length data) / max_points) data
     else Chart.Ret data) = Chart.Ret sampled /\
    (0 < Chart.sampling_step (length data) max_points)%nat /\
    forall i,
      sampled !! i
      = data !! (i * Chart.sampling_step (length data) max_points)%nat.
Proof.
  intros Hm. unfold Chart.sampling_step.
  destruct (Z.ltb_spec max_points (Z.of_nat (length data))) as [Hlt|Hge].
  - assert (1 <= Z.of_nat (length data) / max_points) as Hstep
      by (apply Z.div_le_lower_bound; lia).
    destruct (Z.eqb_spec max_points 0); [lia|].
    unfold Chart.slice_step.
    destruct (Z.eqb_spec (Z.of_nat (length data) / max_points) 0); [lia|].
    destruct (Z.ltb_spec 0 (Z.of_nat (length data) / max_points)); [|lia].
    eexists. split; [done|]. split; [lia|].
    intros i. by rewrite stride_lookup by lia.
  - exists data. split; [done|]. split; [lia|].
    intros i. by rewrite Nat.mul_1_r.
Qed.

(** The size of the sampled list, from the positions it holds. *)
Lemma sampled_size n max_points k :
  0 < max_points ->
  (forall i, (i < k)%nat <-> (i * Chart.sampling_step n max_points < n)%nat) ->
  (k <= n)%nat /\ Z.of_nat k <= 2 * max_points - 1 /\
  (max_points < Z.of_nat n -> max_points <= Z.of_nat k) /\
  (Z.of_nat n < 2 * max_points -> k = n).
Proof.
  intros Hm Hk. unfold Chart.sampling_step in Hk.
  destruct (Z.ltb_spec max_points (Z.of_nat n)) as [Hlt|Hge].
  - set (s := Z.of_nat n / max_points) in *.
    assert (1 <= s) as Hs by (apply Z.div_le_lower_bound; lia).
    pose proof (Z.mul_div_le (Z.of_nat n) max_points Hm) as Hlo.
    pose proof (Z.mul_succ_div_gt (Z.of_nat n) max_points Hm) as Hhi.
    fold s in Hlo, Hhi.
    assert (~ (k * Z.to_nat s < n)%nat) as Hup
      by (intros H; apply Hk in H; lia).
    assert (k <> 0%nat) as Hk0 by (intros ->; lia).
    assert ((k - 1) * Z.to_nat s < n)%nat as Hdown by (apply Hk; lia).
    assert (Z.of_nat n <= Z.of_nat k * s) as Hup' by nia.
    assert ((Z.of_nat k - 1) * s < Z.of_nat n) as Hdown' by nia.
    split; [nia|]. split; [nia|]. split; [nia|].
    intros H2. assert (s = 1) as Hs1 by nia. rewrite Hs1 in *. lia.
  - assert (k = n) as ->.
    { assert (~ (k < k)%nat) as H1 by lia. rewrite Hk in H1.
      assert (~ (n * 1 < n)%nat) as H2 by lia. rewrite <- Hk in H2. lia. }
    repeat split; lia.
Qed.

Lemma sampled_positions {A} (sampled data : list A) step :
  (forall i, sampled !! i = data !! (i * step)%nat) ->
  forall i, (i < length sampled)%nat <-> (i * step < length data)%nat.
Proof.
  intros H i. rewrite <- !lookup_lt_is_Some, H. done.
Qed.

(** ** The two ways a chart is filled *)

Lemma omap_cons_app {A B} (f : A -> option B) a l :
  omap f (a :: l) = option_list (f a) ++ omap f l.
Proof. cbn. by destruct (f a). Qed.

Lemma omap_lookup_total {A B} (f : A -> option B) l :
  Forall (fun a => is_Some (f a)) l ->
  length (omap f l) = length l /\
  forall i, omap f l !! i = l !! i ≫= f.
Proof.
  induction 1 as [|a l [b Hb] Hl [IHlen IH]]; [done|].
  cbn. rewrite Hb. cbn. split; [by rewrite IHlen|].
  intros [|i]; cbn; [done | apply IH].
Qed.

Section ChartFill.

Context {V T : Type}.
Implicit Types (data : list (Chart.entry V T)) (y : list (list V)).

Lemma append_channels_Ret (vals : list V) m :
  forall k acc y,
    Chart.append_channels (seq k m) vals acc = Chart.Ret y ->
    length y = length acc /\
    (forall ch, (k <= ch < k + m)%nat -> is_Some (vals !! ch)) /\
    forall ch,
      y !! ch
      = if decide (k <= ch < k + m)%nat
        then (fun l => l ++ option_list (vals !! ch)) <$> acc !! ch
        else acc !! ch.
Proof.
  induction m as [|m IH]; intros k acc y H; cbn in H.
  - injection H as <-. split; [done|]. split; [lia|].
    intros ch. by rewrite decide_False by lia.
  - destruct (vals !! k) as [v|] eqn:Hv; [|done].
    apply IH in H as (Hlen & Hsome & Hy).
    rewrite length_alter in Hlen. split; [done|]. split.
    + intros ch Hch. destruct (decide (ch = k)) as [->|]; [by eexists|].
      apply Hsome. lia.
    + intros ch. rewrite Hy. destruct (decide (ch = k)) as [->|Hne].
      * rewrite decide_False, decide_True by lia.
        rewrite list_lookup_alter, Hv, decide_True by done. done.
      * rewrite list_lookup_alter_ne by done.
        destruct (decide (S k <= ch < S k + m)%nat);
          [by rewrite decide_True by lia | by rewrite decide_False by lia].
Qed.

Lemma append_channels_total (vals : list V) m :
  forall k acc,
    (k + m <= length vals)%nat ->
    exists y, Chart.append_channels (seq k m) vals acc = Chart.Ret y.
Proof.
  induction m as [|m IH]; intros k acc Hlen; cbn; [by eexists|].
  destruct (lookup_lt_is_Some_2 vals k) as [v ->]; [lia|].
  apply IH. lia.
Qed.

Lemma fill_channels_Ret n data :
  forall acc y,
    Chart.fill_channels n data acc = Chart.Ret y ->
    length y = length acc /\
    Forall (fun p => forall ch, (ch < n)%nat ->
                       is_Some (Chart.values p !! ch)) data /\
    forall ch, (ch < n)%nat ->
      y !! ch
      = (fun l => l ++ omap (fun p => Chart.values p !! ch) data) <$> acc !! ch.
Proof.
  induction data as [|p data IH]; intros acc y H; cbn in H.
  - injection H as <-. split; [done|]. split; [constructor|].
    intros ch _. cbn. destruct (acc !! ch) as [l|]; cbn; [|done].
    by rewrite app_nil_r.
  - destruct (Chart.append_channels _ _ _) as [y1|e] eqn:H1; [|done].
    apply append_channels_Ret in H1 as (Hlen1 & Hsome1 & Hy1).
    apply IH in H as (Hlen & Hall & Hy).
    split; [congruence|]. split.
    + constructor; [|done]. intros ch Hch. apply Hsome1. lia.
    + intros ch Hch. rewrite (Hy ch Hch), Hy1, decide_True by lia.
      rewrite omap_cons_app. destruct (acc !! ch) as [l|]; cbn; [|done].
      by rewrite app_assoc.
Qed.

Lemma fill_channels_total n data :
  Forall (fun p => (n <= length (Chart.values p))%nat) data ->
  forall acc, exists y, Chart.fill_channels n data acc = Chart.Ret y.
Proof.
  induction 1 as [|p data Hp Hdata IH]; intros acc; cbn; [by eexists|].
  destruct (append_channels_total (Chart.values p) n 0 acc Hp) as [y1 ->].
  apply IH.
Qed.

Lemma first_values_Ret data :
  forall y,
    Chart.first_values data = Chart.Ret y ->
    length y = length data /\
    forall i,
      y !! i = data !! i ≫= fun p => head (Chart.values p) ≫= fun v => Some [v].
Proof.
  induction data as [|p data IH]; intros y H; cbn in H.
  - by injection H as <-.
  - destruct (Chart.values p) as [|v vs] eqn:Hv; [done|].
    destruct (Chart.first_values data) as [y1|e]; [|done].
    injection H as <-. destruct (IH y1 eq_refl) as [Hlen Hy].
    split; [cbn; by rewrite Hlen|].
    intros [|i]; cbn; [by rewrite Hv | apply Hy].
Qed.

Lemma first_values_total data :
  Forall (fun p => (0 < length (Chart.values p))%nat) data ->
  exists y, Chart.first_values data = Chart.Ret y.
Proof.
  induction 1 as [|p data Hp Hdata [y IH]]; cbn; [by eexists|].
  destruct (Chart.values p); [cbn in Hp; lia|].
  rewrite IH. by eexists.
Qed.

(** What [prepare_chart_data] returns for a valid name and a positive
    [max_points], in terms of the sampled list. *)
Lemma prepare_chart_data_Ret signal_name sig max_points
    (st : Chart.state V T) c :
  Chart.key signal_name = Some sig -> 0 < max_points ->
  Chart.prepare_chart_data signal_name max_points st = Chart.Ret c ->
  let data := Chart.items (Chart.data_queues st sig) in
  let step := Chart.sampling_step (length data) max_points in
  exists sampled,
    (forall i, sampled !! i = data !! (i * step)%nat) /\
    (0 < step)%nat /\
    Chart.chart_x c = seq 0 (length sampled) /\
    if decide (sig = Chart.TEMP) then
      length (Chart.chart_y c) = length sampled /\
      forall i,
        Chart.chart_y c !! i
        = sampled !! i ≫= fun p => head (Chart.values p) ≫= fun v => Some [v]
    else
      length (Chart.chart_y c)
      = (if data is d :: _ then length (Chart.values d) else 0%nat) /\
      forall ch col,
        Chart.chart_y c !! ch = Some col ->
        length col = length sampled /\
        forall i, col !! i = sampled !! i ≫= fun p => Chart.values p !! ch.
Proof.
  intros Hkey Hm H data step. unfold Chart.prepare_chart_data in H.
  rewrite (proj2 (key_valid signal_name)) in H by (rewrite Hkey; by eexists).
  rewrite Hkey in H. cbn [negb] in H. cbv zeta in H. fold data in H.
  destruct (Nat.eqb_spec (length data) 0) as [Hnil|Hnonnil].
  { injection H as <-. exists []. apply nil_length_inv in Hnil.
    split; [intros i; by rewrite Hnil|].
    split; [unfold step, Chart.sampling_step; rewrite Hnil; cbn [length];
            destruct (Z.ltb_spec max_points (Z.of_nat 0)); lia|].
    split; [done|]. rewrite Hnil. by destruct (decide _). }
  destruct (sampled_lookup data max_points Hm) as (sampled & Hsam & Hstep & Hs).
  rewrite Hsam in H. exists sampled. split; [done|]. split; [done|].
  destruct (decide (sig = Chart.TEMP)) as [->|Hsig].
  - destruct (Chart.first_values sampled) as [y|e] eqn:Hy; [|done].
    injection H as <-. cbn. split; [done|].
    by apply first_values_Ret.
  - set (n := match sampled with [] => 0%nat | d :: _ => length (Chart.values d) end)
      in H.
    assert (match sig with
            | Chart.TEMP => Chart.Err Chart.IndexError
            | _ => match Chart.fill_channels n sampled (replicate n []) with
                   | Chart.Err e => Chart.Err e
                   | Chart.Ret y_data =>
                       Chart.Ret (Chart.ChartData (seq 0 (length sampled)) y_data)
                   end
            end = Chart.Ret c) as H' by (destruct sig; done).
    clear H.
    assert (Chart.fill_channels n sampled (replicate n [])
            = Chart.Ret (Chart.chart_y c) /\
            Chart.chart_x c = seq 0 (length sampled)) as [Hfill Hx].
    { destruct sig; try done;
        destruct (Chart.fill_channels n sampled (replicate n [])); try done;
        by injection H' as <-. }
    split; [done|].
    apply fill_channels_Ret in Hfill as (Hlen & Hall & Hy).
    rewrite length_replicate in Hlen. split.
    + rewrite Hlen. unfold n.
      pose proof (Hs 0%nat) as H0. cbn in H0.
      destruct sampled as [|d0 ?], data as [|d ?]; cbn in H0; by simplify_eq.
    + intros ch col Hcol.
      assert (ch < n)%nat as Hch
        by (rewrite <- Hlen; by apply lookup_lt_is_Some; eexists).
      rewrite (Hy ch Hch), lookup_replicate_2 in Hcol by done.
      cbn in Hcol. injection Hcol as <-.
      apply (omap_lookup_total (fun p => Chart.values p !! ch)).
      eapply Forall_impl; [exact Hall|]. intros p Hp. by apply Hp.
Qed.

(** X19: [max_points] is not a bound on the chart.  For a valid signal
    and a positive [max_points], the chart [prepare_chart_data] returns
    has the abscissae [0 .. k-1], where [k] is at most the length of the
    queue and at most [2 * max_points - 1]; [k] is at least [max_points]
    as soon as the queue is longer than that, and a queue shorter than
    [2 * max_points] is charted whole.  Every series of [y] has [k]
    points ([y] itself has, for TEMP). *)
Theorem chart_size_is_bounded signal_name sig max_points
    (st : Chart.state V T) c :
  Chart.key signal_name = Some sig -> 0 < max_points ->
  Chart.prepare_chart_data signal_name max_points st = Chart.Ret c ->
  let n := length (Chart.items (Chart.data_queues st sig)) in
  let k := length (Chart.chart_x c) in
  Chart.chart_x c = seq 0 k /\
  (k <= n)%nat /\ Z.of_nat k <= 2 * max_points - 1 /\
  (max_points < Z.of_nat n -> max_points <= Z.of_nat k) /\
  (Z.of_nat n < 2 * max_points -> k = n) /\
  if decide (sig = Chart.TEMP) then length (Chart.chart_y c) = k
  else Forall (fun col => length col = k) (Chart.chart_y c).
Proof.
  intros Hkey Hm H n k.
  destruct (prepare_chart_data_Ret _ _ _ _ _ Hkey Hm H)
    as (sampled & Hs & Hstep & Hx & Hy).
  assert (k = length sampled) as Hk by (unfold k; by rewrite Hx, length_seq).
  rewrite Hk.
  destruct (sampled_size n max_points (length sampled) Hm
              (sampled_positions _ _ _ Hs)) as (H1 & H2 & H3 & H4).
  repeat (split; [done|]).
  destruct (decide (sig = Chart.TEMP)); [by destruct Hy|].
  destruct Hy as [_ Hy]. apply Forall_lookup. intros ch col Hcol.
  by destruct (Hy ch col Hcol).
Qed.

(** X20: what the chart shows.  With [step = len(data) // max_points]
    when the queue is longer than a positive [max_points], and 1
    otherwise: for ECG and ADC, [y] has one series for each value of the
    first queued frame, and point [i] of series [ch] is value [ch] of
    the queued frame [i * step]; for TEMP, point [i] of [y] is the list
    of the first value of the queued frame [i * step].  The nested loops
    that fill [y_data] amount to this transposition. *)
Theorem chart_series_are_the_sampled_channels signal_name sig max_points
    (st : Chart.state V T) c :
  Chart.key signal_name = Some sig -> 0 < max_points ->
  Chart.prepare_chart_data signal_name max_points st = Chart.Ret c ->
  let data := Chart.items (Chart.data_queues st sig) in
  let step := Chart.sampling_step (length data) max_points in
  if decide (sig = Chart.TEMP) then
    forall i,
      Chart.chart_y c !! i
      = data !! (i * step)%nat ≫= fun p =>
          head (Chart.values p) ≫= fun v => Some [v]
  else
    length (Chart.chart_y c)
    = (if data is d :: _ then length (Chart.values d) else 0%nat) /\
    forall ch col,
      Chart.chart_y c !! ch = Some col ->
      forall i,
        col !! i = data !! (i * step)%nat ≫= fun p => Chart.values p !! ch.
Proof.
  intros Hkey Hm H data step.
  destruct (prepare_chart_data_Ret _ _ _ _ _ Hkey Hm H)
    as (sampled & Hs & _ & _ & Hy).
  fold data step in Hs, Hy.
  destruct (decide (sig = Chart.TEMP)).
  - destruct Hy as [_ Hy]. intros i. by rewrite Hy, Hs.
  - destruct Hy as [Hlen Hy]. split; [done|].
    intros ch col Hcol i. destruct (Hy ch col Hcol) as [_ Hi].
    by rewrite Hi, Hs.
Qed.

(** X21: when the chart is served.  For a valid signal
    [prepare_chart_data] raises [ZeroDivisionError] on a non-empty queue
    when [max_points] is 0; for any other [max_points], negative ones
    included, it returns a chart as soon as the queued frames all have
    the same, positive number of values. *)
Theorem chart_is_served_for_uniform_frames signal_name sig max_points
    (st : Chart.state V T) :
  Chart.key signal_name = Some sig ->
  let data := Chart.items (Chart.data_queues st sig) in
  (max_points = 0 -> data <> [] ->
   Chart.prepare_chart_data signal_name max_points st
   = Chart.Err Chart.ZeroDivisionError) /\
  (max_points <> 0 ->
   forall w, (0 < w)%nat ->
     Forall (fun p => length (Chart.values p) = w) data ->
     exists c,
       Chart.prepare_chart_data signal_name max_points st = Chart.Ret c).
Proof.
  intros Hkey data. unfold Chart.prepare_chart_data.
  rewrite (proj2 (key_valid signal_name)) by (rewrite Hkey; by eexists).
  rewrite Hkey. cbn [negb]. fold data. split.
  - intros -> Hdata.
    destruct (Nat.eqb_spec (length data) 0) as [Hnil|_];
      [by apply nil_length_inv in Hnil|].
    destruct (Z.ltb_spec 0 (Z.of_nat (length data))); [done|].
    destruct data; [done | cbn in *; lia].
  - intros Hm w Hw Hall.
    destruct (Nat.eqb_spec (length data) 0) as [Hnil|Hlen]; [by eexists|].
    assert (exists sampled,
      (if max_points <? Z.of_nat (length data) then
         if max_points =? 0 then Chart.Err Chart.ZeroDivisionError
         else Chart.slice_step (Z.of_nat (length data) / max_points) data
       else Chart.Ret data) = Chart.Ret sampled /\
      Forall (fun p => length (Chart.values p) = w) sampled)
      as (sampled & -> & Hs).
    { destruct (Z.ltb_spec max_points (Z.of_nat (length data))) as [Hlt|];
        [|by exists data].
      destruct (Z.eqb_spec max_points 0); [done|].
      unfold Chart.slice_step.
      destruct (Z.eqb_spec (Z.of_nat (length data) / max_points) 0) as [H0|_].
      { apply Z.div_small_iff in H0; [lia | done]. }
      destruct (0 <? _); eexists; (split; [done|]);
        apply stride_Forall; [done | by apply List.Forall_rev]. }
    assert (match sampled with
            | [] => 0%nat
            | d :: _ => length (Chart.values d)
            end <= w)%nat as Hn.
    { destruct Hs as [|d ? Hd _]; [lia | by rewrite Hd]. }
    destruct (fill_channels_total
                (match sampled with
                 | [] => 0%nat
                 | d :: _ => length (Chart.values d)
                 end) sampled) with (acc := replicate
                (match sampled with
                 | [] => 0%nat
                 | d :: _ => length (Chart.values d)
                 end) (@nil V)) as [y Hy].
    { eapply Forall_impl; [exact Hs|]. intros p Hp. cbn beta. by rewrite Hp. }
    destruct (first_values_total sampled) as [y' Hy'].
    { eapply Forall_impl; [exact Hs|]. intros p Hp. cbn beta. by rewrite Hp. }
    destruct sig; rewrite ?Hy, ?Hy'; by eexists.
Qed.

(** ** The queues under [push_data] *)

Lemma foldl_deque_append (es : list (Chart.entry V T)) :
  forall q,
    (length (Chart.items q) <= Chart.maxlen q)%nat ->
    foldl Chart.deque_append q es
    = Chart.Deque (Chart.maxlen q)
        (drop (length (Chart.items q ++ es) - Chart.maxlen q)
              (Chart.items q ++ es)).
Proof.
  induction es as [|e es IH]; intros [m l] Hq; cbn [foldl].
  - cbn in *. rewrite app_nil_r. replace (length l - m)%nat with 0%nat by lia.
    done.
  - rewrite IH.
    2:{ unfold Chart.deque_append. cbn. rewrite length_drop, length_app. cbn. lia. }
    unfold Chart.deque_append. cbn [Chart.maxlen Chart.items] in *.
    f_equal.
    rewrite <- (drop_app_le (l ++ [e]) es) by (rewrite length_app; cbn; lia).
    rewrite drop_drop, <- app_assoc. cbn [app]. f_equal.
    rewrite !length_app, length_drop, !length_app. cbn [length]. lia.
Qed.

(** X22: a queue is a sliding window over what has been pushed.  For a
    valid signal whose queue is within its [maxlen], [push_data] leaves
    in that queue the last [maxlen] of the elements queued so far (the
    old ones followed by one element for each frame, in order), however
    the call ends; the sample counter grows by the number of frames, the
    other queues and counters are untouched; and [packet_count] grows by
    one unless the call raises [IndexError] on an empty last TEMP frame,
    in which case the frames are queued and counted all the same. *)
Theorem push_data_slides_the_queue signal_name sig frames timestamp
    time_time now (st st' : Chart.state V T) r :
  Chart.key signal_name = Some sig ->
  (length (Chart.items (Chart.data_queues st sig))
   <= Chart.maxlen (Chart.data_queues st sig))%nat ->
  Chart.push_data signal_name frames timestamp time_time now st = (st', r) ->
  let q := Chart.data_queues st sig in
  let queued :=
    Chart.items q
    ++ imap (fun i frame => Chart.Entry frame (default (time_time i) timestamp))
            frames in
  Chart.data_queues st' sig
  = Chart.Deque (Chart.maxlen q)
      (drop (length queued - Chart.maxlen q) queued) /\
  (length (Chart.items (Chart.data_queues st' sig)) <= Chart.maxlen q)%nat /\
  Chart.samples (Chart.stats st' sig)
  = (Chart.samples (Chart.stats st sig) + length frames)%nat /\
  (forall k, k <> sig ->
     Chart.data_queues st' k = Chart.data_queues st k /\
     Chart.stats st' k = Chart.stats st k) /\
  (Chart.packet_count st' = (Chart.packet_count st + 1)%nat \/
   (sig = Chart.TEMP /\ last frames = Some [] /\
    r = Chart.Err Chart.IndexError /\
    Chart.packet_count st' = Chart.packet_count st)).
Proof.
  intros Hkey Hq H q queued. unfold Chart.push_data in H.
  rewrite (proj2 (key_valid signal_name)) in H by (rewrite Hkey; by eexists).
  rewrite Hkey in H. cbn [negb] in H.
  rewrite (foldl_deque_append _ _ Hq) in H. fold q queued in H.
  assert (forall st1 : Chart.state V T,
    Chart.data_queues st1 = Chart.assign (Chart.data_queues st) sig
      (Chart.Deque (Chart.maxlen q)
         (drop (length queued - Chart.maxlen q) queued)) ->
    Chart.samples (Chart.stats st1 sig)
    = (Chart.samples (Chart.stats st sig) + length frames)%nat ->
    (forall k, k <> sig -> Chart.stats st1 k = Chart.stats st k) ->
    Chart.data_queues st1 sig
    = Chart.Deque (Chart.maxlen q)
        (drop (length queued - Chart.maxlen q) queued) /\
    (length (Chart.items (Chart.data_queues st1 sig)) <= Chart.maxlen q)%nat /\
    Chart.samples (Chart.stats st1 sig)
    = (Chart.samples (Chart.stats st sig) + length frames)%nat /\
    (forall k, k <> sig ->
       Chart.data_queues st1 k = Chart.data_queues st k /\
       Chart.stats st1 k = Chart.stats st k)) as Hframe.
  { intros st1 Hdq Hsamples Hstats. rewrite Hdq. unfold Chart.assign.
    rewrite decide_True by done. split; [done|]. split.
    - cbn. rewrite length_drop. lia.
    - split; [done|]. intros k Hk. rewrite decide_False by done. auto. }
  destruct sig;
    repeat match type of H with
    | context [last frames] => destruct (last frames) as [[|v frame]|]
    | context [(?a mod 5 =? 0)%nat] => destruct (a mod 5 =? 0)%nat
    | context [Chart.prepare_chart_data ?a ?b ?c] =>
        destruct (Chart.prepare_chart_data a b c)
    end;
    injection H as <- <-;
    (split_and?;
      [ apply Hframe | apply Hframe | apply Hframe | apply Hframe | ];
      try (cbn; unfold Chart.assign; (done || by rewrite ?decide_True by done));
      try (intros k Hk; cbn; unfold Chart.assign;
           by rewrite ?decide_False by done);
      try (by left); try (by right)).
Qed.

End ChartFill.

Lemma chart_size_is_bounded_witness :
  let st := Chart.one_queue 10 (Chart.ramp 7) in
  let c := Chart.ChartData [0; 1; 2; 3]%nat [[0; 2; 4; 6]] in
  let n := length (Chart.items (Chart.data_queues st Chart.ECG)) in
  let k := length (Chart.chart_x c) in
  Chart.chart_x c = seq 0 k /\
  (k <= n)%nat /\ Z.of_nat k <= 2 * 3 - 1 /\
  (3 < Z.of_nat n -> 3 <= Z.of_nat k) /\
  (Z.of_nat n < 2 * 3 -> k = n) /\
  if decide (Chart.ECG = Chart.TEMP) then length (Chart.chart_y c) = k
  else Forall (fun col => length col = k) (Chart.chart_y c).
Proof.
  intros st c.
  apply (chart_size_is_bounded "ECG" Chart.ECG 3 st c);
    [reflexivity | lia | vm_compute; reflexivity].
Defined.

Lemma chart_series_are_the_sampled_channels_witness :
  let st := Chart.one_queue 10 (Chart.ramp 7) in
  let c := Chart.ChartData [0; 1; 2; 3]%nat [[0; 2; 4; 6]] in
  let data := Chart.items (Chart.data_queues st Chart.ECG) in
  let step := Chart.sampling_step (length data) 3 in
  if decide (Chart.ECG = Chart.TEMP) then
    forall i,
      Chart.chart_y c !! i
      = data !! (i * step)%nat ≫= fun p =>
          head (Chart.values p) ≫= fun v => Some [v]
  else
    length (Chart.chart_y c)
    = (if data is d :: _ then length (Chart.values d) else 0%nat) /\
    forall ch col,
      Chart.chart_y c !! ch = Some col ->
      forall i,
        col !! i = data !! (i * step)%nat ≫= fun p => Chart.values p !! ch.
Proof.
  intros st c.
  apply (chart_series_are_the_sampled_channels "ECG" Chart.ECG 3 st c);
    [reflexivity | lia | vm_compute; reflexivity].
Defined.

Lemma chart_is_served_for_uniform_frames_witness :
  let st := Chart.one_queue 10 (Chart.ramp 7) in
  let data := Chart.items (Chart.data_queues st Chart.TEMP) in
  (-2 = 0 -> data <> [] ->
   Chart.prepare_chart_data "TEMP" (-2) st
   = Chart.Err Chart.ZeroDivisionError) /\
  (-2 <> 0 ->
   forall w, (0 < w)%nat ->
     Forall (fun p => length (Chart.values p) = w) data ->
     exists c, Chart.prepare_chart_data "TEMP" (-2) st = Chart.Ret c).
Proof.
  intros st.
  apply (chart_is_served_for_uniform_frames "TEMP" Chart.TEMP (-2) st).
  reflexivity.
Defined.

Lemma push_data_slides_the_queue_witness :
  let st := Chart.one_queue 3 (Chart.ramp 2) in
  let frames := [[1; 2]; [3; 4]; [5; 6]; [7]] in
  let out := Chart.push_data "ECG" frames None (fun i => Z.of_nat i)
               "2025-02-01T12:00:00" st in
  let q := Chart.data_queues st Chart.ECG in
  let queued :=
    Chart.items q
    ++ imap (fun i frame => Chart.Entry frame (default (Z.of_nat i) None))
            frames in
  Chart.data_queues out.1 Chart.ECG
  = Chart.Deque (Chart.maxlen q)
      (drop (length queued - Chart.maxlen q) queued) /\
  (length (Chart.items (Chart.data_queues out.1 Chart.ECG))
   <= Chart.maxlen q)%nat /\
  Chart.samples (Chart.stats out.1 Chart.ECG)
  = (Chart.samples (Chart.stats st Chart.ECG) + length frames)%nat /\
  (forall k, k <> Chart.ECG ->
     Chart.data_queues out.1 k = Chart.data_queues st k /\
     Chart.stats out.1 k = Chart.stats st k) /\
  (Chart.packet_count out.1 = (Chart.packet_count st + 1)%nat \/
   (Chart.ECG = Chart.TEMP /\ last frames = Some [] /\
    out.2 = Chart.Err Chart.IndexError /\
    Chart.packet_count out.1 = Chart.packet_count st)).
Proof.
  intros st frames out.
  apply (push_data_slides_the_queue "ECG" Chart.ECG frames None
           (fun i => Z.of_nat i) "2025-02-01T12:00:00" st out.1 out.2);
    [reflexivity | vm_compute; lia | apply surjective_pairing].
Defined.

(** ** The queues along a connection *)

Section Realtime.

Context {V T : Type}.

Lemma push_data_cases signal_name sig frames timestamp time_time now
    (st st' : Chart.state V T) r :
  Chart.key signal_name = Some sig ->
  Chart.push_data signal_name frames timestamp time_time now st = (st', r) ->
  Chart.data_queues st'
  = Chart.assign (Chart.data_queues st) sig
      (foldl Chart.deque_append (Chart.data_queues st sig)
         (imap (fun i frame =>
                  Chart.Entry frame (default (time_time i) timestamp)) frames)) /\
  ((Chart.packet_count st' = Chart.packet_count st /\ exists e, r = Chart.Err e) \/
   (Chart.packet_count st' = (Chart.packet_count st + 1)%nat /\
    forall c, r = Chart.Ret (Some c) ->
      (Chart.packet_count st' mod 5 = 0)%nat /\
      Chart.prepare_chart_data signal_name 1000 st' = Chart.Ret c)).
Proof.
  intros Hkey H. unfold Chart.push_data in H.
  rewrite (proj2 (key_valid signal_name)) in H by (rewrite Hkey; by eexists).
  rewrite Hkey in H. cbn [negb] in H. cbv zeta in H.
  destruct sig;
    repeat match type of H with
    | context [last frames] => destruct (last frames) as [[|v frame]|]
    | context [(?a mod 5 =? 0)%nat] =>
        destruct (Nat.eqb_spec (a mod 5) 0)
    | context [Chart.prepare_chart_data ?a ?b ?c] =>
        destruct (Chart.prepare_chart_data a b c) eqn:?
    end;
    injection H as <- <-;
    (split; [done|]);
    first [ left; split; [done | by eexists]
          | right; split; [done|]; intros c' [= <-]; by split
          | right; split; [done|]; intros c' [=] ].
Qed.

Lemma chart_points_bound signal_name sig max_points (st : Chart.state V T) c :
  Chart.key signal_name = Some sig -> 0 < max_points ->
  Chart.prepare_chart_data signal_name max_points st = Chart.Ret c ->
  (length (Chart.chart_x c)
   <= length (Chart.items (Chart.data_queues st sig)))%nat /\
  Z.of_nat (length (Chart.chart_x c)) <= 2 * max_points - 1.
Proof.
  intros Hkey Hm H.
  destruct (prepare_chart_data_Ret _ _ _ _ _ Hkey Hm H)
    as (sampled & Hs & _ & Hx & _).
  rewrite Hx, length_seq.
  destruct (sampled_size _ max_points (length sampled) Hm
              (sampled_positions _ _ _ Hs)) as (H1 & H2 & _).
  done.
Qed.

Lemma handle_realtime_data_step truth (m : Chart.message V T) st st' emitted :
  Chart.handle_realtime_data truth m st = (st', emitted) ->
  Chart.within_capacity st ->
  Chart.within_capacity st' /\
  (Chart.packet_count st <= Chart.packet_count st'
   <= Chart.packet_count st + 1)%nat /\
  forall c, emitted = Some c ->
    Chart.packet_count st' = (Chart.packet_count st + 1)%nat /\
    (Chart.packet_count st' mod 5 = 0)%nat /\
    (length (Chart.chart_x c) <= 1999)%nat.
Proof.
  unfold Chart.handle_realtime_data. intros H Hcap.
  destruct (negb (truthy (Chart.m_signal m)) || _) eqn:Hsig.
  { injection H as <- <-. split; [done|]. split; [lia|]. by intros c. }
  apply orb_false_elim in Hsig as [_ Hin].
  apply negb_false_iff in Hin.
  change (Chart.validate_signal_name (default "" (Chart.m_signal m)) = true)
    in Hin.
  apply key_valid in Hin as [sig Hkey].
  destruct (Chart.push_data _ _ _ _ _ st) as [st1 r] eqn:Hpush.
  destruct (push_data_cases _ _ _ _ _ _ _ _ _ Hkey Hpush) as [Hq Hpc].
  assert (st' = st1) as -> by (destruct r; by injection H).
  assert (Chart.within_capacity st1) as Hcap1.
  { intros k. rewrite Hq. unfold Chart.assign.
    destruct (decide (k = sig)) as [->|]; [|apply Hcap].
    destruct (Hcap sig) as [Hmax Hlen].
    rewrite foldl_deque_append by lia. cbn. rewrite length_drop. lia. }
  split; [done|]. split; [destruct Hpc as [[-> _]|[-> _]]; lia|].
  intros c ->. destruct r as [[c'|]|e]; try done. injection H as ->.
  destruct Hpc as [[_ [e He]]|[Hpc Hc]]; [done|].
  destruct (Hc c eq_refl) as [Hmod Hchart].
  split; [done|]. split; [done|].
  destruct (chart_points_bound _ _ 1000 _ _ Hkey eq_refl Hchart) as [_ Hb].
  lia.
Qed.

(** X23: along a connection the queues stay within the capacity they
    were created with, and no chart is large.  Starting from the state
    [DashboardState()] builds, after any sequence of realtime messages
    the ECG and ADC queues hold at most 2500 elements and the TEMP queue
    at most 120; [packet_count] is at most the number of messages; a
    chart is emitted at most once in five counted packets; and every
    chart emitted has at most 1999 points. *)
Theorem realtime_queues_and_charts_stay_bounded
    (truth : T -> bool) (messages : list (Chart.message V T)) :
  let out := Chart.handle_all truth messages (Chart.DashboardState V T) in
  (forall sig,
     Chart.maxlen (Chart.data_queues out.1 sig) = Chart.capacity sig /\
     (length (Chart.items (Chart.data_queues out.1 sig))
      <= Chart.capacity sig)%nat) /\
  (Chart.packet_count out.1 <= length messages)%nat /\
  (length out.2 <= Chart.packet_count out.1 / 5)%nat /\
  Forall (fun c => (length (Chart.chart_x c) <= 1999)%nat) out.2.
Proof.
  assert (forall (st : Chart.state V T),
    Chart.within_capacity st ->
    let out := Chart.handle_all truth messages st in
    Chart.within_capacity out.1 /\
    (Chart.packet_count st <= Chart.packet_count out.1
     <= Chart.packet_count st + length messages)%nat /\
    (Chart.packet_count st / 5 + length out.2
     <= Chart.packet_count out.1 / 5)%nat /\
    Forall (fun c => (length (Chart.chart_x c) <= 1999)%nat) out.2) as Hrun.
  { induction messages as [|m messages' IH]; intros st Hcap.
    - cbn. split; [done|]. split; [lia|]. split; [lia | constructor].
    - cbn [Chart.handle_all].
      destruct (Chart.handle_realtime_data truth m st) as [st1 emitted] eqn:Hm.
      destruct (handle_realtime_data_step truth m st st1 emitted Hm Hcap)
        as (Hcap1 & Hpc1 & Hem).
      specialize (IH st1 Hcap1). cbv zeta in IH.
      destruct (Chart.handle_all truth messages' st1) as [st2 charts].
      cbn [fst snd] in *. destruct IH as (Hcap2 & Hpc2 & Hn & Hall).
      split; [done|]. split; [cbn [length]; lia|].
      destruct emitted as [c|]; cbn -[Nat.div Nat.modulo].
      + destruct (Hem c eq_refl) as (Hpc & Hmod & Hc).
        split; [|by constructor].
        assert (Chart.packet_count st1 / 5
                = S (Chart.packet_count st / 5))%nat as Hdiv; [|lia].
        pose proof (Nat.div_mod_eq (Chart.packet_count st1) 5).
        pose proof (Nat.div_mod_eq (Chart.packet_count st) 5).
        pose proof (Nat.mod_upper_bound (Chart.packet_count st) 5).
        lia.
      + split; [|done].
        assert (Chart.packet_count st / 5 <= Chart.packet_count st1 / 5)%nat
          by (apply Nat.Div0.div_le_mono; lia).
        lia. }
  cbv zeta.
  destruct (Hrun (Chart.DashboardState V T)) as (Hcap & Hpc & Hn & Hall).
  { intros sig. destruct sig; cbn [Chart.DashboardState Chart.data_queues
      Chart.maxlen Chart.items Chart.capacity length]; split; (reflexivity || lia). }
  cbn [Chart.DashboardState Chart.packet_count] in Hpc, Hn.
  split; [done|]. split; [lia|]. split; [|done].
  rewrite Nat.Div0.div_0_l in Hn. lia.
Qed.

End Realtime.
